(** * appointment_checker.py: the availability parser, the notifier and the poll loop

    A shallow embedding of [src/appointment_checker.py].

    Conventions of the embedding.
    - A Python [str] is a [string]: the bytes of its UTF-8 encoding, and
      for a lone surrogate U+DC80..U+DCFF (what [surrogateescape] makes of
      a byte of the command line or of the environment that is not UTF-8)
      that byte itself.  A string with a byte outside well-formed UTF-8 is
      thus a [str] that cannot be encoded ([PyStr.utf8_encode_error]).
    - The character classes of [str.strip], [str.isspace], [\s] and [\d]
      are taken on their ASCII members, and [int()] reads ASCII digits
      only: on a text of ASCII characters the functions below agree with
      Python's; a text with a Unicode blank or a Unicode digit is outside
      the embedding, and the statements that depend on the classes say so
      ([is_ascii]).
    - [strftime] is glibc's, in the C locale: [%Y] is the year without
      padding (202 for the year 202), [%d] and [%m] have two digits.
    - An exception is a value of [exn]; code that may raise returns a
      [result].  Only subclasses of [Exception] are represented: those are
      what the two [except] clauses of the program can see.
    - [BeautifulSoup(html, "html.parser")] is represented by the tree it
      builds ([Soup.node]); the methods of bs4 the program calls
      ([find_all], [get_text], [find_next]) are functions on that tree that
      follow the order bs4 links its elements in ([next_element]).
    - The environment, the mail relay, the HTTP server and the clock are
      explicit inputs; what the program prints, sends and sleeps is an
      explicit list of events.  Writing a line to one of the two streams
      is taken to succeed. *)

From Stdlib Require Import ZArith List String Ascii Bool Lia DecimalString.
Import ListNotations.

Local Open Scope Z_scope.
Local Open Scope list_scope.
Local Open Scope string_scope.

(* ------------------------------------------------------------------ *)
(** ** Exceptions and results *)

Inductive exn : Type :=
| ValueError (msg : string)
| Exception (cls msg : string).

(** [str(e)], the description the log lines print. *)
Definition exn_str (e : exn) : string :=
  match e with
  | ValueError msg => msg
  | Exception _ msg => msg
  end.

Inductive result (A : Type) : Type :=
| Ok (a : A)
| Raise (e : exn).
Arguments Ok {A} a.
Arguments Raise {A} e.

Definition bind {A B : Type} (r : result A) (f : A -> result B) : result B :=
  match r with
  | Ok a => f a
  | Raise e => Raise e
  end.

Notation "x <- r ;; k" := (bind r (fun x => k))
  (at level 61, r at next level, right associativity).

Definition returns {A : Type} (r : result A) : Prop :=
  match r with
  | Ok _ => True
  | Raise _ => False
  end.

(* ------------------------------------------------------------------ *)
(** ** The methods of [str] the program uses *)

Module PyStr.

Definition code (c : ascii) : N := N_of_ascii c.

(** ASCII members of [str.isspace], which are those of [str.strip] and of
    [\s]: TAB, LF, VT, FF, CR, FS, GS, RS, US and the space.  (The Unicode
    members, U+0085, U+00A0 and the like, are not represented.) *)
Definition isspace (c : ascii) : bool :=
  let n := code c in
  (((9 <=? n) && (n <=? 13)) || ((28 <=? n) && (n <=? 32)))%N.

Definition isdigit (c : ascii) : bool :=
  let n := code c in ((48 <=? n) && (n <=? 57))%N.

Definition digit_val (c : ascii) : Z := Z.of_N (code c) - 48.

Definition lower_char (c : ascii) : ascii :=
  let n := code c in
  if ((65 <=? n) && (n <=? 90))%N then ascii_of_N (n + 32) else c.

Fixpoint lower (s : string) : string :=
  match s with
  | EmptyString => EmptyString
  | String c s' => String (lower_char c) (lower s')
  end.

Fixpoint lstrip (s : string) : string :=
  match s with
  | EmptyString => EmptyString
  | String c s' => if isspace c then lstrip s' else s
  end.

Fixpoint rstrip (s : string) : string :=
  match s with
  | EmptyString => EmptyString
  | String c s' =>
      match rstrip s' with
      | EmptyString => if isspace c then EmptyString else String c EmptyString
      | r => String c r
      end
  end.

(** [s.strip()] *)
Definition strip (s : string) : string := rstrip (lstrip s).

(** [sub in s] *)
Fixpoint contains (sub s : string) : bool :=
  String.prefix sub s ||
  match s with
  | EmptyString => false
  | String _ s' => contains sub s'
  end.

(** Truth value of a [str]: the empty string is false. *)
Definition truthy (s : string) : bool :=
  match s with
  | EmptyString => false
  | String _ _ => true
  end.

(** [sep.join(l)] *)
Fixpoint join (sep : string) (l : list string) : string :=
  match l with
  | [] => ""
  | [x] => x
  | x :: rest => x ++ sep ++ join sep rest
  end.

(** [str(n)] of a number that is not negative. *)
Definition decimal (n : N) : string := NilEmpty.string_of_uint (N.to_uint n).

Definition hex_digit (n : N) : ascii :=
  if (n <? 10)%N then ascii_of_N (48 + n) else ascii_of_N (87 + n).

(** Two lowercase hexadecimal digits of a byte. *)
Definition hex2 (c : ascii) : string :=
  String (hex_digit (code c / 16)) (String (hex_digit (code c mod 16)) "").

Definition backslash : ascii := ascii_of_N 92.
Definition single_quote : ascii := ascii_of_N 39.
Definition double_quote : ascii := ascii_of_N 34.

Fixpoint has_char (c : ascii) (s : string) : bool :=
  match s with
  | EmptyString => false
  | String a s' => Ascii.eqb a c || has_char c s'
  end.

Fixpoint repr_chars (quote : ascii) (s : string) : string :=
  match s with
  | EmptyString => EmptyString
  | String c s' =>
      let n := code c in
      (if Ascii.eqb c quote || Ascii.eqb c backslash
       then String backslash (String c "")
       else if (n =? 9)%N then String backslash "t"
       else if (n =? 10)%N then String backslash "n"
       else if (n =? 13)%N then String backslash "r"
       else if (n <? 32)%N || (n =? 127)%N then String backslash ("x" ++ hex2 c)
       else String c "")
      ++ repr_chars quote s'
  end.

(** [repr(s)] of an ASCII text: single quotes, unless the text has a
    single quote and no double one; control characters escaped. *)
Definition repr (s : string) : string :=
  let quote :=
    if has_char single_quote s && negb (has_char double_quote s)
    then double_quote else single_quote in
  String quote (repr_chars quote s ++ String quote "").

(** The blanks [int()] skips around a literal: C's [isspace], that is TAB,
    LF, VT, FF, CR and the space, not the separators FS..US that
    [str.strip] also drops. *)
Definition is_c_space (c : ascii) : bool :=
  let n := code c in (((9 <=? n) && (n <=? 13)) || (n =? 32))%N.

Fixpoint skip_c_space (s : string) : string :=
  match s with
  | EmptyString => EmptyString
  | String c s' => if is_c_space c then skip_c_space s' else s
  end.

(** The digits of an integer literal, scanned as [PyLong_FromString] does:
    one [_] is allowed between two digits; the scan stops at the first
    character that is neither, and fails on a doubled or a trailing [_].
    Gives the value, the number of digits and the text left. *)
Fixpoint scan_digits (acc : Z) (digits : N) (prev_underscore : bool)
    (s : string) : option (Z * N * string) :=
  match s with
  | EmptyString => if prev_underscore then None else Some (acc, digits, s)
  | String c s' =>
      if isdigit c
      then scan_digits (10 * acc + digit_val c) (digits + 1) false s'
      else if (code c =? 95)%N
      then (if prev_underscore then None else scan_digits acc digits true s')
      else if prev_underscore then None else Some (acc, digits, s)
  end.

(** The most digits [int()] converts ([sys.int_info.default_max_str_digits]). *)
Definition max_str_digits : N := 4300.

(** [int(s)], base ten: blanks around the literal are skipped, one sign is
    allowed, then digits with single underscores between them; a literal
    of more than 4300 digits is refused before what follows it is looked
    at; anything else raises [ValueError] too. *)
Definition int (s : string) : result Z :=
  let invalid :=
    Raise (ValueError ("invalid literal for int() with base 10: " ++ repr s)) in
  let t := skip_c_space s in
  let (sign, literal) :=
    match t with
    | String "+" r => (1, r)
    | String "-" r => (-1, r)
    | _ => (1, t)
    end in
  match literal with
  | String "_" _ => invalid
  | _ =>
      match scan_digits 0 0 false literal with
      | None => invalid
      | Some (n, digits, rest) =>
          if (max_str_digits <? digits)%N
          then Raise (ValueError
                 ("Exceeds the limit (4300 digits) for integer string conversion: value has "
                  ++ decimal digits
                  ++ " digits; use sys.set_int_max_str_digits() to increase the limit"))
          else if (digits =? 0)%N then invalid
          else match skip_c_space rest with
               | EmptyString => Ok (sign * n)
               | String _ _ => invalid
               end
      end
  end.

(** How many bytes the well-formed UTF-8 sequence at the head of [s] has
    (RFC 3629: no overlong form, no surrogate, nothing above U+10FFFF);
    [0] when none starts there. *)
Definition in_range (lo hi : N) (c : ascii) : bool :=
  ((lo <=? code c) && (code c <=? hi))%N.

Definition well_formed_len (s : string) : nat :=
  match s with
  | EmptyString => 0
  | String b0 s1 =>
      if (code b0 <? 128)%N then 1
      else match s1 with
      | EmptyString => 0
      | String b1 s2 =>
          if in_range 194 223 b0 then (if in_range 128 191 b1 then 2 else 0)
          else match s2 with
          | EmptyString => 0
          | String b2 s3 =>
              let second3 :=
                if (code b0 =? 224)%N then in_range 160 191 b1
                else if (code b0 =? 237)%N then in_range 128 159 b1
                else in_range 128 191 b1 in
              if in_range 224 239 b0
              then (if second3 && in_range 128 191 b2 then 3 else 0)
              else match s3 with
              | EmptyString => 0
              | String b3 _ =>
                  let second4 :=
                    if (code b0 =? 240)%N then in_range 144 191 b1
                    else if (code b0 =? 244)%N then in_range 128 143 b1
                    else in_range 128 191 b1 in
                  if in_range 240 244 b0 && second4 && in_range 128 191 b2
                     && in_range 128 191 b3
                  then 4 else 0
              end
          end
      end
  end%nat.

(** The first character of [s] that is a lone surrogate: its index, counted
    in characters, and the text from it on.  [skip] counts the bytes still
    to pass of the character under way. *)
Fixpoint first_surrogate (skip : nat) (pos : N) (s : string) : option (N * string) :=
  match s with
  | EmptyString => None
  | String _ s' =>
      match skip with
      | S k => first_surrogate k pos s'
      | O =>
          match well_formed_len s with
          | O => Some (pos, s)
          | S k => first_surrogate k (pos + 1) s'
          end
      end
  end.

(** How many lone surrogates stand in a row at the head of [s]. *)
Fixpoint surrogate_run (s : string) : N :=
  match s with
  | EmptyString => 0
  | String _ s' =>
      match well_formed_len s with
      | O => 1 + surrogate_run s'
      | S _ => 0
      end
  end%N.

(** What [s.encode("utf-8")] raises, if it does. *)
Definition utf8_encode_error (s : string) : option exn :=
  match first_surrogate 0 0 s with
  | Some (pos, String b _ as tail) =>
      let run := surrogate_run tail in
      Some (Exception "UnicodeEncodeError"
        (if (run =? 1)%N
         then "'utf-8' codec can't encode character '" ++ String backslash "udc"
              ++ hex2 b ++ "' in position " ++ decimal pos
              ++ ": surrogates not allowed"
         else "'utf-8' codec can't encode characters in position " ++ decimal pos
              ++ "-" ++ decimal (pos + run - 1) ++ ": surrogates not allowed"))
  | _ => None
  end.

Definition is_ascii (c : ascii) : bool := (code c <? 128)%N.

(** [l.index(x)] raises [ValueError] when [x] is not in [l]. *)
Fixpoint index (x : string) (l : list string) : result Z :=
  match l with
  | [] => Raise (ValueError (x ++ " is not in list"))
  | y :: rest =>
      if String.eqb x y then Ok 0 else (i <- index x rest ;; Ok (i + 1))
  end.

(** One decimal digit, and the [%02d] and [%04d] renderings of a number
    below 100 and below 10000. *)
Definition digit_char (n : Z) : ascii := ascii_of_N (48 + Z.to_N (n mod 10)).

Definition pad2 (n : Z) : string :=
  String (digit_char (n / 10)) (String (digit_char n) "").

Definition pad4 (n : Z) : string :=
  String (digit_char (n / 1000)) (String (digit_char (n / 100)) (pad2 n)).

End PyStr.

(* ------------------------------------------------------------------ *)
(** ** Regular expressions, as [_strptime] uses them

    A backtracking matcher in continuation-passing style: an alternative
    is tried in order and abandoned when the rest of the pattern fails
    after it, [\s+] is greedy and gives characters back one at a time.
    The continuation receives the text consumed, the text left and the
    named groups, the last one matched first. *)

Module Re.

Inductive regex : Type :=
| Eps
| Never
| Chr (c : ascii)
| Cls (p : ascii -> bool)
| PlusCls (p : ascii -> bool)
| Seq (r1 r2 : regex)
| Alt (r1 r2 : regex)
| Group (name : string) (r : regex).

Definition groupdict : Type := list (string * string).

Definition orelse {R : Type} (a b : option R) : option R :=
  match a with
  | Some r => Some r
  | None => b
  end.

Section Matcher.
Context {R : Type}.

Fixpoint plus_cls (p : ascii -> bool) (s : string)
    (k : string -> string -> option R) : option R :=
  match s with
  | EmptyString => None
  | String c s' =>
      if p c
      then orelse (plus_cls p s' (fun m rest => k (String c m) rest))
                  (k (String c "") s')
      else None
  end.

(** Characters are compared ignoring case: the pattern is compiled with
    [re.IGNORECASE]. *)
Fixpoint rmatch (r : regex) (s : string) (g : groupdict)
    (k : string -> string -> groupdict -> option R) : option R :=
  match r with
  | Eps => k "" s g
  | Never => None
  | Chr c =>
      match s with
      | String a s' =>
          if Ascii.eqb (PyStr.lower_char a) (PyStr.lower_char c)
          then k (String a "") s' g else None
      | EmptyString => None
      end
  | Cls p =>
      match s with
      | String a s' => if p a then k (String a "") s' g else None
      | EmptyString => None
      end
  | PlusCls p => plus_cls p s (fun m rest => k m rest g)
  | Seq r1 r2 =>
      rmatch r1 s g (fun m1 s1 g1 =>
        rmatch r2 s1 g1 (fun m2 s2 g2 => k (m1 ++ m2) s2 g2))
  | Alt r1 r2 => orelse (rmatch r1 s g k) (rmatch r2 s g k)
  | Group name r1 =>
      rmatch r1 s g (fun m rest g1 => k m rest ((name, m) :: g1))
  end.

End Matcher.

(** [regex.match(s)]: the first match anchored at the start of [s], as the
    text left unconsumed and the named groups. *)
Definition re_match (r : regex) (s : string) : option (string * groupdict) :=
  rmatch r s [] (fun _ rest g => Some (rest, rev g)).

(** A literal word. *)
Fixpoint word (w : string) : regex :=
  match w with
  | EmptyString => Eps
  | String c w' => Seq (Chr c) (word w')
  end.

Definition range (lo hi : ascii) : ascii -> bool :=
  fun c => ((PyStr.code lo <=? PyStr.code c) && (PyStr.code c <=? PyStr.code hi))%N.

Definition alternatives (l : list regex) : regex := fold_right Alt Never l.

End Re.

(* ------------------------------------------------------------------ *)
(** ** [datetime.date] and [calendar] *)

Module Datetime.
Local Open Scope Z_scope.

Record date : Type := mkdate { year : Z; month : Z; day : Z }.

Definition MINYEAR : Z := 1.
Definition MAXYEAR : Z := 9999.

Definition is_leap (y : Z) : bool :=
  (y mod 4 =? 0) && (negb (y mod 100 =? 0) || (y mod 400 =? 0)).

Definition days_in_month (y m : Z) : Z :=
  if m =? 2 then (if is_leap y then 29 else 28)
  else if (m =? 4) || (m =? 6) || (m =? 9) || (m =? 11) then 30
  else 31.

(** [date(y, m, d)]: the constructor checks its fields. *)
Definition new (y m d : Z) : result date :=
  if negb ((MINYEAR <=? y) && (y <=? MAXYEAR))
  then Raise (ValueError "year is out of range")
  else if negb ((1 <=? m) && (m <=? 12))
  then Raise (ValueError "month must be in 1..12")
  else if negb ((1 <=? d) && (d <=? days_in_month y m))
  then Raise (ValueError "day is out of range for month")
  else Ok (mkdate y m d).

(** [a > b]: dates compare as the triples (year, month, day). *)
Definition gt (a b : date) : bool :=
  (year b <? year a) ||
  ((year a =? year b) &&
   ((month b <? month a) ||
    ((month a =? month b) && (day b <? day a)))).

Definition eqb (a b : date) : bool :=
  (year a =? year b) && (month a =? month b) && (day a =? day b).

Definition days_before_year (y : Z) : Z :=
  let p := y - 1 in p * 365 + p / 4 - p / 100 + p / 400.

Fixpoint days_before_month_aux (y : Z) (m : nat) : Z :=
  match m with
  | O => 0
  | S m' => days_before_month_aux y m' + days_in_month y (Z.of_nat m)
  end.

Definition days_before_month (y m : Z) : Z :=
  days_before_month_aux y (Z.to_nat (m - 1)).

Definition toordinal (d : date) : Z :=
  days_before_year (year d) + days_before_month (year d) (month d) + day d.

(** Monday is 0. *)
Definition weekday (d : date) : Z := (toordinal d + 6) mod 7.

Definition day_name : list string :=
  ["Monday"; "Tuesday"; "Wednesday"; "Thursday"; "Friday"; "Saturday"; "Sunday"].

Definition month_name : list string :=
  [""; "January"; "February"; "March"; "April"; "May"; "June"; "July";
   "August"; "September"; "October"; "November"; "December"].

Definition name_at (l : list string) (i : Z) : string := nth (Z.to_nat i) l "".

(** [str(d)] *)
Definition isoformat (d : date) : string :=
  PyStr.pad4 (year d) ++ "-" ++ PyStr.pad2 (month d) ++ "-" ++ PyStr.pad2 (day d).

(** [d.strftime(format)] for the directives the program writes.  [%Y] is
    the year as the C library writes it, without padding. *)
Fixpoint strftime (d : date) (format : string) : string :=
  match format with
  | EmptyString => EmptyString
  | String "%" (String c rest) =>
      (match c with
       | "A" => name_at day_name (weekday d)
       | "B" => name_at month_name (month d)
       | "d" => PyStr.pad2 (day d)
       | "m" => PyStr.pad2 (month d)
       | "Y" => PyStr.decimal (Z.to_N (year d))
       | _ => String "%" (String c "")
       end)%char ++ strftime d rest
  | String c rest => String c (strftime d rest)
  end.

End Datetime.

(* ------------------------------------------------------------------ *)
(** ** [datetime.strptime], after CPython's [_strptime.py] *)

Module Strptime.
Import Re.

(** [LocaleTime] in the C locale. *)
Definition f_weekday : list string := map PyStr.lower Datetime.day_name.
Definition f_month : list string := map PyStr.lower Datetime.month_name.

(** [sorted(l, key=len, reverse=True)]: longest first, ties in the order
    of [l]. *)
Fixpoint insert_by_len (x : string) (l : list string) : list string :=
  match l with
  | [] => [x]
  | y :: rest =>
      if (String.length y <? String.length x)%nat then x :: l
      else y :: insert_by_len x rest
  end.

Definition sorted_by_len (l : list string) : list string :=
  fold_left (fun acc x => insert_by_len x acc) l [].

(** [TimeRE.__seqToRE]: a named group with one alternative per name. *)
Definition seqToRE (to_convert : list string) (directive : string) : regex :=
  Group directive (alternatives (map word (sorted_by_len to_convert))).

Definition d19 : regex := Cls (range "1" "9").
Definition digit : regex := Cls PyStr.isdigit.

(** The entries of [TimeRE] for the directives the program uses:
    [%d] is [3[0-1]|[1-2]\d|0[1-9]|[1-9]| [1-9]], [%m] is
    [1[0-2]|0[1-9]|[1-9]], [%Y] is [\d\d\d\d].  [\d] stands for the
    ASCII digits here, and [\s] below for the ASCII blanks. *)
Definition directive (c : ascii) : option regex :=
  match c with
  | "d"%char =>
      Some (Group "d" (alternatives
        [Seq (Chr "3") (Cls (range "0" "1"));
         Seq (Cls (range "1" "2")) digit;
         Seq (Chr "0") d19;
         d19;
         Seq (Chr " ") d19]))
  | "m"%char =>
      Some (Group "m" (alternatives
        [Seq (Chr "1") (Cls (range "0" "2"));
         Seq (Chr "0") d19;
         d19]))
  | "Y"%char => Some (Group "Y" (Seq digit (Seq digit (Seq digit digit))))
  | "A"%char => Some (seqToRE f_weekday "A")
  | "B"%char => Some (seqToRE (tl f_month) "B")
  | _ => None
  end.

(** [TimeRE.pattern]: a run of whitespace in the format becomes [\s+], a
    directive becomes its regex, any other character stands for itself. *)
Fixpoint pattern_aux (in_space : bool) (format : string) : result regex :=
  match format with
  | EmptyString => Ok Eps
  | String "%" (String c rest) =>
      match directive c with
      | Some r => (tail <- pattern_aux false rest ;; Ok (Seq r tail))
      | None =>
          Raise (ValueError ("'" ++ String c "' is a bad directive in format"))
      end
  | String "%" EmptyString => Raise (ValueError "stray % in format")
  | String c rest =>
      if PyStr.isspace c
      then (if in_space then pattern_aux true rest
            else (tail <- pattern_aux true rest ;;
                  Ok (Seq (PlusCls PyStr.isspace) tail)))
      else (tail <- pattern_aux false rest ;; Ok (Seq (Chr c) tail))
  end.

Definition pattern (format : string) : result regex := pattern_aux false format.

(** The fields [_strptime] fills from the groups, with its defaults. *)
Record fields : Type :=
  mkfields { f_year : Z; f_mon : Z; f_day : Z; f_wday : option Z }.

Definition defaults : fields := mkfields 1900 1 1 None.

Definition convert_group (key value : string) (acc : fields) : result fields :=
  if String.eqb key "Y" then
    (y <- PyStr.int value ;; Ok (mkfields y (f_mon acc) (f_day acc) (f_wday acc)))
  else if String.eqb key "m" then
    (m <- PyStr.int value ;; Ok (mkfields (f_year acc) m (f_day acc) (f_wday acc)))
  else if String.eqb key "B" then
    (m <- PyStr.index (PyStr.lower value) f_month ;;
     Ok (mkfields (f_year acc) m (f_day acc) (f_wday acc)))
  else if String.eqb key "d" then
    (d <- PyStr.int value ;; Ok (mkfields (f_year acc) (f_mon acc) d (f_wday acc)))
  else if String.eqb key "A" then
    (w <- PyStr.index (PyStr.lower value) f_weekday ;;
     Ok (mkfields (f_year acc) (f_mon acc) (f_day acc) (Some w)))
  else Ok acc.

Fixpoint convert (found_dict : groupdict) (acc : fields) : result fields :=
  match found_dict with
  | [] => Ok acc
  | (key, value) :: rest =>
      acc' <- convert_group key value acc ;; convert rest acc'
  end.

(** [_strptime(data_string, format)]: match, refuse text left over, read
    the groups, and build the date once to check it (the day of the year
    is computed from it).  The weekday that was read is kept as it is.
    Both formats of the program carry [%Y], so the year is always read. *)
Definition _strptime (data_string format : string) : result fields :=
  format_regex <- pattern format ;;
  match re_match format_regex data_string with
  | None =>
      Raise (ValueError ("time data '" ++ data_string ++
                         "' does not match format '" ++ format ++ "'"))
  | Some (rest, found_dict) =>
      if PyStr.truthy rest
      then Raise (ValueError ("unconverted data remains: " ++ rest))
      else
        f <- convert found_dict defaults ;;
        _ <- Datetime.new (f_year f) (f_mon f) (f_day f) ;;
        Ok f
  end.

(** [datetime.strptime(data_string, format).date()] *)
Definition strptime (data_string format : string) : result Datetime.date :=
  f <- _strptime data_string format ;;
  Datetime.new (f_year f) (f_mon f) (f_day f).

End Strptime.

(* ------------------------------------------------------------------ *)
(** ** The tree BeautifulSoup builds, and the bs4 methods the parser calls *)

Module Soup.

(** The classes of string bs4 puts in a tree.  [get_text] keeps the first
    two; [find_next(string=True)] accepts every one of them. *)
Inductive string_class : Type :=
| NavigableString
| CData
| Comment
| Declaration
| Doctype
| ProcessingInstruction
| Script
| Stylesheet
| TemplateString.

(** Tags carry their (lower-cased) name and their children; attributes play
    no part in what the parser asks of the tree. *)
#[warnings="-register-all"]
Inductive node : Type :=
| Tag (name : string) (contents : list node)
| Str (cls : string_class) (text : string).

(** [BeautifulSoup(html, "html.parser")]: the root object holding the
    top-level nodes of the page. *)
Definition BeautifulSoup (contents : list node) : node := Tag "[document]" contents.

(** [tag.descendants]: every node below [tag], in document order. *)
Fixpoint descendants (n : node) : list node :=
  match n with
  | Tag _ contents => flat_map (fun c => c :: descendants c) contents
  | Str _ _ => []
  end.

(** A node at its place in the document: [next_elements] is what bs4
    reaches from it by following [next_element], that is every node parsed
    after its opening, its own descendants first. *)
Record element : Type := mkelement { self : node; next_elements : list node }.

Fixpoint positions (l : list node) : list element :=
  match l with
  | [] => []
  | n :: rest => mkelement n rest :: positions rest
  end.

Definition elements (soup : node) : list element := positions (descendants soup).

Definition has_name (names : list string) (n : node) : bool :=
  match n with
  | Tag name _ => existsb (String.eqb name) names
  | Str _ _ => false
  end.

(** [soup.find_all(names)] *)
Definition find_all (soup : node) (names : list string) : list element :=
  filter (fun e => has_name names (self e)) (elements soup).

Definition interesting (c : string_class) : bool :=
  match c with
  | NavigableString | CData => true
  | _ => false
  end.

(** The strings [get_text(strip=True)] joins: each interesting string
    below the tag, stripped, the empty ones dropped. *)
Fixpoint all_strings_strip (l : list node) : list string :=
  match l with
  | [] => []
  | Str c s :: rest =>
      if interesting c && PyStr.truthy (PyStr.strip s)
      then PyStr.strip s :: all_strings_strip rest
      else all_strings_strip rest
  | Tag _ _ :: rest => all_strings_strip rest
  end.

(** [tag.get_text(strip=True)] *)
Definition get_text_strip (n : node) : string :=
  PyStr.join "" (all_strings_strip (descendants n)).

Fixpoint first_string (l : list node) : option string :=
  match l with
  | [] => None
  | Str _ s :: rest => if PyStr.truthy s then Some s else first_string rest
  | Tag _ _ :: rest => first_string rest
  end.

(** [e.find_next(string=True)]: the first string among [e.next_elements],
    of any class; bs4 passes over an element that is false, as an empty
    string is.  Since [next_elements] of a tag begins inside the tag, a
    string the tag contains is found before any string that follows the
    tag (the bs4 documentation shows it on [first_link.find_all_next]:
    the string "Elsie" shows up although it is contained within the tag
    the search started from). *)
Definition find_next_string (e : element) : option string :=
  first_string (next_elements e).

End Soup.

(* ------------------------------------------------------------------ *)
(** ** [parse_available_dates] *)

Definition availability : Type := (Datetime.date * option string)%type.

Definition heading_names : list string := ["h2"; "h3"; "h4"].
Definition heading_format : string := "%A %B %d, %Y".
Definition booked_phrase : string := "No more available time slots".

(** [status_elem.strip() if status_elem else None] *)
Definition status_text_of (status_elem : option string) : option string :=
  match status_elem with
  | Some s => if PyStr.truthy s then Some (PyStr.strip s) else None
  | None => None
  end.

(** One pass of the body of the [for] loop: [Ok None] is a pass that ends
    without appending, [Ok (Some r)] one that appends [r].  A [ValueError]
    of [strptime] is caught; any other exception would leave the loop. *)
Definition visit_heading (heading : Soup.element) (cutoff : Datetime.date)
    : result (option availability) :=
  let text := Soup.get_text_strip (Soup.self heading) in
  if negb (PyStr.contains "202" text) then Ok None
  else
    match Strptime.strptime text heading_format with
    | Raise (ValueError _) => Ok None
    | Raise e => Raise e
    | Ok date_obj =>
        if Datetime.gt date_obj cutoff then Ok None
        else
          let status_elem := Soup.find_next_string heading in
          match status_text_of status_elem with
          | None => Ok None
          | Some status_text =>
              if negb (PyStr.truthy status_text) then Ok None
              else if negb (PyStr.contains booked_phrase status_text)
              then Ok (Some (date_obj, Some status_text))
              else Ok None
          end
    end.

Fixpoint for_headings (headings : list Soup.element) (cutoff : Datetime.date)
    (available : list availability) : result (list availability) :=
  match headings with
  | [] => Ok available
  | heading :: rest =>
      r <- visit_heading heading cutoff ;;
      for_headings rest cutoff
        (match r with
         | Some a => (available ++ [a])%list
         | None => available
         end)
  end.

Definition parse_available_dates (soup : Soup.node) (cutoff : Datetime.date)
    : result (list availability) :=
  for_headings (Soup.find_all soup heading_names) cutoff [].

(** *** The pages of the scenarios *)

Definition h3 (text : string) : Soup.node :=
  Soup.Tag "h3" [Soup.Str Soup.NavigableString text].

Definition para (text : string) : Soup.node :=
  Soup.Tag "p" [Soup.Str Soup.NavigableString text].

(** [<h3>Wednesday August 27, 2025</h3><p>10:00–12:00, 14:00–16:00</p>] *)
Definition scenario_A : Soup.node :=
  Soup.BeautifulSoup
    [h3 "Wednesday August 27, 2025"; para "10:00–12:00, 14:00–16:00"].

(** [<h3>Wednesday August 27, 2025</h3><p>No more available time slots for this date.</p>] *)
Definition scenario_B : Soup.node :=
  Soup.BeautifulSoup
    [h3 "Wednesday August 27, 2025";
     para "No more available time slots for this date."].

(** [<h3>Mon Aug 25, 2025</h3><p>10:00</p>] *)
Definition scenario_C : Soup.node :=
  Soup.BeautifulSoup [h3 "Mon Aug 25, 2025"; para "10:00"].

Definition cutoff_0828 : Datetime.date := Datetime.mkdate 2025 8 28.

(* ------------------------------------------------------------------ *)
(** ** Effects: what the program prints, sends and waits for *)

Inductive stream : Type := stdout | stderr.

Inductive event : Type :=
| Print (to : stream) (line : string)
| HttpGet (url : string)
| SmtpConnect (host : string) (port : Z)
| SmtpStarttls
| SmtpLogin (user password : string)
| SmtpSendmail (sender : string) (recipients : list string) (subject body : string)
| SmtpQuit
| Sleep (seconds : Z).

(** A computation with effects: the events it produced, then its value or
    the exception it raised. *)
Definition io (A : Type) : Type := (list event * result A)%type.

Definition io_bind {A B : Type} (m : io A) (f : A -> io B) : io B :=
  match m with
  | (ev, Ok a) => let (ev', r) := f a in ((ev ++ ev')%list, r)
  | (ev, Raise e) => (ev, Raise e)
  end.

Notation "x <<- m ;; k" := (io_bind m (fun x => k))
  (at level 61, m at next level, right associativity).

Definition pure {A : Type} (a : A) : io A := ([], Ok a).
Definition lift {A : Type} (r : result A) : io A := ([], r).
Definition emit (e : event) : io unit := ([e], Ok tt).
Definition print (to : stream) (line : string) : io unit := emit (Print to line).

(** [try: m  except Exception as e: handler e] *)
Definition try_except {A : Type} (m : io A) (handler : exn -> io A) : io A :=
  match m with
  | (ev, Raise e) => let (ev', r) := handler e in ((ev ++ ev')%list, r)
  | (ev, Ok a) => (ev, Ok a)
  end.

(** An action of the outside world: it happens, then succeeds or raises. *)
Definition attempt (e : event) (outcome : option exn) : io unit :=
  match outcome with
  | None => ([e], Ok tt)
  | Some x => ([e], Raise x)
  end.

(** [with ... as server: body]: [__exit__] runs after the body whether it
    raised or not; what [__exit__] raises takes over.  ([leave] is what
    [__exit__] lets out, see [smtp_exit].) *)
Definition with_exit (body leave : io unit) : io unit :=
  let (ev, r) := body in
  let (ev', r') := leave in
  ((ev ++ ev')%list, match r' with Raise e => Raise e | Ok _ => r end).

Definition is_network (e : event) : bool :=
  match e with
  | Print _ _ | Sleep _ => false
  | _ => true
  end.

Definition nl : string := String (ascii_of_N 10) "".

(* ------------------------------------------------------------------ *)
(** ** [send_email_notification] *)

(** [os.environ.get] *)
Definition environment : Type := string -> option string.

(** How the mail relay answers each step of one session ([None]: the step
    succeeds).  [on_sendmail] covers serialising the message and the
    transaction, [on_quit] the [QUIT] command that [SMTP.__exit__] sends. *)
Record relay : Type := mkrelay {
  on_connect : option exn;
  on_starttls : option exn;
  on_login : option exn;
  on_sendmail : option exn;
  on_quit : option exn
}.

(** [not v] for an optional string: [None] and the empty string are false. *)
Definition falsy (v : option string) : bool :=
  match v with
  | None => true
  | Some s => negb (PyStr.truthy s)
  end.

(** [a or b] *)
Definition or_else (a b : option string) : option string :=
  if falsy a then b else a.

(** [str(v)] *)
Definition str (v : option string) : string :=
  match v with
  | None => "None"
  | Some s => s
  end.

(** [os.environ.get(key, default)] *)
Definition get_default (environ : environment) (key default : string) : string :=
  match environ key with
  | Some v => v
  | None => default
  end.

Definition missing_keys (l : list (string * option string)) : list string :=
  map fst (filter (fun kv => falsy (snd kv)) l).

Fixpoint body_lines (available_dates : list availability) : string :=
  match available_dates with
  | [] => ""
  | (date_obj, status) :: rest =>
      let date_str := Datetime.strftime date_obj heading_format in
      let message := str (or_else status (Some "Available")) in
      "- " ++ date_str ++ ": " ++ message ++ nl ++ body_lines rest
  end.

(** [MIMEText(body, "plain")]: the text is encoded when the part is
    built, as US-ASCII if it can be and as UTF-8 otherwise. *)
Definition MIMEText (body : string) : result unit :=
  match PyStr.utf8_encode_error body with
  | Some e => Raise e
  | None => Ok tt
  end.

Definition is_disconnected (e : exn) : bool :=
  match e with
  | Exception cls _ => String.eqb cls "SMTPServerDisconnected"
  | ValueError _ => false
  end.

(** [SMTP.__exit__]: [QUIT] is sent; [SMTPServerDisconnected] is passed
    over ([except SMTPServerDisconnected: pass]), any other failure of the
    command, a reply other than 221 among them, is let out. *)
Definition smtp_exit (r : relay) : io unit :=
  try_except (attempt SmtpQuit (on_quit r))
    (fun e => if is_disconnected e then pure tt else lift (Raise e)).

Definition smtp_session (r : relay) (smtp_server : string) (smtp_port : Z)
    (smtp_user smtp_password sender recipient subject body : string) : io unit :=
  _ <<- attempt (SmtpConnect smtp_server smtp_port) (on_connect r) ;;
  with_exit
    (_ <<- attempt SmtpStarttls (on_starttls r) ;;
     _ <<- attempt (SmtpLogin smtp_user smtp_password) (on_login r) ;;
     attempt (SmtpSendmail sender [recipient] subject body) (on_sendmail r))
    (smtp_exit r).

Definition send_email_notification (environ : environment) (r : relay)
    (available_dates : list availability) (url : string)
    (cutoff_date : Datetime.date) : io unit :=
  let sender := environ "APPT_MAIL_SENDER" in
  let recipient := environ "APPT_MAIL_RECIPIENT" in
  let smtp_server := environ "APPT_MAIL_SMTP_SERVER" in
  smtp_port <<- lift (PyStr.int (get_default environ "APPT_MAIL_SMTP_PORT" "587")) ;;
  let smtp_user := or_else (environ "APPT_MAIL_SMTP_USER") sender in
  let smtp_password := environ "APPT_MAIL_SMTP_PASSWORD" in
  let missing := missing_keys
    [("APPT_MAIL_SENDER", sender);
     ("APPT_MAIL_RECIPIENT", recipient);
     ("APPT_MAIL_SMTP_SERVER", smtp_server);
     ("APPT_MAIL_SMTP_PASSWORD", smtp_password)] in
  match missing with
  | _ :: _ =>
      print stderr ("[WARN] Email not sent: missing environment variables: "
                    ++ PyStr.join ", " missing)
  | [] =>
      let sender := str sender in
      let recipient := str recipient in
      let smtp_server := str smtp_server in
      let smtp_user := str smtp_user in
      let smtp_password := str smtp_password in
      let subject := "Appointment Slot Found!" in
      let body :=
        "Available appointments up to " ++ Datetime.isoformat cutoff_date
        ++ " were found at " ++ url ++ ":" ++ nl ++ nl
        ++ body_lines available_dates in
      _ <<- lift (MIMEText body) ;;
      try_except
        (_ <<- smtp_session r smtp_server smtp_port smtp_user smtp_password
                 sender recipient subject body ;;
         print stdout ("[INFO] Notification email sent to " ++ recipient ++ "."))
        (fun e => print stderr ("[ERROR] Failed to send email: " ++ exn_str e))
  end.

(* ------------------------------------------------------------------ *)
(** ** [fetch_page] and [monitor_appointments] *)

(** What the outside world does during one cycle of the loop: the answer
    to the GET (an exception, of [requests] or of the building of the
    tree, or the page, given as the tree built from the text returned),
    the two readings of the clock, already formatted with
    ["%Y-%m-%d %H:%M:%S"], and the mail relay. *)
Record cycle : Type := mkcycle {
  response : result Soup.node;
  now_try : string;
  now_except : string;
  mail : relay
}.

Definition fetch_page (w : cycle) (url : string) : io Soup.node :=
  _ <<- emit (HttpGet url) ;; lift (response w).

(** The most seconds a [_PyTime_t] holds: [time.sleep] converts its
    argument to nanoseconds in 64 bits. *)
Definition max_sleep : Z := 9223372036.

(** [time.sleep(seconds)] of an [int]: a length that does not fit the
    clock's type raises [OverflowError], a negative one that does
    [ValueError]. *)
Definition sleep (seconds : Z) : io unit :=
  if (seconds <? - max_sleep)%Z || (max_sleep <? seconds)%Z
  then lift (Raise (Exception "OverflowError"
                      "timestamp too large to convert to C _PyTime_t"))
  else if (seconds <? 0)%Z
  then lift (Raise (ValueError "sleep length must be non-negative"))
  else emit (Sleep seconds).

Fixpoint print_found (available_dates : list availability) : io unit :=
  match available_dates with
  | [] => pure tt
  | (date_obj, status) :: rest =>
      let date_str := Datetime.strftime date_obj heading_format in
      let message := str (or_else status (Some "Available")) in
      _ <<- print stdout ("  * " ++ date_str ++ ": " ++ message) ;;
      print_found rest
  end.

(** The [try] statement of the loop, without the [sleep] after it. *)
Definition check_once (environ : environment) (url : string)
    (cutoff_date : Datetime.date) (w : cycle) : io unit :=
  try_except
    (html <<- fetch_page w url ;;
     available_dates <<- lift (parse_available_dates html cutoff_date) ;;
     let timestamp := now_try w in
     match available_dates with
     | _ :: _ =>
         _ <<- print stdout ("[" ++ timestamp ++ "] Found available appointments:") ;;
         _ <<- print_found available_dates ;;
         _ <<- print stdout
                 "Act quickly to book your preferred slot via the web interface." ;;
         send_email_notification environ (mail w) available_dates url cutoff_date
     | [] =>
         print stdout ("[" ++ timestamp ++ "] No appointments available up to "
                       ++ Datetime.isoformat cutoff_date ++ ".")
     end)
    (fun exc =>
       let err_time := now_except w in
       print stderr ("[" ++ err_time ++ "] Error while checking appointments: "
                     ++ exn_str exc)).

(** Where the loop stands once the cycles the world offered are used up:
    still polling, or left through an exception.  There is no other way
    out of [while True]. *)
Inductive loop_state : Type :=
| Polling
| Left (e : exn).

Fixpoint poll (environ : environment) (url : string) (cutoff_date : Datetime.date)
    (interval : Z) (world : list cycle) : list event * loop_state :=
  match world with
  | [] => ([], Polling)
  | w :: rest =>
      match (_ <<- check_once environ url cutoff_date w ;; sleep interval) with
      | (ev, Raise e) => (ev, Left e)
      | (ev, Ok _) =>
          let (ev', st) := poll environ url cutoff_date interval rest in
          ((ev ++ ev')%list, st)
      end
  end.

Definition monitor_appointments (environ : environment) (url cutoff_str : string)
    (interval : Z) (world : list cycle) : list event * loop_state :=
  match Strptime.strptime cutoff_str "%Y-%m-%d" with
  | Raise e => ([], Left e)
  | Ok cutoff_date =>
      let (ev, st) := poll environ url cutoff_date interval world in
      (Print stdout ("Monitoring appointments until "
                     ++ Datetime.isoformat cutoff_date ++ " ...") :: ev, st)
  end.

(* ------------------------------------------------------------------ *)
(** ** Notions the statements use *)

Definition only_ValueError {A : Type} (r : result A) : Prop :=
  match r with
  | Raise (Exception _ _) => False
  | _ => True
  end.

(** What one heading adds to the list. *)
Definition emitted (cutoff : Datetime.date) (heading : Soup.element)
    : list availability :=
  match visit_heading heading cutoff with
  | Ok (Some a) => [a]
  | _ => []
  end.

(** The status text the loop body works with. *)
Definition status_text (heading : Soup.element) : option string :=
  status_text_of (Soup.find_next_string heading).

Definition preorder (l : list Soup.node) : list Soup.node :=
  flat_map (fun c => c :: Soup.descendants c) l.

Definition begins_with_descendants (l : list Soup.node) : Prop :=
  forall pre x nxt, l = (pre ++ x :: nxt)%list ->
    exists following, nxt = (Soup.descendants x ++ following)%list.

Definition h3_element (text : string) (following : list Soup.node) : Soup.element :=
  Soup.mkelement (h3 text)
    (Soup.Str Soup.NavigableString text :: following).

(** The wording of the specification for the year filter: the text holds
    a token of exactly four digits that starts with "202".  A token is a
    maximal run of digits. *)
Fixpoint digit_runs (s cur : string) : list string :=
  match s with
  | EmptyString => [cur]
  | String c s' =>
      if PyStr.isdigit c then digit_runs s' (cur ++ String c "")
      else cur :: digit_runs s' ""
  end.

Definition has_year_token_202 (text : string) : bool :=
  existsb (fun run => (String.length run =? 4)%nat && String.prefix "202" run)
          (digit_runs text "").

(** An environment given by its bindings. *)
Fixpoint environ_of (bindings : list (string * string)) : environment :=
  fun key =>
    match bindings with
    | [] => None
    | (k, v) :: rest => if String.eqb key k then Some v else environ_of rest key
    end.

Definition required_keys : list string :=
  ["APPT_MAIL_SENDER"; "APPT_MAIL_RECIPIENT"; "APPT_MAIL_SMTP_SERVER";
   "APPT_MAIL_SMTP_PASSWORD"].

Definition relay_up : relay := mkrelay None None None None None.

Definition one_slot : list availability :=
  [(Datetime.mkdate 2025 8 27, Some "10:00")].

Definition configured_bad_port : environment :=
  environ_of
    [("APPT_MAIL_SENDER", "me@example.org");
     ("APPT_MAIL_RECIPIENT", "you@example.org");
     ("APPT_MAIL_SMTP_SERVER", "smtp.example.org");
     ("APPT_MAIL_SMTP_PASSWORD", "secret");
     ("APPT_MAIL_SMTP_PORT", "abc")].

Definition no_password_bad_port : environment :=
  environ_of
    [("APPT_MAIL_SENDER", "me@example.org");
     ("APPT_MAIL_RECIPIENT", "you@example.org");
     ("APPT_MAIL_SMTP_SERVER", "smtp.example.org");
     ("APPT_MAIL_SMTP_PORT", "abc")].

Definition no_password : environment :=
  environ_of
    [("APPT_MAIL_SENDER", "me@example.org");
     ("APPT_MAIL_RECIPIENT", "you@example.org");
     ("APPT_MAIL_SMTP_SERVER", "smtp.example.org")].

Definition configured : environment :=
  environ_of
    [("APPT_MAIL_SENDER", "me@example.org");
     ("APPT_MAIL_RECIPIENT", "you@example.org");
     ("APPT_MAIL_SMTP_SERVER", "smtp.example.org");
     ("APPT_MAIL_SMTP_PASSWORD", "secret")].

Definition relay_refuses_login : relay :=
  mkrelay None None
    (Some (Exception "SMTPAuthenticationError" "(535, b'5.7.8 bad credentials')"))
    None None.

(** A relay that has gone away by the time the session is closed. *)
Definition relay_drops_at_quit : relay :=
  mkrelay None None None None
    (Some (Exception "SMTPServerDisconnected" "Connection unexpectedly closed")).

(** The exception one session with the relay ends with, if any: that of
    the connection; otherwise that of [QUIT], unless it is a disconnection,
    which [SMTP.__exit__] passes over; otherwise that of the first step of
    the session that failed. *)
Definition session_failure (r : relay) : option exn :=
  match on_connect r with
  | Some e => Some e
  | None =>
      let body :=
        match on_starttls r, on_login r with
        | Some e, _ => Some e
        | None, Some e => Some e
        | None, None => on_sendmail r
        end in
      match on_quit r with
      | Some q => if is_disconnected q then body else Some q
      | None => body
      end
  end.

(** An address of the page with a byte that is not UTF-8: the command
    line hands it over as the lone surrogate U+DCFF. *)
Definition url_stray_byte : string :=
  "https://example.org/slots?" ++ String (ascii_of_N 255) "".



Definition day_regex : Re.regex :=
  Re.Group "d" (Re.alternatives
    [Re.Seq (Re.Chr "3") (Re.Cls (Re.range "0" "1"));
     Re.Seq (Re.Cls (Re.range "1" "2")) Strptime.digit;
     Re.Seq (Re.Chr "0") Strptime.d19;
     Strptime.d19;
     Re.Seq (Re.Chr " ") Strptime.d19]).

Definition year_regex : Re.regex :=
  Re.Group "Y"
    (Re.Seq Strptime.digit
       (Re.Seq Strptime.digit (Re.Seq Strptime.digit Strptime.digit))).

Definition heading_regex : Re.regex :=
  Re.Seq (Strptime.seqToRE Strptime.f_weekday "A")
    (Re.Seq (Re.PlusCls PyStr.isspace)
       (Re.Seq (Strptime.seqToRE (tl Strptime.f_month) "B")
          (Re.Seq (Re.PlusCls PyStr.isspace)
             (Re.Seq day_regex
                (Re.Seq (Re.Chr ",")
                   (Re.Seq (Re.PlusCls PyStr.isspace)
                      (Re.Seq year_regex Re.Eps))))))).

(** A text that reads, in any case, as one of the seven weekday names. *)
Definition is_weekday_name (m : string) : Prop :=
  In (PyStr.lower m) Strptime.f_weekday.

(** Two words that differ, case apart, at a place both have. *)
Fixpoint diverge (w m : string) : bool :=
  match w, m with
  | String c w', String a m' =>
      negb (Ascii.eqb (PyStr.lower_char a) (PyStr.lower_char c)) || diverge w' m'
  | _, _ => false
  end.

Definition all_diverge (names : list string) : bool :=
  forallb (fun n => forallb (fun n' => String.eqb n n' || diverge n n') names) names.

(** Two outcomes of [re_match] that agree but for the groups found before
    the match began: [old] in the one, [new] in the other. *)
Definition same_outcome (old new : Re.groupdict)
    (a b : option (string * Re.groupdict)) : Prop :=
  match a, b with
  | None, None => True
  | Some (rest, found), Some (rest', found') =>
      rest' = rest /\ exists gs, found = rev (gs ++ old) /\ found' = rev (gs ++ new)
  | _, _ => False
  end.

Definition same_date (f f' : Strptime.fields) : Prop :=
  Strptime.f_year f = Strptime.f_year f' /\
  Strptime.f_mon f = Strptime.f_mon f' /\
  Strptime.f_day f = Strptime.f_day f'.

(** A heading written with the weekday name number [w], whatever the day
    of the week of [d] is. *)
Definition heading_text (w : Z) (d : Datetime.date) : string :=
  Datetime.name_at Datetime.day_name w ++ " "
  ++ Datetime.name_at Datetime.month_name (Datetime.month d) ++ " "
  ++ PyStr.pad2 (Datetime.day d) ++ ", " ++ PyStr.pad4 (Datetime.year d).

(** Induction over a tree together with the list of its children. *)
Section NodeInduction.
Variable P : Soup.node -> Prop.
Variable Q : list Soup.node -> Prop.
Hypothesis HStr : forall c s, P (Soup.Str c s).
Hypothesis HTag : forall name contents, Q contents -> P (Soup.Tag name contents).
Hypothesis Hnil : Q [].
Hypothesis Hcons : forall c rest, P c -> Q rest -> Q (c :: rest).

Fixpoint node_forest_ind (n : Soup.node) : P n :=
  match n with
  | Soup.Str c s => HStr c s
  | Soup.Tag name contents =>
      HTag name contents
        ((fix forest (l : list Soup.node) : Q l :=
            match l with
            | [] => Hnil
            | c :: rest => Hcons c rest (node_forest_ind c) (forest rest)
            end) contents)
  end.
End NodeInduction.

(* ------------------------------------------------------------------ *)
(** ** Notions of the further properties *)

(** A calendar date as [datetime.date] accepts it. *)
Definition valid_date (d : Datetime.date) : Prop :=
  (1 <= Datetime.year d <= 9999 /\
   1 <= Datetime.month d <= 12 /\
   1 <= Datetime.day d <= Datetime.days_in_month (Datetime.year d) (Datetime.month d))%Z.

(** On or before: [not (a > b)]. *)
Definition on_or_before (a b : Datetime.date) : bool := negb (Datetime.gt a b).

(** The same node, with more of the document parsed after it. *)
Definition followed_by (more : list Soup.node) (e : Soup.element) : Soup.element :=
  Soup.mkelement (Soup.self e) (Soup.next_elements e ++ more)%list.

Definition iso_format : string := "%Y-%m-%d".

Definition month_regex : Re.regex :=
  Re.Group "m" (Re.alternatives
    [Re.Seq (Re.Chr "1") (Re.Cls (Re.range "0" "2"));
     Re.Seq (Re.Chr "0") Strptime.d19;
     Strptime.d19]).

Definition iso_regex : Re.regex :=
  Re.Seq year_regex
    (Re.Seq (Re.Chr "-")
       (Re.Seq month_regex (Re.Seq (Re.Chr "-") (Re.Seq day_regex Re.Eps)))).

Definition is_print (e : event) : bool :=
  match e with Print _ _ => true | _ => false end.

Definition is_connect (e : event) : bool :=
  match e with SmtpConnect _ _ => true | _ => false end.

Definition is_login (e : event) : bool :=
  match e with SmtpLogin _ _ => true | _ => false end.

Definition is_sendmail (e : event) : bool :=
  match e with SmtpSendmail _ _ _ _ => true | _ => false end.

Definition is_get (e : event) : bool :=
  match e with HttpGet _ => true | _ => false end.

Definition is_sleep (e : event) : bool :=
  match e with Sleep _ => true | _ => false end.

Definition count (p : event -> bool) (events : list event) : nat :=
  List.length (filter p events).

(** The values the notifier reads, as it uses them once none is missing. *)
Definition mail_body (available_dates : list availability) (url : string)
    (cutoff_date : Datetime.date) : string :=
  "Available appointments up to " ++ Datetime.isoformat cutoff_date
  ++ " were found at " ++ url ++ ":" ++ nl ++ nl ++ body_lines available_dates.

Definition session_of (environ : environment) (r : relay) (port : Z)
    (available_dates : list availability) (url : string)
    (cutoff_date : Datetime.date) : io unit :=
  smtp_session r (str (environ "APPT_MAIL_SMTP_SERVER")) port
    (str (or_else (environ "APPT_MAIL_SMTP_USER") (environ "APPT_MAIL_SENDER")))
    (str (environ "APPT_MAIL_SMTP_PASSWORD"))
    (str (environ "APPT_MAIL_SENDER")) (str (environ "APPT_MAIL_RECIPIENT"))
    "Appointment Slot Found!" (mail_body available_dates url cutoff_date).

Definition some_missing (environ : environment) : bool :=
  existsb (fun key => falsy (environ key)) required_keys.

(** What a regex can consume, and the groups it then reports (the last
    one matched first). *)
Inductive matches : Re.regex -> string -> Re.groupdict -> Prop :=
| matches_Eps : matches Re.Eps "" []
| matches_Chr (c a : ascii) :
    PyStr.lower_char a = PyStr.lower_char c ->
    matches (Re.Chr c) (String a "") []
| matches_Cls (p : ascii -> bool) (a : ascii) :
    p a = true -> matches (Re.Cls p) (String a "") []
| matches_Plus_one (p : ascii -> bool) (a : ascii) :
    p a = true -> matches (Re.PlusCls p) (String a "") []
| matches_Plus_more (p : ascii -> bool) (a : ascii) (m : string) :
    p a = true -> matches (Re.PlusCls p) m [] ->
    matches (Re.PlusCls p) (String a m) []
| matches_Seq (r1 r2 : Re.regex) (m1 m2 : string) (g1 g2 : Re.groupdict) :
    matches r1 m1 g1 -> matches r2 m2 g2 ->
    matches (Re.Seq r1 r2) (m1 ++ m2) (g2 ++ g1)%list
| matches_Alt_left (r1 r2 : Re.regex) (m : string) (g : Re.groupdict) :
    matches r1 m g -> matches (Re.Alt r1 r2) m g
| matches_Alt_right (r1 r2 : Re.regex) (m : string) (g : Re.groupdict) :
    matches r2 m g -> matches (Re.Alt r1 r2) m g
| matches_Group (name : string) (r : Re.regex) (m : string) (g : Re.groupdict) :
    matches r m g -> matches (Re.Group name r) m ((name, m) :: g).

(** A regex made of literal characters none of which is a digit. *)
Fixpoint letters_only (r : Re.regex) : bool :=
  match r with
  | Re.Eps | Re.Never => true
  | Re.Chr c => negb (PyStr.isdigit (PyStr.lower_char c))
  | Re.Cls _ | Re.PlusCls _ => false
  | Re.Seq r1 r2 | Re.Alt r1 r2 => letters_only r1 && letters_only r2
  | Re.Group _ r1 => letters_only r1
  end.

Fixpoint all_chars (p : ascii -> bool) (s : string) : bool :=
  match s with
  | EmptyString => true
  | String c s' => p c && all_chars p s'
  end.

Definition not_digit (c : ascii) : bool := negb (PyStr.isdigit c).

(** A regex without named groups. *)
Fixpoint groupless (r : Re.regex) : bool :=
  match r with
  | Re.Group _ _ => false
  | Re.Seq r1 r2 | Re.Alt r1 r2 => groupless r1 && groupless r2
  | _ => true
  end.

(** A page with two dated headings, and a cycle that fetches the page
    of scenario A. *)
Definition two_headings : Soup.node :=
  Soup.BeautifulSoup
    [h3 "Wednesday August 27, 2025"; para "10:00";
     h3 "Friday September 05, 2025"; para "11:00"].

Definition cutoff_0930 : Datetime.date := Datetime.mkdate 2025 9 30.

Definition finding_cycle : cycle :=
  mkcycle (Ok scenario_A) "2025-08-01 10:00:00" "2025-08-01 10:00:01" relay_up.

(* ================================================================== *)
(** * Properties *)

(** ** The library models on small inputs *)

Example strptime_wednesday :
  Strptime.strptime "Wednesday August 27, 2025" "%A %B %d, %Y"
  = Ok (Datetime.mkdate 2025 8 27).
Proof. vm_compute. reflexivity. Qed.

Example strptime_iso :
  Strptime.strptime "2025-08-28" "%Y-%m-%d" = Ok (Datetime.mkdate 2025 8 28).
Proof. vm_compute. reflexivity. Qed.

(** [strptime] ignores case, takes any run of whitespace where the format
    has a space, and takes a day without its leading zero. *)
Example strptime_is_lenient :
  Strptime.strptime "wednesday  AUGUST 7, 2025" "%A %B %d, %Y"
  = Ok (Datetime.mkdate 2025 8 7).
Proof. vm_compute. reflexivity. Qed.

Example strptime_checks_the_date :
  Strptime.strptime "Sunday February 30, 2025" "%A %B %d, %Y"
  = Raise (ValueError "day is out of range for month").
Proof. vm_compute. reflexivity. Qed.

Example strptime_refuses_text_left_over :
  Strptime.strptime "Wednesday August 27, 20255" "%A %B %d, %Y"
  = Raise (ValueError "unconverted data remains: 5").
Proof. vm_compute. reflexivity. Qed.

Example strftime_wednesday :
  Datetime.strftime (Datetime.mkdate 2025 8 27) "%A %B %d, %Y"
  = "Wednesday August 27, 2025".
Proof. vm_compute. reflexivity. Qed.

(** A year below 1000 is written without padding by [strftime], with four
    digits by [str]. *)
Example strftime_year_202 :
  Datetime.strftime (Datetime.mkdate 202 8 27) "%A %B %d, %Y"
  = "Friday August 27, 202" /\
  Datetime.strftime (Datetime.mkdate 202 8 27) "%Y-%m-%d" = "202-08-27" /\
  Datetime.isoformat (Datetime.mkdate 202 8 27) = "0202-08-27" /\
  Strptime.strptime "Friday August 27, 0202" "%A %B %d, %Y"
  = Ok (Datetime.mkdate 202 8 27).
Proof. repeat split; vm_compute; reflexivity. Qed.

Example int_port :
  PyStr.int "587" = Ok 587 /\ PyStr.int " 2_525 " = Ok 2525 /\
  PyStr.int "" = Raise (ValueError "invalid literal for int() with base 10: ''").
Proof. repeat split; vm_compute; reflexivity. Qed.

(** The elements reached from the heading of scenario A: its own string
    comes first. *)
Example next_elements_of_heading :
  map Soup.next_elements (Soup.find_all scenario_A heading_names)
  = [[Soup.Str Soup.NavigableString "Wednesday August 27, 2025";
      para "10:00–12:00, 14:00–16:00";
      Soup.Str Soup.NavigableString "10:00–12:00, 14:00–16:00"]].
Proof. vm_compute. reflexivity. Qed.

(** Scenario D: a heading dated 2025-09-05 with the cutoff 2025-08-28. *)
Example scenario_D :
  parse_available_dates
    (Soup.BeautifulSoup [h3 "Friday September 05, 2025"; para "10:00"])
    cutoff_0828 = Ok [].
Proof. vm_compute. reflexivity. Qed.

(** ** Which exceptions the library calls of the parser can raise *)

Lemma only_ValueError_bind {A B : Type} (r : result A) (f : A -> result B) :
  only_ValueError r -> (forall a, only_ValueError (f a)) ->
  only_ValueError (bind r f).
Proof.
  destruct r as [a | e]; simpl; intros Hr Hf; [apply Hf | exact Hr].
Qed.

Lemma int_only_ValueError (s : string) : only_ValueError (PyStr.int s).
Proof.
  unfold PyStr.int.
  set (invalid := Raise (ValueError _)).
  assert (Hinvalid : only_ValueError (A := Z) invalid) by exact I.
  clearbody invalid.
  destruct (match PyStr.skip_c_space s with
            | String "+" r => (1, r)
            | String "-" r => (-1, r)
            | _ => (1, PyStr.skip_c_space s)
            end) as [sign literal].
  assert (Hscan : only_ValueError
            match PyStr.scan_digits 0 0 false literal with
            | Some (n, digits, rest) =>
                if (PyStr.max_str_digits <? digits)%N
                then Raise (ValueError
                       ("Exceeds the limit (4300 digits) for integer string conversion: value has "
                        ++ PyStr.decimal digits
                        ++ " digits; use sys.set_int_max_str_digits() to increase the limit"))
                else if (digits =? 0)%N then invalid
                else match PyStr.skip_c_space rest with
                     | EmptyString => Ok (sign * n)
                     | String _ _ => invalid
                     end
            | None => invalid
            end).
  { destruct (PyStr.scan_digits 0 0 false literal) as [[[n digits] rest] |];
      [| exact Hinvalid].
    destruct (PyStr.max_str_digits <? digits)%N; [exact I |].
    destruct (digits =? 0)%N; [exact Hinvalid |].
    destruct (PyStr.skip_c_space rest); [exact I | exact Hinvalid]. }
  destruct literal as [| c r]; [exact Hscan |].
  destruct (Ascii.ascii_dec c "_") as [-> | Hc]; [exact Hinvalid |].
  destruct c as [[] [] [] [] [] [] [] []]; try exact Hscan; congruence.
Qed.

Lemma index_only_ValueError (x : string) (l : list string) :
  only_ValueError (PyStr.index x l).
Proof.
  induction l as [| y rest IH]; simpl; [exact I |].
  destruct (String.eqb x y); simpl; [exact I |].
  apply only_ValueError_bind; [exact IH | intros; exact I].
Qed.

Lemma new_only_ValueError (y m d : Z) : only_ValueError (Datetime.new y m d).
Proof.
  unfold Datetime.new.
  repeat match goal with
         | |- context [if ?b then _ else _] => destruct b; simpl; try exact I
         end.
Qed.

Lemma pattern_char_only_ValueError (c : ascii) (rest : string) (b : bool) :
  (forall b', only_ValueError (Strptime.pattern_aux b' rest)) ->
  (forall c2 rest2, rest = String c2 rest2 ->
     only_ValueError (Strptime.pattern_aux false rest2)) ->
  only_ValueError (Strptime.pattern_aux b (String c rest)).
Proof.
  intros Hrest Hrest2.
  destruct (Ascii.eqb c "%") eqn:Hc.
  - apply Ascii.eqb_eq in Hc. subst c.
    destruct rest as [| c2 rest2]; [exact I |].
    simpl. destruct (Strptime.directive c2); [| exact I].
    apply only_ValueError_bind; [| intros; exact I].
    apply (Hrest2 c2 rest2). reflexivity.
  - assert (Hgen :
      only_ValueError
        (if PyStr.isspace c
         then (if b then Strptime.pattern_aux true rest
               else bind (Strptime.pattern_aux true rest)
                      (fun tail => Ok (Re.Seq (Re.PlusCls PyStr.isspace) tail)))
         else bind (Strptime.pattern_aux false rest)
                (fun tail => Ok (Re.Seq (Re.Chr c) tail)))).
    { destruct (PyStr.isspace c); [destruct b |];
        try apply only_ValueError_bind; try apply Hrest; intros; exact I. }
    destruct c as [[] [] [] [] [] [] [] []]; try discriminate Hc; exact Hgen.
Qed.

Lemma pattern_aux_only_ValueError (format : string) :
  (forall b, only_ValueError (Strptime.pattern_aux b format)) /\
  (forall c b, only_ValueError (Strptime.pattern_aux b (String c format))).
Proof.
  induction format as [| a rest [IH1 IH2]].
  - split; [intros; exact I |].
    intros c b. apply pattern_char_only_ValueError.
    + intros; exact I.
    + intros c2 rest2 H. discriminate H.
  - split; [intros b; apply IH2 |].
    intros c b. apply pattern_char_only_ValueError.
    + intros b'. apply IH2.
    + intros c2 rest2 H. injection H as _ H. subst rest2. apply IH1.
Qed.

Lemma pattern_only_ValueError (format : string) :
  only_ValueError (Strptime.pattern format).
Proof. apply pattern_aux_only_ValueError. Qed.

Lemma convert_group_only_ValueError (key value : string) (acc : Strptime.fields) :
  only_ValueError (Strptime.convert_group key value acc).
Proof.
  unfold Strptime.convert_group.
  repeat match goal with
         | |- context [if ?b then _ else _] => destruct b
         end;
    try exact I;
    apply only_ValueError_bind;
    try apply int_only_ValueError; try apply index_only_ValueError;
    intros; exact I.
Qed.

Lemma convert_only_ValueError (found_dict : Re.groupdict) (acc : Strptime.fields) :
  only_ValueError (Strptime.convert found_dict acc).
Proof.
  revert acc. induction found_dict as [| [key value] rest IH]; intros acc; simpl.
  - exact I.
  - apply only_ValueError_bind; [apply convert_group_only_ValueError | exact IH].
Qed.

Lemma strptime_only_ValueError (data_string format : string) :
  only_ValueError (Strptime.strptime data_string format).
Proof.
  unfold Strptime.strptime, Strptime._strptime.
  apply only_ValueError_bind; [| intros; apply new_only_ValueError].
  apply only_ValueError_bind; [apply pattern_only_ValueError |].
  intros re. destruct (Re.re_match re data_string) as [[rest found_dict] |];
    [| exact I].
  destruct (PyStr.truthy rest); [exact I |].
  apply only_ValueError_bind; [apply convert_only_ValueError |].
  intros f. apply only_ValueError_bind; [apply new_only_ValueError |].
  intros; exact I.
Qed.

(** ** The loop of the parser *)

(** The loop body never raises: the one call that can fail is [strptime],
    and what it raises is caught. *)
Lemma visit_heading_returns (heading : Soup.element) (cutoff : Datetime.date) :
  exists r, visit_heading heading cutoff = Ok r.
Proof.
  unfold visit_heading.
  destruct (negb (PyStr.contains "202" (Soup.get_text_strip (Soup.self heading))));
    [eexists; reflexivity |].
  pose proof (strptime_only_ValueError
                (Soup.get_text_strip (Soup.self heading)) heading_format) as Hv.
  destruct (Strptime.strptime _ heading_format) as [d | [msg | cls msg]].
  - destruct (Datetime.gt d cutoff); [eexists; reflexivity |].
    destruct (status_text_of _) as [st |]; [| eexists; reflexivity].
    destruct (negb (PyStr.truthy st)); [eexists; reflexivity |].
    destruct (negb (PyStr.contains booked_phrase st)); eexists; reflexivity.
  - eexists; reflexivity.
  - destruct Hv.
Qed.

Lemma for_headings_spec (headings : list Soup.element) (cutoff : Datetime.date)
    (available : list availability) :
  for_headings headings cutoff available
  = Ok (available ++ flat_map (emitted cutoff) headings)%list.
Proof.
  revert available. induction headings as [| h rest IH]; intros available; simpl.
  - rewrite app_nil_r. reflexivity.
  - unfold emitted at 1.
    destruct (visit_heading_returns h cutoff) as [r Hr]. rewrite Hr. simpl.
    rewrite IH. destruct r as [a |]; simpl.
    + rewrite <- app_assoc. reflexivity.
    + reflexivity.
Qed.

Lemma parse_available_dates_spec (soup : Soup.node) (cutoff : Datetime.date) :
  parse_available_dates soup cutoff
  = Ok (flat_map (emitted cutoff) (Soup.find_all soup heading_names)).
Proof. unfold parse_available_dates. apply for_headings_spec. Qed.

(** When exactly a pass of the loop body appends a record. *)
Lemma visit_heading_Some (heading : Soup.element) (cutoff d : Datetime.date)
    (s : option string) :
  visit_heading heading cutoff = Ok (Some (d, s)) <->
  PyStr.contains "202" (Soup.get_text_strip (Soup.self heading)) = true /\
  Strptime.strptime (Soup.get_text_strip (Soup.self heading)) heading_format = Ok d /\
  Datetime.gt d cutoff = false /\
  exists st, s = Some st /\ status_text heading = Some st /\
             PyStr.truthy st = true /\ PyStr.contains booked_phrase st = false.
Proof.
  unfold visit_heading, status_text.
  destruct (PyStr.contains "202" _); simpl.
  2: { split; [discriminate | intros [H _]; discriminate H]. }
  destruct (Strptime.strptime _ heading_format) as [d' | [msg | cls msg]].
  2, 3: split; [discriminate | intros (_ & H & _); discriminate H].
  destruct (Datetime.gt d' cutoff) eqn:Hgt.
  { split; [discriminate |]. intros (_ & H & Hg & _).
    injection H as <-. congruence. }
  destruct (status_text_of _) as [st |].
  2: { split; [discriminate |].
       intros (_ & _ & _ & st & _ & H & _). discriminate H. }
  destruct (PyStr.truthy st) eqn:Ht; simpl.
  2: { split; [discriminate |].
       intros (_ & _ & _ & st' & _ & H & Ht' & _).
       injection H as <-. congruence. }
  destruct (PyStr.contains booked_phrase st) eqn:Hb; simpl.
  { split; [discriminate |].
    intros (_ & _ & _ & st' & _ & H & _ & Hb').
    injection H as <-. congruence. }
  split.
  - intros H. injection H as <- <-.
    repeat split; try reflexivity; try assumption.
    exists st. repeat split; assumption.
  - intros (_ & H & _ & st' & -> & H' & _).
    injection H as <-. injection H' as <-. reflexivity.
Qed.

Lemma In_emitted (cutoff : Datetime.date) (heading : Soup.element)
    (a : availability) :
  In a (emitted cutoff heading) <-> visit_heading heading cutoff = Ok (Some a).
Proof.
  unfold emitted.
  destruct (visit_heading heading cutoff) as [[a' |] | e]; simpl.
  - split; [intros [-> | []]; reflexivity | intros H; injection H as ->; now left].
  - split; [intros [] | discriminate].
  - split; [intros [] | discriminate].
Qed.

(** ** Where [find_next] starts looking

    The elements bs4 reaches from a tag through [next_element] begin with
    the tag's own descendants. *)

Lemma descendants_split (n : Soup.node) :
  begins_with_descendants (Soup.descendants n).
Proof.
  induction n using node_forest_ind
    with (Q := fun l => begins_with_descendants (preorder l)).
  - intros pre x nxt H. destruct pre; discriminate H.
  - exact IHn.
  - intros pre x nxt H. destruct pre; discriminate H.
  - intros pre x nxt H. unfold preorder in H. simpl in H.
    fold (preorder rest) in H.
    destruct pre as [| p pre'].
    + injection H as <- <-. eexists; reflexivity.
    + injection H as <- H.
      apply app_eq_app in H as [l [[H1 H2] | [H1 H2]]].
      * destruct l as [| y l'].
        -- rewrite app_nil_r in H1. simpl in H2.
           apply (IHn0 [] x nxt). symmetry. exact H2.
        -- injection H2 as <- ->.
           destruct (IHn pre' x l' H1) as [fol ->].
           exists (fol ++ preorder rest)%list. rewrite app_assoc. reflexivity.
      * apply (IHn0 l x nxt). exact H2.
Qed.

Lemma In_positions (l : list Soup.node) (e : Soup.element) :
  In e (Soup.positions l) ->
  exists pre, l = (pre ++ Soup.self e :: Soup.next_elements e)%list.
Proof.
  induction l as [| n rest IH]; simpl; [intros [] |].
  intros [<- | H].
  - exists []. reflexivity.
  - destruct (IH H) as [pre ->]. exists (n :: pre). reflexivity.
Qed.

Lemma next_elements_descendants (soup : Soup.node) (e : Soup.element) :
  In e (Soup.elements soup) ->
  exists following,
    Soup.next_elements e = (Soup.descendants (Soup.self e) ++ following)%list.
Proof.
  intros H. apply In_positions in H as [pre H].
  exact (descendants_split soup pre _ _ H).
Qed.

Lemma first_string_app (a b : list Soup.node) (s : string) :
  Soup.first_string a = Some s -> Soup.first_string (a ++ b) = Some s.
Proof.
  induction a as [| [name cs | c t] rest IH]; simpl; [discriminate | exact IH |].
  destruct (PyStr.truthy t); [trivial | exact IH].
Qed.

Lemma strip_empty_of_falsy (s : string) :
  PyStr.truthy s = false -> PyStr.truthy (PyStr.strip s) = false.
Proof. destruct s; [reflexivity | discriminate]. Qed.

Lemma no_string_no_text (l : list Soup.node) :
  Soup.first_string l = None -> Soup.all_strings_strip l = [].
Proof.
  induction l as [| [name cs | c t] rest IH]; simpl; [reflexivity | exact IH |].
  destruct (PyStr.truthy t) eqn:Ht; [discriminate |].
  intros H. rewrite (strip_empty_of_falsy t Ht), andb_false_r. exact (IH H).
Qed.

(** X5.  A heading that passes the year filter holds a string of its own,
    and that string, not what follows the heading, is what [find_next]
    returns. *)
Lemma status_comes_from_heading (soup : Soup.node) (heading : Soup.element) :
  In heading (Soup.find_all soup heading_names) ->
  PyStr.contains "202" (Soup.get_text_strip (Soup.self heading)) = true ->
  exists s, Soup.first_string (Soup.descendants (Soup.self heading)) = Some s /\
            Soup.find_next_string heading = Some s.
Proof.
  intros Hin H202.
  apply filter_In in Hin as [Hin _].
  destruct (Soup.first_string (Soup.descendants (Soup.self heading))) as [s |] eqn:Hs.
  - exists s. split; [reflexivity |].
    destruct (next_elements_descendants soup heading Hin) as [fol Hfol].
    unfold Soup.find_next_string. rewrite Hfol. apply first_string_app. exact Hs.
  - unfold Soup.get_text_strip in H202.
    rewrite (no_string_no_text _ Hs) in H202. discriminate H202.
Qed.

Lemma gt_irrefl (d : Datetime.date) : Datetime.gt d d = false.
Proof.
  unfold Datetime.gt.
  rewrite !Z.ltb_irrefl, !Z.eqb_refl. reflexivity.
Qed.

(** A heading of the page that meets every condition of the loop body
    has its record in the list returned. *)
Lemma qualifying_heading_is_reported (soup : Soup.node) (cutoff d : Datetime.date)
    (heading : Soup.element) (st : string) :
  In heading (Soup.find_all soup heading_names) ->
  PyStr.contains "202" (Soup.get_text_strip (Soup.self heading)) = true ->
  Strptime.strptime (Soup.get_text_strip (Soup.self heading)) heading_format = Ok d ->
  Datetime.gt d cutoff = false ->
  status_text heading = Some st ->
  PyStr.truthy st = true ->
  PyStr.contains booked_phrase st = false ->
  exists available,
    parse_available_dates soup cutoff = Ok available /\ In (d, Some st) available.
Proof.
  intros Hin H202 Hparse Hgt Hst Ht Hb.
  eexists. split; [apply parse_available_dates_spec |].
  apply in_flat_map. exists heading. split; [exact Hin |].
  apply In_emitted. apply visit_heading_Some.
  repeat split; try assumption.
  exists st. repeat split; assumption.
Qed.

(** ** The claims about the parser *)

(** C1 (the code departs from the claim).  On the page of scenario A, a
    heading "Wednesday August 27, 2025" followed by the text
    "10:00–12:00, 14:00–16:00", with cutoff 2025-08-28, the parser returns
    one record whose status text is the text of the heading itself, not the
    text that follows the heading: [find_next] starts at the heading's own
    first string.  The same holds when the following text is not wrapped
    in a tag. *)
Theorem C1_scenario_A_reports_heading_text :
  parse_available_dates scenario_A cutoff_0828
  = Ok [(Datetime.mkdate 2025 8 27, Some "Wednesday August 27, 2025")] /\
  parse_available_dates
    (Soup.BeautifulSoup
       [h3 "Wednesday August 27, 2025";
        Soup.Str Soup.NavigableString "10:00–12:00, 14:00–16:00"])
    cutoff_0828
  = Ok [(Datetime.mkdate 2025 8 27, Some "Wednesday August 27, 2025")] /\
  parse_available_dates scenario_A cutoff_0828
  <> Ok [(Datetime.mkdate 2025 8 27, Some "10:00–12:00, 14:00–16:00")].
Proof.
  assert (H : parse_available_dates scenario_A cutoff_0828
              = Ok [(Datetime.mkdate 2025 8 27, Some "Wednesday August 27, 2025")])
    by (vm_compute; reflexivity).
  split; [exact H |].
  split; [vm_compute; reflexivity |].
  rewrite H. intros Heq. discriminate Heq.
Qed.

(** C2 (the code departs from the claim).  On the page of scenario B, the
    same heading followed by "No more available time slots for this
    date.", the parser returns one record, not zero; whatever text follows
    the heading, it is never read, and the record carries the heading's
    text. *)
Theorem C2_scenario_B_reports_booked_date :
  parse_available_dates scenario_B cutoff_0828
  = Ok [(Datetime.mkdate 2025 8 27, Some "Wednesday August 27, 2025")] /\
  forall following : string,
    parse_available_dates
      (Soup.BeautifulSoup [h3 "Wednesday August 27, 2025"; para following])
      cutoff_0828
    = Ok [(Datetime.mkdate 2025 8 27, Some "Wednesday August 27, 2025")].
Proof.
  split; [| intros following]; vm_compute; reflexivity.
Qed.

(** C3.  For every page and cutoff the parser returns a list in which no
    record has a date after the cutoff; and a heading of the page whose
    date is the cutoff itself, and which meets the other conditions, has
    its record in the list. *)
Theorem C3_cutoff_is_inclusive_bound (soup : Soup.node) (cutoff : Datetime.date) :
  exists available,
    parse_available_dates soup cutoff = Ok available /\
    (forall d s, In (d, s) available -> Datetime.gt d cutoff = false) /\
    (forall heading st,
       In heading (Soup.find_all soup heading_names) ->
       PyStr.contains "202" (Soup.get_text_strip (Soup.self heading)) = true ->
       Strptime.strptime (Soup.get_text_strip (Soup.self heading)) heading_format
         = Ok cutoff ->
       status_text heading = Some st ->
       PyStr.truthy st = true ->
       PyStr.contains booked_phrase st = false ->
       In (cutoff, Some st) available).
Proof.
  eexists. split; [apply parse_available_dates_spec |]. split.
  - intros d s Hin.
    apply in_flat_map in Hin as (heading & _ & Hin).
    apply In_emitted, visit_heading_Some in Hin.
    destruct Hin as (_ & _ & Hgt & _). exact Hgt.
  - intros heading st Hin H202 Hparse Hst Ht Hb.
    destruct (qualifying_heading_is_reported soup cutoff cutoff heading st)
      as (available & Hav & Hrec); try assumption.
    + apply gt_irrefl.
    + rewrite parse_available_dates_spec in Hav. injection Hav as <-. exact Hrec.
Qed.

Lemma C3_cutoff_is_inclusive_bound_witness :
  exists available,
    parse_available_dates scenario_A (Datetime.mkdate 2025 8 27) = Ok available /\
    In (Datetime.mkdate 2025 8 27, Some "Wednesday August 27, 2025") available.
Proof.
  destruct (C3_cutoff_is_inclusive_bound scenario_A (Datetime.mkdate 2025 8 27))
    as (available & Hav & _ & Hcut).
  exists available. split; [exact Hav |].
  apply (Hcut (h3_element "Wednesday August 27, 2025"
                 [para "10:00–12:00, 14:00–16:00";
                  Soup.Str Soup.NavigableString "10:00–12:00, 14:00–16:00"])).
  - vm_compute. left. reflexivity.
  - vm_compute. reflexivity.
  - vm_compute. reflexivity.
  - vm_compute. reflexivity.
  - vm_compute. reflexivity.
  - vm_compute. reflexivity.
Defined.

(** C4, as stated, fails: the heading "Wednesday August 27, 1202" holds no
    four-digit token starting with "202" (its year is "1202"), it passes
    the test ["202" in text] all the same, and a record is returned for it. *)
Lemma C4_counterexample_year_1202 :
  has_year_token_202 "Wednesday August 27, 1202" = false /\
  PyStr.contains "2020" "Wednesday August 27, 1202" = false /\
  parse_available_dates
    (Soup.BeautifulSoup [h3 "Wednesday August 27, 1202"; para "10:00"])
    cutoff_0828
  = Ok [(Datetime.mkdate 1202 8 27, Some "Wednesday August 27, 1202")].
Proof. repeat split; vm_compute; reflexivity. Qed.

(** C4, amended.  For every heading whose text does not contain the
    substring "202", the parser emits no record for that heading (and
    raises nothing). *)
Theorem C4_no_202_substring_no_record (heading : Soup.element)
    (cutoff : Datetime.date) :
  PyStr.contains "202" (Soup.get_text_strip (Soup.self heading)) = false ->
  visit_heading heading cutoff = Ok None /\ emitted cutoff heading = [].
Proof.
  intros H. unfold emitted, visit_heading. rewrite H. simpl. split; reflexivity.
Qed.

Lemma C4_no_202_substring_no_record_witness :
  visit_heading (h3_element "Wednesday August 27, 1999" [para "10:00"]) cutoff_0828
    = Ok None /\
  emitted cutoff_0828 (h3_element "Wednesday August 27, 1999" [para "10:00"]) = [].
Proof.
  apply (C4_no_202_substring_no_record
           (h3_element "Wednesday August 27, 1999" [para "10:00"]) cutoff_0828).
  vm_compute. reflexivity.
Defined.



(** C9.  The parser is total: for every page and cutoff it returns a
    list and raises nothing.  A heading whose text holds "202" and which
    [strptime] refuses against ["%A %B %d, %Y"] is passed over without a
    record and without a failure; "Mon Aug 25, 2025" is such a heading, and
    the page of scenario C gives the empty list. *)
Theorem C9_unparseable_heading_is_skipped :
  (forall soup cutoff, exists available,
      parse_available_dates soup cutoff = Ok available) /\
  (forall heading cutoff e,
      PyStr.contains "202" (Soup.get_text_strip (Soup.self heading)) = true ->
      Strptime.strptime (Soup.get_text_strip (Soup.self heading)) heading_format
        = Raise e ->
      visit_heading heading cutoff = Ok None /\ emitted cutoff heading = []) /\
  PyStr.contains "202" "Mon Aug 25, 2025" = true /\
  (exists msg,
      Strptime.strptime "Mon Aug 25, 2025" heading_format = Raise (ValueError msg)) /\
  parse_available_dates scenario_C cutoff_0828 = Ok [].
Proof.
  split; [| split; [| split; [| split]]].
  - intros soup cutoff. eexists. apply parse_available_dates_spec.
  - intros heading cutoff e H202 Hraise.
    pose proof (strptime_only_ValueError
                  (Soup.get_text_strip (Soup.self heading)) heading_format) as Hv.
    unfold emitted, visit_heading. rewrite H202, Hraise in *. simpl.
    destruct e as [msg | cls msg]; [split; reflexivity | destruct Hv].
  - vm_compute. reflexivity.
  - eexists. vm_compute. reflexivity.
  - vm_compute. reflexivity.
Qed.

Lemma C9_unparseable_heading_is_skipped_witness :
  visit_heading (h3_element "Mon Aug 25, 2025" [para "10:00"]) cutoff_0828 = Ok None /\
  emitted cutoff_0828 (h3_element "Mon Aug 25, 2025" [para "10:00"]) = [].
Proof.
  destruct C9_unparseable_heading_is_skipped as (_ & Hskip & _).
  apply (Hskip (h3_element "Mon Aug 25, 2025" [para "10:00"]) cutoff_0828
           (ValueError
              "time data 'Mon Aug 25, 2025' does not match format '%A %B %d, %Y'")).
  - vm_compute. reflexivity.
  - vm_compute. reflexivity.
Defined.

(** ** The claims about the notifier *)

(** [int()] on the texts a port value can be: blanks around the literal,
    a sign and single underscores are taken; a separator that only
    [str.strip] drops, a misplaced underscore and a literal of more than
    4300 digits are refused. *)
Example int_accepts :
  PyStr.int " +5_87 " = Ok 587 /\ PyStr.int "0587" = Ok 587 /\
  PyStr.int (String (ascii_of_N 9) "25" ++ nl) = Ok 25.
Proof. repeat split; vm_compute; reflexivity. Qed.

Example int_refuses :
  PyStr.int (String (ascii_of_N 28) "587")
  = Raise (ValueError ("invalid literal for int() with base 10: '"
                       ++ String PyStr.backslash "x1c587'")) /\
  PyStr.int "5_" = Raise (ValueError "invalid literal for int() with base 10: '5_'") /\
  PyStr.int "5__87"
  = Raise (ValueError "invalid literal for int() with base 10: '5__87'") /\
  PyStr.int "0x24b"
  = Raise (ValueError "invalid literal for int() with base 10: '0x24b'") /\
  PyStr.int (String.concat "" (repeat "1" 4301))
  = Raise (ValueError
      "Exceeds the limit (4300 digits) for integer string conversion: value has 4301 digits; use sys.set_int_max_str_digits() to increase the limit") /\
  returns (PyStr.int (String.concat "" (repeat "1" 4300))).
Proof. repeat split; vm_compute; reflexivity. Qed.

(** A relay that has gone away when the session is closed: [SMTP.__exit__]
    passes the disconnection over and the mail is reported as sent. *)
Example disconnection_at_quit_is_passed_over :
  send_email_notification configured relay_drops_at_quit one_slot
    "https://example.org/slots" cutoff_0828
  = ([SmtpConnect "smtp.example.org" 587;
      SmtpStarttls;
      SmtpLogin "me@example.org" "secret";
      SmtpSendmail "me@example.org" ["you@example.org"] "Appointment Slot Found!"
        ("Available appointments up to 2025-08-28 were found at https://example.org/slots:"
         ++ nl ++ nl ++ "- Wednesday August 27, 2025: 10:00" ++ nl);
      SmtpQuit;
      Print stdout "[INFO] Notification email sent to you@example.org."],
     Ok tt).
Proof. vm_compute. reflexivity. Qed.

Lemma all_chars_app (p : ascii -> bool) (a b : string) :
  all_chars p (a ++ b) = all_chars p a && all_chars p b.
Proof.
  induction a as [| c a IH]; [reflexivity |].
  cbn [String.append all_chars]. rewrite IH, andb_assoc. reflexivity.
Qed.

(** Texts that can be encoded. *)

Lemma append_assoc (a b c : string) : (a ++ b) ++ c = a ++ (b ++ c).
Proof.
  induction a as [| x a IH]; [reflexivity |].
  cbn [String.append]. rewrite IH. reflexivity.
Qed.

(** A well-formed sequence at the head of a text stays one whatever
    follows it. *)
Lemma well_formed_head (s : string) (n : nat) :
  PyStr.well_formed_len s = S n ->
  exists c p s', s = String c (p ++ s') /\ String.length p = n /\
    forall t, PyStr.well_formed_len (String c (p ++ t)) = S n.
Proof.
  unfold PyStr.well_formed_len.
  destruct s as [| b0 s1]; [discriminate |].
  destruct (PyStr.code b0 <? 128)%N eqn:H0.
  { intros [= <-]. exists b0, "", s1. repeat split.
    intros t. cbn [String.append]. rewrite H0. reflexivity. }
  destruct s1 as [| b1 s2]; [discriminate |].
  destruct (PyStr.in_range 194 223 b0) eqn:H1.
  { destruct (PyStr.in_range 128 191 b1) eqn:H2; [| discriminate].
    intros [= <-]. exists b0, (String b1 ""), s2. repeat split.
    intros t. cbn [String.append]. rewrite H0, H1, H2. reflexivity. }
  destruct s2 as [| b2 s3]; [discriminate |].
  destruct (PyStr.in_range 224 239 b0) eqn:H2.
  { match goal with |- context [if ?c then _ else _] => destruct c eqn:H3 end;
      [| discriminate].
    intros [= <-]. exists b0, (String b1 (String b2 "")), s3. repeat split.
    intros t. cbn [String.append]. rewrite H0, H1, H2, H3. reflexivity. }
  destruct s3 as [| b3 s4]; [discriminate |].
  match goal with |- context [if ?c then _ else _] => destruct c eqn:H3 end;
    [| discriminate].
  intros [= <-]. exists b0, (String b1 (String b2 (String b3 ""))), s4. repeat split.
  intros t. cbn [String.append]. rewrite H0, H1, H2, H3. reflexivity.
Qed.

Lemma first_surrogate_skip (p t : string) (pos : N) :
  PyStr.first_surrogate (String.length p) pos (p ++ t)
  = PyStr.first_surrogate 0 pos t.
Proof.
  induction p as [| c p IH]; [reflexivity |].
  cbn [String.length String.append PyStr.first_surrogate]. exact IH.
Qed.

Lemma first_surrogate_head (c : ascii) (p t : string) (pos : N) :
  PyStr.well_formed_len (String c (p ++ t)) = S (String.length p) ->
  PyStr.first_surrogate 0 pos (String c (p ++ t))
  = PyStr.first_surrogate 0 (pos + 1) t.
Proof.
  intros H. cbn [PyStr.first_surrogate]. rewrite H.
  apply first_surrogate_skip.
Qed.

Lemma first_surrogate_pos (s : string) (skip : nat) (pos pos' : N) :
  PyStr.first_surrogate skip pos s = None ->
  PyStr.first_surrogate skip pos' s = None.
Proof.
  revert skip pos pos'.
  induction s as [| c s IH]; intros skip pos pos'; [reflexivity |].
  cbn [PyStr.first_surrogate]. destruct skip as [| k].
  - destruct (PyStr.well_formed_len (String c s)); [discriminate | apply IH].
  - apply IH.
Qed.

Lemma first_surrogate_tail (s : string) (skip : nat) (pos p : N) (tail : string) :
  PyStr.first_surrogate skip pos s = Some (p, tail) -> tail <> "".
Proof.
  revert skip pos.
  induction s as [| c s IH]; intros skip pos; [discriminate |].
  cbn [PyStr.first_surrogate]. destruct skip as [| k].
  - destruct (PyStr.well_formed_len (String c s)).
    + intros [= <- <-]. discriminate.
    + apply IH.
  - apply IH.
Qed.

Lemma encodable_iff (s : string) :
  PyStr.utf8_encode_error s = None <-> PyStr.first_surrogate 0 0 s = None.
Proof.
  unfold PyStr.utf8_encode_error.
  destruct (PyStr.first_surrogate 0 0 s) as [[p tail] |] eqn:H.
  - apply first_surrogate_tail in H.
    destruct tail; [contradiction | split; discriminate].
  - split; reflexivity.
Qed.

Lemma length_append_le (p s : string) :
  (String.length s <= String.length (p ++ s))%nat.
Proof.
  induction p as [| c p IH]; [apply Nat.le_refl |].
  cbn [String.append String.length]. lia.
Qed.

Lemma first_surrogate_app (n : nat) :
  forall s t pos, (String.length s <= n)%nat ->
    PyStr.first_surrogate 0 pos s = None ->
    PyStr.first_surrogate 0 pos t = None ->
    PyStr.first_surrogate 0 pos (s ++ t) = None.
Proof.
  induction n as [| n IH]; intros s t pos Hlen Hs Ht.
  - destruct s; [exact Ht | cbn in Hlen; lia].
  - destruct s as [| c s]; [exact Ht |].
    destruct (PyStr.well_formed_len (String c s)) as [| k] eqn:Hw.
    + cbn [PyStr.first_surrogate] in Hs. rewrite Hw in Hs. discriminate.
    + destruct (well_formed_head _ _ Hw) as (c' & p & s' & Heq & Hp & Hany).
      injection Heq as <- ->. subst k.
      rewrite first_surrogate_head in Hs by apply Hany.
      cbn [String.append]. rewrite append_assoc.
      rewrite first_surrogate_head by apply Hany.
      apply IH.
      * cbn [String.length] in Hlen. pose proof (length_append_le p s'). lia.
      * exact Hs.
      * exact (first_surrogate_pos _ _ _ _ Ht).
Qed.

(** Two texts that can be encoded give one that can when put together. *)
Lemma encodable_app (s t : string) :
  PyStr.utf8_encode_error s = None -> PyStr.utf8_encode_error t = None ->
  PyStr.utf8_encode_error (s ++ t) = None.
Proof.
  rewrite !encodable_iff. apply (first_surrogate_app (String.length s)). lia.
Qed.

Lemma ascii_encodable (s : string) :
  all_chars PyStr.is_ascii s = true -> PyStr.utf8_encode_error s = None.
Proof.
  rewrite encodable_iff. generalize 0%N as pos.
  induction s as [| c s IH]; intros pos H; [reflexivity |].
  cbn [all_chars] in H. apply andb_true_iff in H as [Hc Hs].
  cbn [PyStr.first_surrogate PyStr.well_formed_len].
  unfold PyStr.is_ascii in Hc. rewrite Hc.
  destruct s; [reflexivity | apply IH; exact Hs].
Qed.

Lemma digit_char_ascii (n : Z) : PyStr.is_ascii (PyStr.digit_char n) = true.
Proof.
  unfold PyStr.digit_char.
  pose proof (Z.mod_pos_bound n 10 ltac:(lia)) as Hb.
  revert Hb. generalize (n mod 10). intros v Hv.
  assert (Hcases : v = 0 \/ v = 1 \/ v = 2 \/ v = 3 \/ v = 4 \/ v = 5 \/ v = 6 \/
                   v = 7 \/ v = 8 \/ v = 9) by lia.
  repeat destruct Hcases as [-> | Hcases]; try subst v; reflexivity.
Qed.

Lemma name_at_ascii (l : list string) (i : Z) :
  forallb (all_chars PyStr.is_ascii) l = true ->
  all_chars PyStr.is_ascii (Datetime.name_at l i) = true.
Proof.
  intros H. unfold Datetime.name_at.
  destruct (nth_in_or_default (Z.to_nat i) l "") as [Hin | ->]; [| reflexivity].
  rewrite forallb_forall in H. apply H. exact Hin.
Qed.

Lemma isoformat_ascii (d : Datetime.date) :
  all_chars PyStr.is_ascii (Datetime.isoformat d) = true.
Proof.
  unfold Datetime.isoformat, PyStr.pad4, PyStr.pad2.
  cbn [String.append all_chars]. rewrite !digit_char_ascii. reflexivity.
Qed.

Lemma decimal_ascii (n : N) : all_chars PyStr.is_ascii (PyStr.decimal n) = true.
Proof.
  unfold PyStr.decimal. generalize (N.to_uint n) as u.
  induction u; cbn [NilEmpty.string_of_uint all_chars]; try rewrite IHu; reflexivity.
Qed.

Lemma strftime_heading_ascii (d : Datetime.date) :
  all_chars PyStr.is_ascii (Datetime.strftime d heading_format) = true.
Proof.
  unfold heading_format. cbn [Datetime.strftime].
  unfold PyStr.pad2.
  repeat (rewrite ?all_chars_app; cbn [String.append all_chars]).
  rewrite !name_at_ascii by reflexivity.
  rewrite !digit_char_ascii, decimal_ascii. reflexivity.
Qed.

Lemma body_lines_encodable (available_dates : list availability) :
  (forall d st, In (d, Some st) available_dates ->
     PyStr.utf8_encode_error st = None) ->
  PyStr.utf8_encode_error (body_lines available_dates) = None.
Proof.
  induction available_dates as [| [d status] rest IH]; intros H; [reflexivity |].
  cbn [body_lines].
  apply (encodable_app "- "); [reflexivity |].
  apply encodable_app; [apply ascii_encodable, strftime_heading_ascii |].
  apply (encodable_app ": "); [reflexivity |].
  apply encodable_app.
  - unfold or_else. destruct status as [st |]; cbn [falsy].
    + destruct (negb (PyStr.truthy st)); [reflexivity |].
      apply (H d st). left. reflexivity.
    + reflexivity.
  - apply (encodable_app nl); [reflexivity |].
    apply IH. intros d' st Hin. apply (H d' st). right. exact Hin.
Qed.

(** The text of the mail can be encoded when the address of the page and
    the status texts can. *)
Lemma mail_body_encodable (available_dates : list availability) (url : string)
    (cutoff_date : Datetime.date) :
  PyStr.utf8_encode_error url = None ->
  (forall d st, In (d, Some st) available_dates ->
     PyStr.utf8_encode_error st = None) ->
  PyStr.utf8_encode_error (mail_body available_dates url cutoff_date) = None.
Proof.
  intros Hurl Hst. unfold mail_body.
  apply (encodable_app "Available appointments up to "); [reflexivity |].
  apply encodable_app; [apply ascii_encodable, isoformat_ascii |].
  apply (encodable_app " were found at "); [reflexivity |].
  apply encodable_app; [exact Hurl |].
  apply (encodable_app ":"); [reflexivity |].
  apply (encodable_app nl); [reflexivity |].
  apply (encodable_app nl); [reflexivity |].
  apply body_lines_encodable. exact Hst.
Qed.

(** What a session with the relay ends with is [session_failure], and it
    consists of actions on the network only. *)
Lemma smtp_session_result (r : relay) (smtp_server : string) (smtp_port : Z)
    (smtp_user smtp_password sender recipient subject body : string) :
  exists session,
    smtp_session r smtp_server smtp_port smtp_user smtp_password
      sender recipient subject body
    = (session,
       match session_failure r with
       | Some e => Raise e
       | None => Ok tt
       end) /\
    forallb is_network session = true.
Proof.
  unfold session_failure.
  destruct r as [[e1 |] [e2 |] [e3 |] [e4 |] [e5 |]];
    unfold smtp_session, smtp_exit, with_exit, try_except, attempt, io_bind, pure, lift;
    cbn [on_connect on_starttls on_login on_sendmail on_quit app fst snd];
    try destruct (is_disconnected e5);
    cbn [app]; eexists; split; reflexivity.
Qed.

(** C5, as stated, fails: with APPT_MAIL_SMTP_PORT set to "abc" the
    conversion [int(...)], which stands before the [try], raises
    [ValueError] out of [send_email_notification]; in a cycle of the poll
    loop that failure is what the loop's own handler reports.  So does,
    with a usable port, [MIMEText(body, "plain")], which stands before the
    [try] too, when the address of the page holds a byte that is not
    UTF-8. *)
Lemma C5_counterexample_bad_port :
  send_email_notification configured_bad_port relay_up one_slot
    "https://example.org/slots" cutoff_0828
  = ([], Raise (ValueError "invalid literal for int() with base 10: 'abc'")) /\
  check_once configured_bad_port "https://example.org/slots" cutoff_0828
    (mkcycle (Ok scenario_A) "2025-08-01 10:00:00" "2025-08-01 10:00:01" relay_up)
  = ([HttpGet "https://example.org/slots";
      Print stdout "[2025-08-01 10:00:00] Found available appointments:";
      Print stdout "  * Wednesday August 27, 2025: Wednesday August 27, 2025";
      Print stdout "Act quickly to book your preferred slot via the web interface.";
      Print stderr
        "[2025-08-01 10:00:01] Error while checking appointments: invalid literal for int() with base 10: 'abc'"],
     Ok tt) /\
  send_email_notification configured relay_up one_slot url_stray_byte cutoff_0828
  = ([], Raise (Exception "UnicodeEncodeError"
                  ("'utf-8' codec can't encode character '" ++ String PyStr.backslash
                   "udcff' in position 80: surrogates not allowed"))).
Proof. repeat split; vm_compute; reflexivity. Qed.

Lemma io_bind_lift_Ok {A B : Type} (a : A) (f : A -> io B) :
  io_bind (lift (Ok a)) f = f a.
Proof. unfold lift, io_bind. destruct (f a). reflexivity. Qed.

Lemma some_missing_false (environ : environment) :
  some_missing environ = false ->
  missing_keys
    [("APPT_MAIL_SENDER", environ "APPT_MAIL_SENDER");
     ("APPT_MAIL_RECIPIENT", environ "APPT_MAIL_RECIPIENT");
     ("APPT_MAIL_SMTP_SERVER", environ "APPT_MAIL_SMTP_SERVER");
     ("APPT_MAIL_SMTP_PASSWORD", environ "APPT_MAIL_SMTP_PASSWORD")] = [].
Proof.
  unfold some_missing, missing_keys, required_keys. cbn [existsb filter map fst snd].
  destruct (falsy (environ "APPT_MAIL_SENDER"));
    destruct (falsy (environ "APPT_MAIL_RECIPIENT"));
    destruct (falsy (environ "APPT_MAIL_SMTP_SERVER"));
    destruct (falsy (environ "APPT_MAIL_SMTP_PASSWORD"));
    cbn; intros H; try discriminate H; reflexivity.
Qed.

(** C5, amended.  Whenever the configured relay port value is absent or
    is a literal [int()] accepts, and the address of the page and the
    status texts can be encoded, [send_email_notification] does not raise,
    however the relay session goes.  When the four required values are
    set, what it did is a session with the relay followed by one line: if
    the session failed (at the connection, the TLS upgrade, the login,
    the transaction, or at the closing [QUIT] with anything but a
    disconnection) the error line with the failure's description;
    otherwise, a disconnection at the closing being passed over by
    [smtplib], the line that reports the mail. *)
Theorem C5_relay_failures_are_absorbed (environ : environment) (r : relay)
    (available_dates : list availability) (url : string)
    (cutoff_date : Datetime.date) (port : Z) :
  PyStr.int (get_default environ "APPT_MAIL_SMTP_PORT" "587") = Ok port ->
  PyStr.utf8_encode_error url = None ->
  (forall d st, In (d, Some st) available_dates ->
     PyStr.utf8_encode_error st = None) ->
  exists events,
    send_email_notification environ r available_dates url cutoff_date
    = (events, Ok tt) /\
    (some_missing environ = false ->
     exists session,
       forallb is_network session = true /\
       events
       = (session ++
          [match session_failure r with
           | Some e => Print stderr ("[ERROR] Failed to send email: " ++ exn_str e)
           | None =>
               Print stdout ("[INFO] Notification email sent to "
                             ++ str (environ "APPT_MAIL_RECIPIENT") ++ ".")
           end])%list).
Proof.
  intros Hport Hurl Hstatus.
  pose proof (mail_body_encodable available_dates url cutoff_date Hurl Hstatus)
    as Hbody.
  unfold mail_body in Hbody.
  unfold send_email_notification.
  rewrite Hport, io_bind_lift_Ok.
  destruct (missing_keys _) as [| k ks] eqn:Hmissing.
  - unfold MIMEText. rewrite Hbody, io_bind_lift_Ok.
    match goal with
    | |- context [smtp_session ?r ?a ?b ?c ?d ?e ?f ?g ?h] =>
        destruct (smtp_session_result r a b c d e f g h) as (session & -> & Hnet)
    end.
    destruct (session_failure r) as [e |];
      unfold try_except, io_bind, print, emit; cbn [app];
      eexists; (split; [reflexivity |]); intros _; exists session;
      (split; [exact Hnet |]); rewrite ?app_nil_r; reflexivity.
  - eexists. split; [reflexivity |]. intros Hnone.
    apply some_missing_false in Hnone. congruence.
Qed.

Lemma C5_relay_failures_are_absorbed_witness :
  exists events,
    send_email_notification configured relay_refuses_login one_slot
      "https://example.org/slots" cutoff_0828
    = (events, Ok tt) /\
    (some_missing configured = false ->
     exists session,
       forallb is_network session = true /\
       events
       = (session ++
          [Print stderr
             "[ERROR] Failed to send email: (535, b'5.7.8 bad credentials')"])%list).
Proof.
  apply (C5_relay_failures_are_absorbed configured relay_refuses_login one_slot
           "https://example.org/slots" cutoff_0828 587).
  - vm_compute. reflexivity.
  - vm_compute. reflexivity.
  - intros d st [H | []]. injection H as _ <-. vm_compute. reflexivity.
Defined.

(** C6, as stated, fails: with the password absent and
    APPT_MAIL_SMTP_PORT set to "abc", [int(...)] raises before the missing
    keys are looked at, and no warning is printed. *)
Lemma C6_counterexample_bad_port :
  no_password_bad_port "APPT_MAIL_SMTP_PASSWORD" = None /\
  send_email_notification no_password_bad_port relay_up one_slot
    "https://example.org/slots" cutoff_0828
  = ([], Raise (ValueError "invalid literal for int() with base 10: 'abc'")).
Proof. split; vm_compute; reflexivity. Qed.

Lemma missing_keys_required (environ : environment) :
  missing_keys
    [("APPT_MAIL_SENDER", environ "APPT_MAIL_SENDER");
     ("APPT_MAIL_RECIPIENT", environ "APPT_MAIL_RECIPIENT");
     ("APPT_MAIL_SMTP_SERVER", environ "APPT_MAIL_SMTP_SERVER");
     ("APPT_MAIL_SMTP_PASSWORD", environ "APPT_MAIL_SMTP_PASSWORD")]
  = filter (fun key => falsy (environ key)) required_keys.
Proof.
  unfold missing_keys, required_keys. cbn [filter map fst snd].
  destruct (falsy (environ "APPT_MAIL_SENDER"));
    destruct (falsy (environ "APPT_MAIL_RECIPIENT"));
    destruct (falsy (environ "APPT_MAIL_SMTP_SERVER"));
    destruct (falsy (environ "APPT_MAIL_SMTP_PASSWORD")); reflexivity.
Qed.

Lemma absent_key_is_missing (environ : environment) (keys : list string)
    (key : string) :
  In key keys -> environ key = None ->
  filter (fun k => falsy (environ k)) keys <> [].
Proof.
  intros Hin Hnone Hnil.
  assert (H : In key (filter (fun k => falsy (environ k)) keys)).
  { apply filter_In. split; [exact Hin |]. rewrite Hnone. reflexivity. }
  rewrite Hnil in H. destruct H.
Qed.

(** C6, amended.  Whenever the configured relay port value is absent or
    is an integer literal: if a required value (sender, recipient, relay
    host, relay password) is absent from the environment, all that
    [send_email_notification] does is print one warning on the error
    stream that lists exactly the required keys whose value is absent or
    empty, in the order sender, recipient, host, password; no network
    action takes place and nothing is raised.  When the other three are
    set, the list is the password key alone. *)
Theorem C6_missing_configuration_warns (environ : environment) (r : relay)
    (available_dates : list availability) (url : string)
    (cutoff_date : Datetime.date) (port : Z) :
  PyStr.int (get_default environ "APPT_MAIL_SMTP_PORT" "587") = Ok port ->
  (exists key, In key required_keys /\ environ key = None) ->
  let missing := filter (fun key => falsy (environ key)) required_keys in
  send_email_notification environ r available_dates url cutoff_date
  = ([Print stderr ("[WARN] Email not sent: missing environment variables: "
                    ++ PyStr.join ", " missing)],
     Ok tt) /\
  existsb is_network
    (fst (send_email_notification environ r available_dates url cutoff_date)) = false /\
  (falsy (environ "APPT_MAIL_SENDER") = false ->
   falsy (environ "APPT_MAIL_RECIPIENT") = false ->
   falsy (environ "APPT_MAIL_SMTP_SERVER") = false ->
   missing = ["APPT_MAIL_SMTP_PASSWORD"]).
Proof.
  intros Hport (key & Hin & Hnone) missing.
  assert (Hsend :
    send_email_notification environ r available_dates url cutoff_date
    = ([Print stderr ("[WARN] Email not sent: missing environment variables: "
                      ++ PyStr.join ", " missing)], Ok tt)).
  { unfold send_email_notification.
    rewrite Hport, io_bind_lift_Ok, missing_keys_required.
    fold missing.
    pose proof (absent_key_is_missing environ required_keys key Hin Hnone) as Hne.
    fold missing in Hne.
    destruct missing as [| k ks]; [congruence | reflexivity]. }
  split; [exact Hsend |]. split.
  - rewrite Hsend. reflexivity.
  - intros Hs Hr Hh. subst missing. unfold required_keys. cbn [filter].
    rewrite Hs, Hr, Hh.
    destruct (falsy (environ "APPT_MAIL_SMTP_PASSWORD")) eqn:Hp; [reflexivity |].
    exfalso.
    destruct Hin as [<- | [<- | [<- | [<- | []]]]];
      rewrite Hnone in *; discriminate.
Qed.

Lemma C6_missing_configuration_warns_witness :
  send_email_notification no_password relay_up one_slot
    "https://example.org/slots" cutoff_0828
  = ([Print stderr
        "[WARN] Email not sent: missing environment variables: APPT_MAIL_SMTP_PASSWORD"],
     Ok tt).
Proof.
  destruct (C6_missing_configuration_warns no_password relay_up one_slot
              "https://example.org/slots" cutoff_0828 587) as [H _].
  - vm_compute. reflexivity.
  - exists "APPT_MAIL_SMTP_PASSWORD". split.
    + simpl. right. right. right. left. reflexivity.
    + vm_compute. reflexivity.
  - exact H.
Defined.

(** ** The claim about the poll loop *)

Ltac compare_cases :=
  repeat match goal with
         | |- context [(?a <? ?b)%Z] => destruct (Z.ltb_spec a b)
         | |- context [(?a <=? ?b)%Z] => destruct (Z.leb_spec a b)
         end.


Lemma sleep_refuses (interval : Z) :
  interval < 0 \/ max_sleep < interval ->
  sleep interval
  = ([], Raise (if (- max_sleep <=? interval)%Z && (interval <? 0)%Z
                then ValueError "sleep length must be non-negative"
                else Exception "OverflowError"
                       "timestamp too large to convert to C _PyTime_t")).
Proof.
  intros H. unfold sleep, max_sleep in *.
  compare_cases; try lia; reflexivity.
Qed.




(** ** Matching a rendered heading against ["%A %B %d, %Y"] *)

Lemma pattern_heading_format : Strptime.pattern heading_format = Ok heading_regex.
Proof. vm_compute. reflexivity. Qed.

Section Stages.
Context {R : Type}.
Implicit Types (k : string -> string -> Re.groupdict -> option R) (r : R).

Lemma rmatch_Seq (r1 r2 : Re.regex) (s : string) (g : Re.groupdict) k :
  Re.rmatch (Re.Seq r1 r2) s g k
  = Re.rmatch r1 s g (fun m1 s1 g1 =>
      Re.rmatch r2 s1 g1 (fun m2 s2 g2 => k (m1 ++ m2) s2 g2)).
Proof. reflexivity. Qed.

Lemma match_weekday_name (w : Z) (rest : string) (g : Re.groupdict) k r :
  (0 <= w < 7)%Z ->
  k (Datetime.name_at Datetime.day_name w) rest
    (("A", Datetime.name_at Datetime.day_name w) :: g) = Some r ->
  Re.rmatch (Strptime.seqToRE Strptime.f_weekday "A")
    (Datetime.name_at Datetime.day_name w ++ rest) g k = Some r.
Proof.
  intros Hw H.
  assert (Hcases : w = 0 \/ w = 1 \/ w = 2 \/ w = 3 \/ w = 4 \/ w = 5 \/ w = 6)
    by lia.
  repeat destruct Hcases as [-> | Hcases]; try subst w;
    vm_compute in H; vm_compute; rewrite H; reflexivity.
Qed.

Lemma match_month_name (m : Z) (rest : string) (g : Re.groupdict) k r :
  (1 <= m <= 12)%Z ->
  k (Datetime.name_at Datetime.month_name m) rest
    (("B", Datetime.name_at Datetime.month_name m) :: g) = Some r ->
  Re.rmatch (Strptime.seqToRE (tl Strptime.f_month) "B")
    (Datetime.name_at Datetime.month_name m ++ rest) g k = Some r.
Proof.
  intros Hm H.
  assert (Hcases : m = 1 \/ m = 2 \/ m = 3 \/ m = 4 \/ m = 5 \/ m = 6 \/ m = 7 \/
                   m = 8 \/ m = 9 \/ m = 10 \/ m = 11 \/ m = 12) by lia.
  repeat destruct Hcases as [-> | Hcases]; try subst m;
    vm_compute in H; vm_compute; rewrite H; reflexivity.
Qed.

Lemma match_one_space (c : ascii) (rest : string) (g : Re.groupdict) k r :
  PyStr.isspace c = false ->
  k " " (String c rest) g = Some r ->
  Re.rmatch (Re.PlusCls PyStr.isspace) (String " " (String c rest)) g k = Some r.
Proof.
  intros Hc H. cbn [Re.rmatch Re.plus_cls].
  change (PyStr.isspace " ") with true. cbv iota. rewrite Hc.
  unfold Re.orelse. exact H.
Qed.

End Stages.

Lemma Z_range_cases (P : Z -> Prop) (lo : Z) (n : nat) :
  (forall i, (i < n)%nat -> P (lo + Z.of_nat i)) ->
  forall z, lo <= z < lo + Z.of_nat n -> P z.
Proof.
  intros H z Hz.
  replace z with (lo + Z.of_nat (Z.to_nat (z - lo))) by lia.
  apply H. lia.
Qed.

Lemma digit_char_class (n : Z) :
  PyStr.isdigit (PyStr.digit_char n) = true /\
  PyStr.isspace (PyStr.digit_char n) = false.
Proof.
  unfold PyStr.digit_char.
  pose proof (Z.mod_pos_bound n 10 ltac:(lia)) as Hb.
  revert Hb. generalize (n mod 10). intros v Hv.
  assert (Hcases : v = 0 \/ v = 1 \/ v = 2 \/ v = 3 \/ v = 4 \/ v = 5 \/ v = 6 \/
                   v = 7 \/ v = 8 \/ v = 9) by lia.
  repeat destruct Hcases as [-> | Hcases]; try subst v; split; reflexivity.
Qed.

Section MoreStages.
Context {R : Type}.
Implicit Types (k : string -> string -> Re.groupdict -> option R) (r : R).

Lemma match_day (dd : Z) :
  1 <= dd <= 31 ->
  forall (rest : string) (g : Re.groupdict) k r,
    k (PyStr.pad2 dd) rest (("d", PyStr.pad2 dd) :: g) = Some r ->
    Re.rmatch day_regex (PyStr.pad2 dd ++ rest) g k = Some r.
Proof.
  intros Hrange. pattern dd.
  apply (Z_range_cases _ 1 (Z.to_nat 31)); [clear | lia].
  intros i Hi.
  do 31 (destruct i as [| i];
         [intros rest g k r H; vm_compute in H; vm_compute; rewrite H; reflexivity |]).
  lia.
Qed.

Lemma match_year (y : Z) (rest : string) (g : Re.groupdict) k :
  Re.rmatch year_regex (PyStr.pad4 y ++ rest) g k
  = k (PyStr.pad4 y) rest (("Y", PyStr.pad4 y) :: g).
Proof.
  unfold year_regex, PyStr.pad4, PyStr.pad2, Strptime.digit.
  cbn [Re.rmatch String.append].
  rewrite !(proj1 (digit_char_class _)). reflexivity.
Qed.

End MoreStages.

Lemma int_pad2 (n : Z) : 0 <= n <= 99 -> PyStr.int (PyStr.pad2 n) = Ok n.
Proof.
  intros Hrange. pattern n.
  apply (Z_range_cases _ 0 (Z.to_nat 100)); [clear | lia].
  intros i Hi.
  assert (Hall : forallb
            (fun j => match PyStr.int (PyStr.pad2 (0 + Z.of_nat j)) with
                      | Ok v => (v =? Z.of_nat j)%Z
                      | Raise _ => false
                      end) (seq 0 (Z.to_nat 100)) = true) by (vm_compute; reflexivity).
  rewrite forallb_forall in Hall.
  specialize (Hall i ltac:(apply in_seq; lia)).
  destruct (PyStr.int _) as [v |]; [| discriminate].
  apply Z.eqb_eq in Hall. subst v. reflexivity.
Qed.

Lemma int_pad4 (n : Z) :
  0 <= n <= 9999 -> PyStr.int (PyStr.pad4 n) = Ok n.
Proof.
  intros Hrange. pattern n.
  apply (Z_range_cases _ 0 (Z.to_nat 10000)); [clear | lia].
  intros i Hi.
  assert (Hall : forallb
            (fun j => match PyStr.int (PyStr.pad4 (0 + Z.of_nat j)) with
                      | Ok v => (v =? Z.of_nat j)%Z
                      | Raise _ => false
                      end) (seq 0 (Z.to_nat 10000)) = true) by (vm_compute; reflexivity).
  rewrite forallb_forall in Hall.
  specialize (Hall i ltac:(apply in_seq; lia)).
  destruct (PyStr.int _) as [v |]; [| discriminate].
  apply Z.eqb_eq in Hall. subst v. reflexivity.
Qed.

Lemma decimal_pad4 (n : Z) :
  1000 <= n <= 9999 -> PyStr.decimal (Z.to_N n) = PyStr.pad4 n.
Proof.
  intros Hrange. pattern n.
  apply (Z_range_cases _ 1000 (Z.to_nat 9000)); [clear | lia].
  intros i Hi.
  assert (Hall : forallb
            (fun j => String.eqb (PyStr.decimal (Z.to_N (1000 + Z.of_nat j)))
                        (PyStr.pad4 (1000 + Z.of_nat j)))
            (seq 0 (Z.to_nat 9000)) = true) by (vm_compute; reflexivity).
  rewrite forallb_forall in Hall.
  specialize (Hall i ltac:(apply in_seq; lia)).
  apply String.eqb_eq. exact Hall.
Qed.

Lemma index_weekday (w : Z) :
  0 <= w <= 6 ->
  PyStr.index (PyStr.lower (Datetime.name_at Datetime.day_name w)) Strptime.f_weekday
  = Ok w.
Proof.
  intros Hrange. pattern w.
  apply (Z_range_cases _ 0 (Z.to_nat 7)); [clear | lia].
  intros i Hi.
  do 7 (destruct i as [| i]; [vm_compute; reflexivity |]). lia.
Qed.

Lemma index_month (m : Z) :
  1 <= m <= 12 ->
  PyStr.index (PyStr.lower (Datetime.name_at Datetime.month_name m)) Strptime.f_month
  = Ok m.
Proof.
  intros Hrange. pattern m.
  apply (Z_range_cases _ 1 (Z.to_nat 12)); [clear | lia].
  intros i Hi.
  do 12 (destruct i as [| i]; [vm_compute; reflexivity |]). lia.
Qed.

Lemma month_name_head (m : Z) :
  1 <= m <= 12 ->
  exists c tail,
    Datetime.name_at Datetime.month_name m = String c tail /\
    PyStr.isspace c = false.
Proof.
  intros Hrange. pattern m.
  apply (Z_range_cases _ 1 (Z.to_nat 12)); [clear | lia].
  intros i Hi.
  do 12 (destruct i as [| i];
         [eexists; eexists; split; vm_compute; reflexivity |]).
  lia.
Qed.

Lemma match_space_before {R : Type} (s : string) (g : Re.groupdict)
    (k : string -> string -> Re.groupdict -> option R) (r : R) :
  (exists c tail, s = String c tail /\ PyStr.isspace c = false) ->
  k " " s g = Some r ->
  Re.rmatch (Re.PlusCls PyStr.isspace) (String " " s) g k = Some r.
Proof.
  intros (c & tail & -> & Hc) H. apply match_one_space; assumption.
Qed.

Lemma pad2_head (n : Z) (rest : string) :
  exists c tail, PyStr.pad2 n ++ rest = String c tail /\ PyStr.isspace c = false.
Proof.
  unfold PyStr.pad2. eexists; eexists. split; [reflexivity |].
  apply digit_char_class.
Qed.

Lemma pad4_head (n : Z) :
  exists c tail, PyStr.pad4 n = String c tail /\ PyStr.isspace c = false.
Proof.
  unfold PyStr.pad4. eexists; eexists. split; [reflexivity |].
  apply digit_char_class.
Qed.

Lemma match_comma {R : Type} (s : string) (g : Re.groupdict)
    (k : string -> string -> Re.groupdict -> option R) :
  Re.rmatch (Re.Chr ",") (String "," s) g k = k "," s g.
Proof. reflexivity. Qed.

Ltac space_stage :=
  rewrite rmatch_Seq;
  match goal with
  | |- Re.rmatch _ (" " ++ ?s) ?g ?k = Some ?r =>
      apply (match_space_before s g k r); [| cbv beta]
  | |- Re.rmatch _ (String " " ?s) ?g ?k = Some ?r =>
      apply (match_space_before s g k r); [| cbv beta]
  end.

Lemma re_match_heading_text (w : Z) (d : Datetime.date) :
  0 <= w <= 6 ->
  1 <= Datetime.month d <= 12 ->
  1 <= Datetime.day d <= 31 ->
  Re.re_match heading_regex (heading_text w d)
  = Some ("",
          [("A", Datetime.name_at Datetime.day_name w);
           ("B", Datetime.name_at Datetime.month_name (Datetime.month d));
           ("d", PyStr.pad2 (Datetime.day d));
           ("Y", PyStr.pad4 (Datetime.year d))]).
Proof.
  intros Hw Hm Hd.
  unfold Re.re_match, heading_regex, heading_text.
  rewrite rmatch_Seq.
  match goal with
  | |- Re.rmatch _ (_ ++ ?rest) ?g ?k = Some ?r =>
      apply (match_weekday_name w rest g k r); [lia | cbv beta]
  end.
  space_stage.
  { destruct (month_name_head (Datetime.month d) Hm) as (c & tail & -> & Hc).
    exists c. eexists. split; [reflexivity | exact Hc]. }
  rewrite rmatch_Seq.
  match goal with
  | |- Re.rmatch _ (_ ++ ?rest) ?g ?k = Some ?r =>
      apply (match_month_name (Datetime.month d) rest g k r); [lia | cbv beta]
  end.
  space_stage; [apply pad2_head |].
  rewrite rmatch_Seq.
  match goal with
  | |- Re.rmatch _ (_ ++ ?rest) ?g ?k = Some ?r =>
      apply (match_day (Datetime.day d) Hd rest g k r); cbv beta
  end.
  change (", " ++ PyStr.pad4 (Datetime.year d))
    with (String "," (String " " (PyStr.pad4 (Datetime.year d) ++ ""))).
  rewrite rmatch_Seq, match_comma.
  space_stage.
  { destruct (pad4_head (Datetime.year d)) as (c & tail & Hp & Hc).
    exists c, (tail ++ ""). rewrite Hp. split; [reflexivity | exact Hc]. }
  rewrite rmatch_Seq, match_year.
  reflexivity.
Qed.

Lemma new_Ok_inv (y m dd : Z) (d : Datetime.date) :
  Datetime.new y m dd = Ok d ->
  d = Datetime.mkdate y m dd /\ 1 <= y <= 9999 /\ 1 <= m <= 12 /\ 1 <= dd <= 31.
Proof.
  unfold Datetime.new, Datetime.MINYEAR, Datetime.MAXYEAR.
  destruct ((1 <=? y) && (y <=? 9999))%Z eqn:Hy; [| discriminate].
  destruct ((1 <=? m) && (m <=? 12))%Z eqn:Hm; [| discriminate].
  destruct ((1 <=? dd) && (dd <=? Datetime.days_in_month y m))%Z eqn:Hd;
    [| discriminate].
  cbn [negb]. intros H. injection H as <-.
  apply andb_true_iff in Hy as [Hy1 Hy2], Hm as [Hm1 Hm2], Hd as [Hd1 Hd2].
  assert (Datetime.days_in_month y m <= 31).
  { unfold Datetime.days_in_month.
    repeat match goal with
           | |- context [if ?b then _ else _] => destruct b
           end; lia. }
  repeat split; lia.
Qed.

Lemma convert_heading_groups (wname mname dtext ytext : string) (w m dd y : Z) :
  PyStr.index (PyStr.lower wname) Strptime.f_weekday = Ok w ->
  PyStr.index (PyStr.lower mname) Strptime.f_month = Ok m ->
  PyStr.int dtext = Ok dd ->
  PyStr.int ytext = Ok y ->
  Strptime.convert [("A", wname); ("B", mname); ("d", dtext); ("Y", ytext)]
    Strptime.defaults
  = Ok (Strptime.mkfields y m dd (Some w)).
Proof.
  intros Hw Hm Hd Hy.
  unfold Strptime.convert, Strptime.convert_group.
  cbn [String.eqb Ascii.eqb Bool.eqb].
  rewrite Hw. cbn [bind]. rewrite Hm. cbn [bind]. rewrite Hd. cbn [bind].
  rewrite Hy. reflexivity.
Qed.

(** Whatever weekday name a heading carries, it parses to the date it
    states. *)
Lemma strptime_heading_text (w y m dd : Z) (d : Datetime.date) :
  0 <= w <= 6 ->
  Datetime.new y m dd = Ok d ->
  Strptime.strptime (heading_text w d) heading_format = Ok d.
Proof.
  intros Hw Hnew.
  destruct (new_Ok_inv y m dd d Hnew) as (-> & Hy & Hm & Hd).
  unfold Strptime.strptime, Strptime._strptime.
  rewrite pattern_heading_format. cbn [bind].
  rewrite re_match_heading_text by (cbn; lia).
  cbn [PyStr.truthy Datetime.year Datetime.month Datetime.day].
  rewrite (convert_heading_groups _ _ _ _ w m dd y).
  - cbn [bind Strptime.f_year Strptime.f_mon Strptime.f_day].
    rewrite Hnew. cbn [bind Strptime.f_year Strptime.f_mon Strptime.f_day].
    exact Hnew.
  - apply index_weekday. lia.
  - apply index_month. lia.
  - apply int_pad2. lia.
  - apply int_pad4. lia.
Qed.

(** ** What the pattern of a heading accepts *)

Lemma plus_cls_sound {R : Type} (p : ascii -> bool) (s : string)
    (k : string -> string -> option R) (res : R) :
  Re.plus_cls p s k = Some res ->
  exists m rest, s = m ++ rest /\ matches (Re.PlusCls p) m [] /\ k m rest = Some res.
Proof.
  revert k. induction s as [| c s' IH]; intros k; cbn [Re.plus_cls]; [discriminate |].
  destruct (p c) eqn:Hc; [| discriminate].
  unfold Re.orelse.
  destruct (Re.plus_cls p s' (fun m rest => k (String c m) rest)) as [r |] eqn:Hmore.
  - intros H. injection H as <-.
    destruct (IH _ Hmore) as (m & rest & -> & Hm & Hk).
    exists (String c m), rest. repeat split; [| exact Hk].
    apply matches_Plus_more; assumption.
  - intros H. exists (String c ""), s'. repeat split; [| exact H].
    apply matches_Plus_one. exact Hc.
Qed.

(** The matcher only succeeds on text the regex describes. *)
Lemma rmatch_sound {R : Type} (r : Re.regex) :
  forall (s : string) (g : Re.groupdict)
         (k : string -> string -> Re.groupdict -> option R) (res : R),
    Re.rmatch r s g k = Some res ->
    exists m rest gs,
      s = m ++ rest /\ matches r m gs /\ k m rest (gs ++ g)%list = Some res.
Proof.
  induction r as [| | c | p | p | r1 IH1 r2 IH2 | r1 IH1 r2 IH2 | name r1 IH1];
    intros s g k res; cbn [Re.rmatch].
  - intros H. exists "", s, []. repeat split; [constructor | exact H].
  - discriminate.
  - destruct s as [| a s']; [discriminate |].
    destruct (Ascii.eqb _ _) eqn:Ha; [| discriminate].
    intros H. exists (String a ""), s', []. repeat split; [| exact H].
    constructor. apply Ascii.eqb_eq. exact Ha.
  - destruct s as [| a s']; [discriminate |].
    destruct (p a) eqn:Ha; [| discriminate].
    intros H. exists (String a ""), s', []. repeat split; [| exact H].
    constructor. exact Ha.
  - intros H. apply plus_cls_sound in H as (m & rest & -> & Hm & Hk).
    exists m, rest, []. repeat split; assumption.
  - intros H.
    apply IH1 in H as (m1 & s1 & g1 & -> & Hm1 & H).
    apply IH2 in H as (m2 & s2 & g2 & -> & Hm2 & H).
    exists (m1 ++ m2), s2, (g2 ++ g1)%list.
    split; [| split].
    + clear. induction m1 as [| c m1 IH]; [reflexivity |].
      cbn [String.append]. rewrite IH. reflexivity.
    + constructor; assumption.
    + rewrite <- app_assoc. exact H.
  - unfold Re.orelse.
    destruct (Re.rmatch r1 s g k) as [x |] eqn:H1.
    + intros H. injection H as <-.
      apply IH1 in H1 as (m & rest & gs & -> & Hm & Hk).
      exists m, rest, gs. repeat split; [| exact Hk].
      apply matches_Alt_left. exact Hm.
    + intros H.
      apply IH2 in H as (m & rest & gs & -> & Hm & Hk).
      exists m, rest, gs. repeat split; [| exact Hk].
      apply matches_Alt_right. exact Hm.
  - intros H.
    apply IH1 in H as (m & rest & gs & -> & Hm & Hk).
    exists m, rest, ((name, m) :: gs). repeat split; [| exact Hk].
    constructor. exact Hm.
Qed.

Lemma groupless_groups (r : Re.regex) (m : string) (g : Re.groupdict) :
  matches r m g -> groupless r = true -> g = [].
Proof.
  induction 1; cbn [groupless]; intros Hg; try reflexivity; try discriminate.
  - apply andb_true_iff in Hg as [H1 H2].
    rewrite (IHmatches1 H1), (IHmatches2 H2). reflexivity.
  - apply andb_true_iff in Hg as [H1 _]. exact (IHmatches H1).
  - apply andb_true_iff in Hg as [_ H2]. exact (IHmatches H2).
Qed.

Lemma digit_is_lower (a : ascii) :
  PyStr.isdigit a = true -> PyStr.lower_char a = a.
Proof.
  destruct a as [[] [] [] [] [] [] [] []]; intros H;
    try discriminate H; reflexivity.
Qed.

Lemma space_not_digit (a : ascii) :
  PyStr.isspace a = true -> not_digit a = true.
Proof.
  destruct a as [[] [] [] [] [] [] [] []]; intros H;
    try discriminate H; reflexivity.
Qed.

Lemma letters_only_no_digit (r : Re.regex) (m : string) (g : Re.groupdict) :
  matches r m g -> letters_only r = true -> all_chars not_digit m = true.
Proof.
  induction 1; cbn [letters_only]; intros Hl; try reflexivity; try discriminate.
  - cbn [all_chars]. rewrite andb_true_r. unfold not_digit.
    destruct (PyStr.isdigit a) eqn:Ha; [| reflexivity].
    rewrite <- H, (digit_is_lower a Ha), Ha in Hl. discriminate Hl.
  - apply andb_true_iff in Hl as [H1 H2].
    rewrite all_chars_app, (IHmatches1 H1), (IHmatches2 H2). reflexivity.
  - apply andb_true_iff in Hl as [H1 _]. exact (IHmatches H1).
  - apply andb_true_iff in Hl as [_ H2]. exact (IHmatches H2).
  - exact (IHmatches Hl).
Qed.

Lemma all_spaces_not_digit (m : string) :
  all_chars PyStr.isspace m = true -> all_chars not_digit m = true.
Proof.
  induction m as [| c m' IH]; [reflexivity |].
  cbn [all_chars]. intros H. apply andb_true_iff in H as [Hc Hm].
  rewrite (space_not_digit c Hc), (IH Hm). reflexivity.
Qed.

Lemma spaces_shape (m : string) (g : Re.groupdict) :
  matches (Re.PlusCls PyStr.isspace) m g ->
  g = [] /\ m <> "" /\ all_chars PyStr.isspace m = true.
Proof.
  remember (Re.PlusCls PyStr.isspace) as r eqn:Hr.
  induction 1; try discriminate Hr; injection Hr as ->.
  - cbn [all_chars]. rewrite H. repeat split. discriminate.
  - cbn [all_chars]. rewrite H.
    destruct (IHmatches eq_refl) as (_ & _ & ->). repeat split. discriminate.
Qed.

Lemma contains_202_skip_char (c : ascii) (s : string) :
  not_digit c = true ->
  PyStr.contains "202" (String c s) = PyStr.contains "202" s.
Proof.
  intros Hc. cbn [PyStr.contains String.prefix].
  destruct (ascii_dec "2" c) as [<- | _]; [discriminate Hc | reflexivity].
Qed.

Lemma contains_202_skip (nd s : string) :
  all_chars not_digit nd = true ->
  PyStr.contains "202" (nd ++ s) = PyStr.contains "202" s.
Proof.
  induction nd as [| c nd IH]; [reflexivity |].
  cbn [all_chars String.append]. intros H. apply andb_true_iff in H as [Hc Hnd].
  rewrite contains_202_skip_char by exact Hc. exact (IH Hnd).
Qed.

Lemma contains_202_one_then (c a : ascii) (s : string) :
  not_digit a = true ->
  PyStr.contains "202" (String c (String a s)) = PyStr.contains "202" s.
Proof.
  intros Ha.
  cbn [PyStr.contains String.prefix].
  destruct (ascii_dec "2" c) as [_ | _];
    destruct (ascii_dec "0" a) as [<- | _]; try discriminate Ha;
    destruct (ascii_dec "2" a) as [<- | _]; try discriminate Ha; reflexivity.
Qed.

Lemma contains_202_two_then (c1 c2 a : ascii) (s : string) :
  not_digit a = true ->
  PyStr.contains "202" (String c1 (String c2 (String a s))) = PyStr.contains "202" s.
Proof.
  intros Ha.
  cbn [PyStr.contains String.prefix].
  destruct (ascii_dec "2" c1) as [_ | _];
    destruct (ascii_dec "0" c2) as [_ | _];
    destruct (ascii_dec "2" c2) as [_ | _];
    destruct (ascii_dec "0" a) as [<- | _]; try discriminate Ha;
    destruct (ascii_dec "2" a) as [<- | _]; try discriminate Ha; reflexivity.
Qed.

Ltac invert_matches :=
  repeat match goal with
         | H : matches (Re.Seq _ _) _ _ |- _ => inversion H; subst; clear H
         | H : matches (Re.Alt _ _) _ _ |- _ => inversion H; subst; clear H
         | H : matches (Re.Group _ _) _ _ |- _ => inversion H; subst; clear H
         | H : matches (Re.Chr _) _ _ |- _ => inversion H; subst; clear H
         | H : matches (Re.Cls _) _ _ |- _ => inversion H; subst; clear H
         | H : matches Re.Eps _ _ |- _ => inversion H; subst; clear H
         | H : matches Re.Never _ _ |- _ => inversion H
         end.

Lemma day_regex_shape (m : string) (g : Re.groupdict) :
  matches day_regex m g ->
  g = [("d", m)] /\
  ((exists c, m = String c "") \/ (exists c1 c2, m = String c1 (String c2 ""))).
Proof.
  unfold day_regex, Re.alternatives, Strptime.d19, Strptime.digit.
  cbn [fold_right]. intros H. invert_matches; cbn [String.append app];
    (split; [reflexivity |]);
    first [left; eexists; reflexivity | right; eexists; eexists; reflexivity].
Qed.

Lemma year_regex_shape (m : string) (g : Re.groupdict) :
  matches year_regex m g ->
  g = [("Y", m)] /\
  exists a b c d,
    m = String a (String b (String c (String d ""))) /\
    PyStr.isdigit a = true /\ PyStr.isdigit b = true /\
    PyStr.isdigit c = true /\ PyStr.isdigit d = true.
Proof.
  unfold year_regex, Strptime.digit. intros H. invert_matches.
  cbn [String.append app]. split; [reflexivity |].
  do 4 eexists. repeat split; assumption.
Qed.

Lemma string_app_nil_r (s : string) : s ++ "" = s.
Proof. induction s as [| c s IH]; [reflexivity |]. cbn. rewrite IH. reflexivity. Qed.

Ltac invert_seq :=
  match goal with
  | H : matches (Re.Seq _ _) _ _ |- _ => inversion H; subst; clear H
  end.

Lemma name_group_shape (names : list string) (directive m : string)
    (g : Re.groupdict) :
  matches (Strptime.seqToRE names directive) m g ->
  letters_only (Strptime.seqToRE names directive) = true ->
  groupless (Re.alternatives (map Re.word (Strptime.sorted_by_len names))) = true ->
  g = [(directive, m)] /\ all_chars not_digit m = true.
Proof.
  unfold Strptime.seqToRE. cbn [letters_only].
  remember (Re.alternatives (map Re.word (Strptime.sorted_by_len names))) as r.
  intros H Hl Hg. inversion H; subst.
  match goal with
  | Hm : matches _ m _ |- _ =>
      split; [rewrite (groupless_groups _ _ _ Hm Hg); reflexivity
             | exact (letters_only_no_digit _ _ _ Hm Hl)]
  end.
Qed.

Lemma comma_only (a : ascii) :
  PyStr.lower_char a = PyStr.lower_char "," -> a = ","%char.
Proof.
  destruct a as [[] [] [] [] [] [] [] []]; intros H;
    try discriminate H; reflexivity.
Qed.

(** The text the regex of ["%A %B %d, %Y"] describes: a weekday name and
    a month name (no digit in them), a day of one or two characters, a
    comma, four digits, with runs of whitespace in between. *)
Lemma heading_regex_shape (m : string) (gs : Re.groupdict) :
  matches heading_regex m gs ->
  exists mA ws1 mB ws2 mD ws3 mY,
    m = mA ++ ws1 ++ mB ++ ws2 ++ mD ++ "," ++ ws3 ++ mY /\
    rev gs = [("A", mA); ("B", mB); ("d", mD); ("Y", mY)] /\
    all_chars not_digit mA = true /\ all_chars not_digit mB = true /\
    (ws1 <> "" /\ all_chars PyStr.isspace ws1 = true) /\
    (ws2 <> "" /\ all_chars PyStr.isspace ws2 = true) /\
    (ws3 <> "" /\ all_chars PyStr.isspace ws3 = true) /\
    ((exists c, mD = String c "") \/ (exists c1 c2, mD = String c1 (String c2 ""))) /\
    exists y1 y2 y3 y4,
      mY = String y1 (String y2 (String y3 (String y4 ""))) /\
      PyStr.isdigit y1 = true /\ PyStr.isdigit y2 = true /\
      PyStr.isdigit y3 = true /\ PyStr.isdigit y4 = true.
Proof.
  unfold heading_regex. intros H. do 8 invert_seq.
  repeat match goal with
         | H : matches Re.Eps _ _ |- _ => inversion H; subst; clear H
         | H : matches (Re.Chr _) _ _ |- _ => inversion H; subst; clear H
         | H : matches (Re.PlusCls _) _ _ |- _ =>
             apply spaces_shape in H as [-> ?]
         | H : matches day_regex _ _ |- _ => apply day_regex_shape in H as [-> ?]
         | H : matches year_regex _ _ |- _ => apply year_regex_shape in H as [-> ?]
         | H : matches (Strptime.seqToRE _ _) ?m ?g |- _ =>
             apply name_group_shape in H as [-> ?];
             [| vm_compute; reflexivity | vm_compute; reflexivity]
         | H : PyStr.lower_char _ = PyStr.lower_char "," |- _ =>
             apply comma_only in H; subst
         end.
  match goal with
  | |- exists mA ws1 mB ws2 mD ws3 mY,
         ?A ++ ?W1 ++ ?B ++ ?W2 ++ ?D ++ String _ "" ++ ?W3 ++ ?Y ++ "" = _ /\ _ =>
      exists A, W1, B, W2, D, W3, Y
  end.
  rewrite string_app_nil_r. cbn [app rev String.append].
  repeat split; try assumption; try reflexivity;
    match goal with
    | H : _ /\ _ |- _ => apply H
    end.
Qed.

Lemma strptime_heading_inv (text : string) (d : Datetime.date) :
  Strptime.strptime text heading_format = Ok d ->
  exists found f,
    Re.re_match heading_regex text = Some ("", found) /\
    Strptime.convert found Strptime.defaults = Ok f /\
    d = Datetime.mkdate (Strptime.f_year f) (Strptime.f_mon f) (Strptime.f_day f).
Proof.
  unfold Strptime.strptime, Strptime._strptime.
  rewrite pattern_heading_format. cbn [bind].
  destruct (Re.re_match heading_regex text) as [[rest found] |] eqn:Hm;
    [| discriminate].
  destruct rest as [| c rest]; cbn [PyStr.truthy]; [| discriminate].
  destruct (Strptime.convert found Strptime.defaults) as [f | e] eqn:Hc;
    [| discriminate].
  cbn [bind].
  destruct (Datetime.new (Strptime.f_year f) (Strptime.f_mon f) (Strptime.f_day f))
    as [d0 | e] eqn:Hnew; [| discriminate].
  cbn [bind]. rewrite Hnew. intros H. injection H as <-.
  exists found, f. split; [reflexivity |]. split; [exact Hc |].
  apply new_Ok_inv in Hnew as [-> _]. reflexivity.
Qed.

Lemma convert_fields (mA mB mD mY : string) (f : Strptime.fields) :
  Strptime.convert [("A", mA); ("B", mB); ("d", mD); ("Y", mY)] Strptime.defaults
    = Ok f ->
  (exists w, PyStr.index (PyStr.lower mA) Strptime.f_weekday = Ok w) /\
  PyStr.index (PyStr.lower mB) Strptime.f_month = Ok (Strptime.f_mon f) /\
  PyStr.int mD = Ok (Strptime.f_day f) /\
  PyStr.int mY = Ok (Strptime.f_year f).
Proof.
  unfold Strptime.convert, Strptime.convert_group.
  cbn [String.eqb Ascii.eqb Bool.eqb].
  destruct (PyStr.index (PyStr.lower mA) Strptime.f_weekday) as [w |];
    [| discriminate].
  cbn [bind].
  destruct (PyStr.index (PyStr.lower mB) Strptime.f_month) as [mo |];
    [| discriminate].
  cbn [bind].
  destruct (PyStr.int mD) as [dd |]; [| discriminate]. cbn [bind].
  destruct (PyStr.int mY) as [y |]; [| discriminate]. cbn [bind].
  intros H. injection H as <-. cbn. repeat split. exists w. reflexivity.
Qed.

Lemma index_nth (x : string) (l : list string) (i : Z) :
  PyStr.index x l = Ok i ->
  0 <= i < Z.of_nat (List.length l) /\ nth (Z.to_nat i) l "" = x.
Proof.
  revert i. induction l as [| y rest IH]; intros i; cbn [PyStr.index];
    [discriminate |].
  destruct (String.eqb x y) eqn:Hxy.
  - intros H. injection H as <-. apply String.eqb_eq in Hxy. subst y.
    cbn [List.length]. split; [lia | reflexivity].
  - destruct (PyStr.index x rest) as [j |]; [| discriminate].
    cbn [bind]. intros H. injection H as <-.
    destruct (IH j eq_refl) as [Hj Hn]. cbn [List.length]. split; [lia |].
    replace (Z.to_nat (j + 1)) with (S (Z.to_nat j)) by lia. exact Hn.
Qed.

(** ** The weekday name has no part in the date *)

Lemma lower_char_idem (a : ascii) :
  PyStr.lower_char (PyStr.lower_char a) = PyStr.lower_char a.
Proof. destruct a as [[] [] [] [] [] [] [] []]; reflexivity. Qed.

Lemma lower_idem (s : string) : PyStr.lower (PyStr.lower s) = PyStr.lower s.
Proof.
  induction s as [| c s IH]; [reflexivity |].
  cbn [PyStr.lower]. rewrite lower_char_idem, IH. reflexivity.
Qed.

Lemma diverge_lower (w m : string) : diverge w (PyStr.lower m) = diverge w m.
Proof.
  revert m. induction w as [| c w IH]; intros [| a m]; try reflexivity.
  cbn [PyStr.lower diverge]. rewrite lower_char_idem, IH. reflexivity.
Qed.

Section Words.
Context {R : Type}.
Implicit Types (k : string -> string -> Re.groupdict -> option R).

(** A word matches, letter by letter and whatever the case, the text that
    reads the same in lower case. *)
Lemma word_match (w m rest : string) (g : Re.groupdict) k :
  PyStr.lower m = PyStr.lower w ->
  Re.rmatch (Re.word w) (m ++ rest) g k = k m rest g.
Proof.
  revert m k. induction w as [| c w IH]; intros [| a m] k H;
    cbn [PyStr.lower] in H; try discriminate H.
  - reflexivity.
  - injection H as Hc Hm.
    cbn [Re.word Re.rmatch String.append]. rewrite Hc, Ascii.eqb_refl.
    rewrite (IH m _ Hm). reflexivity.
Qed.

Lemma word_mismatch (w m rest : string) (g : Re.groupdict) k :
  diverge w m = true -> Re.rmatch (Re.word w) (m ++ rest) g k = None.
Proof.
  revert m k. induction w as [| c w IH]; intros [| a m] k H;
    cbn [diverge] in H; try discriminate H.
  cbn [Re.word Re.rmatch String.append].
  destruct (Ascii.eqb (PyStr.lower_char a) (PyStr.lower_char c)); [| reflexivity].
  cbn [negb orb] in H. apply IH. exact H.
Qed.

Lemma alternatives_mismatch (names : list string) (m rest : string)
    (g : Re.groupdict) k :
  (forall n, In n names -> diverge n m = true) ->
  Re.rmatch (Re.alternatives (map Re.word names)) (m ++ rest) g k = None.
Proof.
  induction names as [| n names IH]; intros H; [reflexivity |].
  cbn [map Re.alternatives fold_right Re.rmatch].
  fold (Re.alternatives (map Re.word names)).
  rewrite word_mismatch by (apply H; left; reflexivity).
  cbn [Re.orelse]. apply IH. intros n' Hn'. apply H. right. exact Hn'.
Qed.

Lemma diverge_self (m : string) : diverge (PyStr.lower m) m = false.
Proof.
  induction m as [| a m IH]; [reflexivity |].
  cbn [PyStr.lower diverge]. rewrite lower_char_idem, Ascii.eqb_refl. exact IH.
Qed.

Lemma orelse_same (x : option R) : Re.orelse x x = x.
Proof. destruct x; reflexivity. Qed.

Lemma orelse_None_r (x : option R) : Re.orelse x None = x.
Proof. destruct x; reflexivity. Qed.

Lemma alternatives_same_or_none (l : list string) (m rest : string)
    (g : Re.groupdict) k :
  (forall n, In n l -> n = PyStr.lower m \/ diverge n m = true) ->
  (Re.rmatch (Re.alternatives (map Re.word l)) (m ++ rest) g k = k m rest g \/
   Re.rmatch (Re.alternatives (map Re.word l)) (m ++ rest) g k = None) /\
  (In (PyStr.lower m) l ->
   Re.rmatch (Re.alternatives (map Re.word l)) (m ++ rest) g k = k m rest g).
Proof.
  induction l as [| n l IH]; intros H.
  - split; [right; reflexivity | intros []].
  - destruct IH as [IHany IHin]; [intros n' Hn'; apply H; right; exact Hn' |].
    cbn [map Re.alternatives fold_right Re.rmatch].
    fold (Re.alternatives (map Re.word l)).
    destruct (H n (or_introl eq_refl)) as [-> | Hd].
    + rewrite word_match by (symmetry; apply lower_idem).
      assert (Hres : Re.orelse (k m rest g)
                       (Re.rmatch (Re.alternatives (map Re.word l)) (m ++ rest) g k)
                     = k m rest g).
      { destruct IHany as [-> | ->]; [apply orelse_same | apply orelse_None_r]. }
      rewrite Hres. split; [left; reflexivity | reflexivity].
    + rewrite word_mismatch by exact Hd. cbn [Re.orelse].
      split; [exact IHany |].
      intros [Heq | Hin]; [| exact (IHin Hin)].
      subst n. rewrite diverge_self in Hd. discriminate Hd.
Qed.

(** Among names no two of which agree as far as the shorter one goes, the
    alternation takes the one the text spells, in any case, and nothing
    else. *)
Lemma alternatives_match (names : list string) (m rest : string)
    (g : Re.groupdict) k :
  all_diverge names = true ->
  In (PyStr.lower m) names ->
  Re.rmatch (Re.alternatives (map Re.word names)) (m ++ rest) g k = k m rest g.
Proof.
  unfold all_diverge. intros Hall Hin.
  apply alternatives_same_or_none; [| exact Hin].
  intros n Hn. rewrite forallb_forall in Hall.
  specialize (Hall n Hn). rewrite forallb_forall in Hall.
  specialize (Hall _ Hin). apply orb_true_iff in Hall as [He | Hd].
  - left. apply String.eqb_eq. exact He.
  - right. rewrite <- diverge_lower. exact Hd.
Qed.

Lemma weekday_group_match (m rest : string) (g : Re.groupdict) k :
  is_weekday_name m ->
  Re.rmatch (Strptime.seqToRE Strptime.f_weekday "A") (m ++ rest) g k
  = k m rest (("A", m) :: g).
Proof.
  intros Hm. unfold Strptime.seqToRE. cbn [Re.rmatch].
  apply (alternatives_match _ m rest g (fun m0 rest0 g1 => k m0 rest0 (("A", m0) :: g1))).
  - vm_compute. reflexivity.
  - unfold is_weekday_name in Hm. revert Hm. generalize (PyStr.lower m) as x.
    intros x Hx. vm_compute in Hx |- *. tauto.
Qed.

End Words.

Lemma same_outcome_orelse (old new : Re.groupdict)
    (a a' b b' : option (string * Re.groupdict)) :
  same_outcome old new a b -> same_outcome old new a' b' ->
  same_outcome old new (Re.orelse a a') (Re.orelse b b').
Proof.
  destruct a as [[? ?] |], b as [[? ?] |]; cbn; intros H H'; try contradiction;
    assumption.
Qed.

Lemma plus_cls_groups (old new : Re.groupdict) (p : ascii -> bool) (s : string)
    (k k' : string -> string -> option (string * Re.groupdict)) :
  (forall m rest, same_outcome old new (k m rest) (k' m rest)) ->
  same_outcome old new (Re.plus_cls p s k) (Re.plus_cls p s k').
Proof.
  revert k k'. induction s as [| c s IH]; intros k k' H; cbn [Re.plus_cls].
  - exact I.
  - destruct (p c); [| exact I].
    apply same_outcome_orelse; [apply IH; intros m rest; apply H | apply H].
Qed.

Lemma rmatch_groups (old new : Re.groupdict) (r : Re.regex) :
  forall (s : string) (gs : Re.groupdict)
         (k k' : string -> string -> Re.groupdict -> option (string * Re.groupdict)),
    (forall m rest gs',
       same_outcome old new (k m rest (gs' ++ old)%list) (k' m rest (gs' ++ new)%list)) ->
    same_outcome old new (Re.rmatch r s (gs ++ old)%list k)
      (Re.rmatch r s (gs ++ new)%list k').
Proof.
  induction r as [| | c | p | p | r1 IH1 r2 IH2 | r1 IH1 r2 IH2 | name r1 IH1];
    intros s gs k k' H; cbn [Re.rmatch].
  - apply H.
  - exact I.
  - destruct s as [| a s]; [exact I |].
    destruct (Ascii.eqb _ _); [apply H | exact I].
  - destruct s as [| a s]; [exact I |].
    destruct (p a); [apply H | exact I].
  - apply plus_cls_groups. intros m rest. apply H.
  - apply IH1. intros m1 s1 gs1. apply IH2. intros m2 s2 gs2. apply H.
  - apply same_outcome_orelse; [apply IH1 | apply IH2]; exact H.
  - apply IH1. intros m rest gs1. apply (H m rest ((name, m) :: gs1)).
Qed.

(** The match of a heading, but for the weekday group, is the same
    whichever weekday name stands at its head. *)
Lemma re_match_weekday_invariant (mA mA' rest : string) :
  is_weekday_name mA -> is_weekday_name mA' ->
  same_outcome [("A", mA)] [("A", mA')]
    (Re.re_match heading_regex (mA ++ rest))
    (Re.re_match heading_regex (mA' ++ rest)).
Proof.
  intros HA HA'. unfold Re.re_match, heading_regex.
  rewrite !rmatch_Seq, !weekday_group_match by assumption.
  apply (rmatch_groups [("A", mA)] [("A", mA')] _ rest []).
  intros m s gs. cbn [same_outcome]. split; [reflexivity |].
  exists gs. split; reflexivity.
Qed.

Lemma index_In (x : string) (l : list string) :
  In x l -> exists i, PyStr.index x l = Ok i.
Proof.
  induction l as [| y l IH]; intros H; [destruct H |].
  cbn [PyStr.index]. destruct (String.eqb x y) eqn:Hxy; [eexists; reflexivity |].
  destruct H as [-> | H]; [rewrite String.eqb_refl in Hxy; discriminate |].
  destruct (IH H) as [i ->]. eexists. reflexivity.
Qed.

(** The weekday that was read takes no part in the reading of the other
    groups. *)
Lemma convert_same_date (found : Re.groupdict) :
  forall acc acc' f,
    same_date acc acc' ->
    Strptime.convert found acc = Ok f ->
    exists f', Strptime.convert found acc' = Ok f' /\ same_date f f'.
Proof.
  induction found as [| [key value] found IH]; intros acc acc' f Hsame;
    cbn [Strptime.convert].
  - intros H. injection H as <-. exists acc'. split; [reflexivity | exact Hsame].
  - destruct (Strptime.convert_group key value acc) as [acc1 | e] eqn:H1;
      [| discriminate].
    cbn [bind]. intros Hrest.
    assert (Hstep : exists acc1',
              Strptime.convert_group key value acc' = Ok acc1' /\
              same_date acc1 acc1').
    { revert H1. unfold Strptime.convert_group.
      destruct Hsame as (Hy & Hm & Hd).
      repeat match goal with
             | |- context [if String.eqb key ?x then _ else _] =>
                 destruct (String.eqb key x)
             end;
        repeat match goal with
               | |- context [PyStr.int value] => destruct (PyStr.int value)
               | |- context [PyStr.index ?a ?b] => destruct (PyStr.index a b)
               end;
        cbn [bind]; intros H; try discriminate H; injection H as <-;
        eexists; (split; [reflexivity |]); unfold same_date; cbn; auto. }
    destruct Hstep as (acc1' & -> & Hsame1). cbn [bind].
    exact (IH acc1 acc1' f Hsame1 Hrest).
Qed.

(** Replacing the weekday name at the head of an accepted heading by any
    weekday name leaves the date that is read unchanged. *)
Lemma strptime_weekday_invariant (mA mA' rest : string) (d : Datetime.date) :
  is_weekday_name mA -> is_weekday_name mA' ->
  Strptime.strptime (mA ++ rest) heading_format = Ok d ->
  Strptime.strptime (mA' ++ rest) heading_format = Ok d.
Proof.
  intros HA HA'.
  pose proof (re_match_weekday_invariant mA mA' rest HA HA') as Hsame.
  unfold Strptime.strptime, Strptime._strptime.
  rewrite pattern_heading_format. cbn [bind].
  destruct (Re.re_match heading_regex (mA ++ rest)) as [[left found] |];
    [| discriminate].
  destruct (Re.re_match heading_regex (mA' ++ rest)) as [[left' found'] |];
    [| destruct Hsame].
  destruct Hsame as (-> & gs & -> & ->).
  destruct (PyStr.truthy left); [discriminate |].
  rewrite !rev_app_distr. cbn [rev app Strptime.convert].
  unfold Strptime.convert_group at 1 2. cbn [String.eqb Ascii.eqb Bool.eqb].
  destruct (index_In _ _ HA) as [w ->]. destruct (index_In _ _ HA') as [w' ->].
  cbn [bind Strptime.f_year Strptime.f_mon Strptime.f_day Strptime.defaults].
  destruct (Strptime.convert (rev gs) (Strptime.mkfields 1900 1 1 (Some w)))
    as [f | e] eqn:Hconv; [| discriminate].
  assert (Hstart : same_date (Strptime.mkfields 1900 1 1 (Some w))
                     (Strptime.mkfields 1900 1 1 (Some w')))
    by (repeat split).
  destruct (convert_same_date (rev gs) _ _ f Hstart Hconv)
    as (f' & -> & Hy & Hm & Hd).
  cbn [bind]. rewrite <- Hy, <- Hm, <- Hd.
  destruct (Datetime.new (Strptime.f_year f) (Strptime.f_mon f) (Strptime.f_day f));
    [| discriminate].
  cbn [bind]. rewrite <- Hy, <- Hm, <- Hd. intros H. exact H.
Qed.

(** An accepted heading begins with a weekday name. *)
Lemma strptime_heading_weekday (text : string) (d : Datetime.date) :
  Strptime.strptime text heading_format = Ok d ->
  exists mA rest, text = mA ++ rest /\ is_weekday_name mA.
Proof.
  intros Hparse.
  apply strptime_heading_inv in Hparse as (found & f & Hmatch & Hconv & ->).
  unfold Re.re_match in Hmatch.
  apply rmatch_sound in Hmatch as (m & rest & gs & Htext & Hm & Hk).
  injection Hk as -> <-. rewrite string_app_nil_r in Htext.
  rewrite app_nil_r in Hconv.
  apply heading_regex_shape in Hm
    as (mA & ws1 & mB & ws2 & mD & ws3 & mY & -> & Hgs & _).
  rewrite Hgs in Hconv.
  apply convert_fields in Hconv as ((w & Hw) & _).
  apply index_nth in Hw as [Hwr Hwn].
  exists mA, (ws1 ++ mB ++ ws2 ++ mD ++ "," ++ ws3 ++ mY).
  split; [exact Htext |].
  unfold is_weekday_name. rewrite <- Hwn. apply nth_In. lia.
Qed.

(** ** The claim about the weekday name *)

(** C10.  The weekday name of a heading is not checked against the date.
    Every heading that [strptime] accepts begins with a weekday name, in
    any case, and the date read from it is the same whichever of the
    seven weekday names stands there: the heading with a wrong name is
    accepted as the one with the right name is, with the month, the day
    and the year that are written.  Whenever the heading with one name
    parses to a date, a heading of the page written with another name,
    and meeting the other conditions of the loop, has its record for that
    date in the list returned.  In particular a heading rendered with any
    of the seven names before the month name, the day and the year of a
    valid date parses to that date.  "Monday August 27, 2025" names a
    Wednesday and "Monday August 7, 2025" a Thursday; they parse to
    2025-08-27 and 2025-08-07, and the page that holds the first gives a
    record for that date. *)
Theorem C10_weekday_name_is_not_checked :
  (forall text d,
     Strptime.strptime text heading_format = Ok d ->
     exists mA rest,
       text = mA ++ rest /\ is_weekday_name mA /\
       forall mA', is_weekday_name mA' ->
         Strptime.strptime (mA' ++ rest) heading_format = Ok d) /\
  (forall soup cutoff heading mA mA' rest d st,
     is_weekday_name mA -> is_weekday_name mA' ->
     Strptime.strptime (mA ++ rest) heading_format = Ok d ->
     In heading (Soup.find_all soup heading_names) ->
     Soup.get_text_strip (Soup.self heading) = mA' ++ rest ->
     PyStr.contains "202" (mA' ++ rest) = true ->
     Datetime.gt d cutoff = false ->
     status_text heading = Some st ->
     PyStr.truthy st = true ->
     PyStr.contains booked_phrase st = false ->
     exists available,
       parse_available_dates soup cutoff = Ok available /\
       In (d, Some st) available) /\
  (forall w y m dd d,
     0 <= w <= 6 ->
     Datetime.new y m dd = Ok d ->
     Strptime.strptime (heading_text w d) heading_format = Ok d) /\
  (forall soup cutoff heading w y m dd d st,
     0 <= w <= 6 ->
     Datetime.new y m dd = Ok d ->
     In heading (Soup.find_all soup heading_names) ->
     Soup.get_text_strip (Soup.self heading) = heading_text w d ->
     PyStr.contains "202" (heading_text w d) = true ->
     Datetime.gt d cutoff = false ->
     status_text heading = Some st ->
     PyStr.truthy st = true ->
     PyStr.contains booked_phrase st = false ->
     exists available,
       parse_available_dates soup cutoff = Ok available /\
       In (d, Some st) available) /\
  heading_text 0 (Datetime.mkdate 2025 8 27) = "Monday August 27, 2025" /\
  Datetime.weekday (Datetime.mkdate 2025 8 27) = 2 /\
  Strptime.strptime "Monday August 7, 2025" heading_format
  = Ok (Datetime.mkdate 2025 8 7) /\
  Datetime.weekday (Datetime.mkdate 2025 8 7) = 3 /\
  parse_available_dates
    (Soup.BeautifulSoup [h3 "Monday August 27, 2025"; para "10:00"]) cutoff_0828
  = Ok [(Datetime.mkdate 2025 8 27, Some "Monday August 27, 2025")].
Proof.
  split; [| split; [| split; [| split; [| repeat split; vm_compute; reflexivity]]]].
  - intros text d Hparse.
    destruct (strptime_heading_weekday text d Hparse) as (mA & rest & -> & HA).
    exists mA, rest. split; [reflexivity |]. split; [exact HA |].
    intros mA' HA'. exact (strptime_weekday_invariant mA mA' rest d HA HA' Hparse).
  - intros soup cutoff heading mA mA' rest d st HA HA' Hparse Hin Htext H202 Hgt
      Hst Ht Hb.
    apply (qualifying_heading_is_reported soup cutoff d heading st);
      try assumption.
    + rewrite Htext. exact H202.
    + rewrite Htext.
      exact (strptime_weekday_invariant mA mA' rest d HA HA' Hparse).
  - intros w y m dd d Hw Hnew. exact (strptime_heading_text w y m dd d Hw Hnew).
  - intros soup cutoff heading w y m dd d st Hw Hnew Hin Htext H202 Hgt Hst Ht Hb.
    apply (qualifying_heading_is_reported soup cutoff d heading st);
      try assumption.
    + rewrite Htext. exact H202.
    + rewrite Htext. exact (strptime_heading_text w y m dd d Hw Hnew).
Qed.

Lemma C10_weekday_name_is_not_checked_witness :
  exists mA rest,
    "Wednesday August 27, 2025" = mA ++ rest /\ is_weekday_name mA /\
    forall mA', is_weekday_name mA' ->
      Strptime.strptime (mA' ++ rest) heading_format
      = Ok (Datetime.mkdate 2025 8 27).
Proof.
  destruct C10_weekday_name_is_not_checked as (Hany & _).
  apply (Hany "Wednesday August 27, 2025" (Datetime.mkdate 2025 8 27)).
  vm_compute. reflexivity.
Defined.

(* ================================================================== *)
(** * Further properties *)

(** ** More about the parser *)




Lemma strptime_valid (data_string format : string) (d : Datetime.date) :
  Strptime.strptime data_string format = Ok d -> valid_date d.
Proof.
  unfold Strptime.strptime.
  destruct (Strptime._strptime data_string format) as [f | e]; [| discriminate].
  cbn [bind]. unfold Datetime.new, Datetime.MINYEAR, Datetime.MAXYEAR.
  destruct ((1 <=? Strptime.f_year f) && (Strptime.f_year f <=? 9999))%Z eqn:Hy;
    [| discriminate].
  destruct ((1 <=? Strptime.f_mon f) && (Strptime.f_mon f <=? 12))%Z eqn:Hm;
    [| discriminate].
  destruct ((1 <=? Strptime.f_day f) &&
            (Strptime.f_day f <=?
             Datetime.days_in_month (Strptime.f_year f) (Strptime.f_mon f)))%Z eqn:Hd;
    [| discriminate].
  cbn [negb]. intros H. injection H as <-.
  apply andb_true_iff in Hy as [Hy1 Hy2], Hm as [Hm1 Hm2], Hd as [Hd1 Hd2].
  unfold valid_date. cbn [Datetime.year Datetime.month Datetime.day]. lia.
Qed.

Lemma lstrip_fixed (s : string) :
  match s with
  | EmptyString => True
  | String c _ => PyStr.isspace c = false
  end -> PyStr.lstrip s = s.
Proof. destruct s as [| c s']; simpl; [trivial |]. intros ->. reflexivity. Qed.

Lemma lstrip_head (s : string) :
  match PyStr.lstrip s with
  | EmptyString => True
  | String c _ => PyStr.isspace c = false
  end.
Proof.
  induction s as [| c s' IH]; simpl; [exact I |].
  destruct (PyStr.isspace c) eqn:Hc; [exact IH | exact Hc].
Qed.

Lemma rstrip_head (s : string) :
  match s with
  | EmptyString => True
  | String c _ => PyStr.isspace c = false
  end ->
  match PyStr.rstrip s with
  | EmptyString => True
  | String c _ => PyStr.isspace c = false
  end.
Proof.
  destruct s as [| c s']; simpl; [trivial |].
  intros Hc. destruct (PyStr.rstrip s'); [rewrite Hc |]; exact Hc.
Qed.

Lemma rstrip_idempotent (s : string) : PyStr.rstrip (PyStr.rstrip s) = PyStr.rstrip s.
Proof.
  induction s as [| c s' IH]; simpl; [reflexivity |].
  destruct (PyStr.rstrip s') as [| c' r] eqn:Hr.
  - destruct (PyStr.isspace c) eqn:Hc; simpl; [reflexivity |].
    rewrite Hc. reflexivity.
  - cbn [PyStr.rstrip]. cbn [PyStr.rstrip] in IH. rewrite IH. reflexivity.
Qed.

Lemma strip_idempotent (s : string) : PyStr.strip (PyStr.strip s) = PyStr.strip s.
Proof.
  unfold PyStr.strip.
  rewrite (lstrip_fixed (PyStr.rstrip (PyStr.lstrip s))).
  - apply rstrip_idempotent.
  - apply rstrip_head, lstrip_head.
Qed.

Lemma status_text_stripped (heading : Soup.element) (st : string) :
  status_text heading = Some st -> PyStr.strip st = st.
Proof.
  unfold status_text, status_text_of.
  destruct (Soup.find_next_string heading) as [s |]; [| discriminate].
  destruct (PyStr.truthy s); [| discriminate].
  intros H. injection H as <-. apply strip_idempotent.
Qed.

(** X2.  Every record returned is well formed: its date is a calendar date on
    or before the cutoff, and its status text is present, is not empty,
    carries no whitespace at either end and does not hold the booked
    phrase. *)
Theorem records_are_well_formed (soup : Soup.node) (cutoff : Datetime.date) :
  exists available,
    parse_available_dates soup cutoff = Ok available /\
    forall d s, In (d, s) available ->
      valid_date d /\ on_or_before d cutoff = true /\
      exists st, s = Some st /\ st <> "" /\ PyStr.strip st = st /\
                 PyStr.contains booked_phrase st = false.
Proof.
  eexists. split; [apply parse_available_dates_spec |].
  intros d s Hin.
  apply in_flat_map in Hin as (heading & _ & Hin).
  apply In_emitted, visit_heading_Some in Hin.
  destruct Hin as (_ & Hparse & Hgt & st & -> & Hst & Ht & Hb).
  split; [exact (strptime_valid _ _ _ Hparse) |].
  split; [unfold on_or_before; rewrite Hgt; reflexivity |].
  exists st. repeat split.
  - intros ->. discriminate Ht.
  - exact (status_text_stripped heading st Hst).
  - exact Hb.
Qed.

Lemma positions_app (a b : list Soup.node) :
  Soup.positions (a ++ b)
  = (map (followed_by b) (Soup.positions a) ++ Soup.positions b)%list.
Proof.
  induction a as [| n rest IH]; simpl; [reflexivity |].
  rewrite IH. reflexivity.
Qed.

Lemma filter_map_followed_by (b : list Soup.node) (names : list string)
    (l : list Soup.element) :
  filter (fun e => Soup.has_name names (Soup.self e)) (map (followed_by b) l)
  = map (followed_by b) (filter (fun e => Soup.has_name names (Soup.self e)) l).
Proof.
  induction l as [| e rest IH]; simpl; [reflexivity |].
  destruct (Soup.has_name names (Soup.self e)); simpl; rewrite IH; reflexivity.
Qed.

(** What a pass of the loop body does depends on the node and on the
    string [find_next] returns, and on the latter only when the year filter
    lets the heading through. *)
Lemma visit_heading_ext (e e' : Soup.element) (cutoff : Datetime.date) :
  Soup.self e = Soup.self e' ->
  (PyStr.contains "202" (Soup.get_text_strip (Soup.self e)) = true ->
   Soup.find_next_string e = Soup.find_next_string e') ->
  visit_heading e cutoff = visit_heading e' cutoff.
Proof.
  intros Hself Hnext. unfold visit_heading. rewrite <- Hself.
  destruct (PyStr.contains "202" (Soup.get_text_strip (Soup.self e))); simpl;
    [| reflexivity].
  rewrite (Hnext eq_refl). reflexivity.
Qed.

Lemma first_string_descendants (n : Soup.node) :
  PyStr.contains "202" (Soup.get_text_strip n) = true ->
  exists s, Soup.first_string (Soup.descendants n) = Some s.
Proof.
  intros H202.
  destruct (Soup.first_string (Soup.descendants n)) as [s |] eqn:Hs;
    [exists s; reflexivity |].
  unfold Soup.get_text_strip in H202.
  rewrite (no_string_no_text _ Hs) in H202. discriminate H202.
Qed.

Lemma visit_heading_followed_by (l more : list Soup.node) (e : Soup.element)
    (cutoff : Datetime.date) :
  In e (Soup.positions (preorder l)) ->
  visit_heading (followed_by more e) cutoff = visit_heading e cutoff.
Proof.
  intros Hin. apply visit_heading_ext; [reflexivity |].
  cbn [followed_by Soup.self]. intros H202.
  destruct (first_string_descendants _ H202) as [s Hs].
  apply In_positions in Hin as [pre Hpre].
  destruct (descendants_split (Soup.Tag "" l) pre _ _ Hpre) as [fol Hfol].
  unfold Soup.find_next_string. cbn [followed_by Soup.next_elements].
  rewrite Hfol, <- app_assoc.
  rewrite (first_string_app _ (fol ++ more)%list s Hs).
  rewrite (first_string_app _ fol s Hs). reflexivity.
Qed.

Lemma flat_map_ext_in {A B : Type} (f g : A -> list B) (l : list A) :
  (forall a, In a l -> f a = g a) -> flat_map f l = flat_map g l.
Proof.
  induction l as [| a rest IH]; simpl; intros H; [reflexivity |].
  rewrite (H a (or_introl eq_refl)), IH; [reflexivity |].
  intros x Hx. apply H. right. exact Hx.
Qed.

(** X6.  Parsing two pieces of a page one after the other gives the records
    of the first piece followed by those of the second: records come in
    document order, nothing is merged or dropped across headings, and what
    stands after a heading's own content has no effect on its record. *)
Theorem parse_of_concatenated_pages (l1 l2 : list Soup.node)
    (cutoff : Datetime.date) :
  exists a1 a2,
    parse_available_dates (Soup.BeautifulSoup l1) cutoff = Ok a1 /\
    parse_available_dates (Soup.BeautifulSoup l2) cutoff = Ok a2 /\
    parse_available_dates (Soup.BeautifulSoup (l1 ++ l2)%list) cutoff
    = Ok (a1 ++ a2)%list.
Proof.
  eexists. eexists.
  split; [apply parse_available_dates_spec |].
  split; [apply parse_available_dates_spec |].
  rewrite parse_available_dates_spec. f_equal.
  unfold Soup.find_all, Soup.elements, Soup.BeautifulSoup.
  change (Soup.descendants (Soup.Tag "[document]" (l1 ++ l2)%list))
    with (preorder (l1 ++ l2)%list).
  change (Soup.descendants (Soup.Tag "[document]" l1)) with (preorder l1).
  change (Soup.descendants (Soup.Tag "[document]" l2)) with (preorder l2).
  unfold preorder at 1. rewrite flat_map_app. fold (preorder l1) (preorder l2).
  rewrite positions_app, filter_app, flat_map_app. f_equal.
  rewrite filter_map_followed_by, flat_map_concat_map, map_map,
    <- flat_map_concat_map.
  apply flat_map_ext_in. intros e He.
  apply filter_In in He as [He _].
  unfold emitted.
  rewrite (visit_heading_followed_by l1 (preorder l2) e cutoff He).
  reflexivity.
Qed.

(** ** The cutoff as a filter *)

Lemma gt_trans_le (d c1 c2 : Datetime.date) :
  Datetime.gt d c1 = false -> Datetime.gt c1 c2 = false ->
  Datetime.gt d c2 = false.
Proof.
  unfold Datetime.gt. destruct d as [y m dd], c1 as [y1 m1 d1], c2 as [y2 m2 d2].
  cbn [Datetime.year Datetime.month Datetime.day].
  intros H1 H2.
  repeat match goal with
         | H : (_ || _) = false |- _ => apply orb_false_iff in H as [? ?]
         | H : (_ && _) = false |- _ => apply andb_false_iff in H
         | H : (_ <? _) = false |- _ => apply Z.ltb_ge in H
         end.
  apply orb_false_iff. split; [apply Z.ltb_ge; lia |].
  apply andb_false_iff.
  destruct (Z.eq_dec y y2) as [-> | Hy]; [right | left; apply Z.eqb_neq; exact Hy].
  assert (Hy1 : y1 = y2) by lia. subst y1.
  rewrite Z.eqb_refl in *.
  repeat match goal with
         | H : true = false \/ _ |- _ => destruct H as [H | H]; [discriminate |]
         | H : (_ || _) = false |- _ => apply orb_false_iff in H as [? ?]
         | H : (_ && _) = false |- _ => apply andb_false_iff in H
         | H : (_ <? _) = false |- _ => apply Z.ltb_ge in H
         end.
  apply orb_false_iff. split; [apply Z.ltb_ge; lia |].
  apply andb_false_iff.
  destruct (Z.eq_dec m m2) as [-> | Hm]; [right | left; apply Z.eqb_neq; exact Hm].
  assert (Hm1 : m1 = m2) by lia. subst m1.
  rewrite Z.eqb_refl in *.
  repeat match goal with
         | H : true = false \/ _ |- _ => destruct H as [H | H]; [discriminate |]
         | H : (_ <? _) = false |- _ => apply Z.ltb_ge in H
         end.
  apply Z.ltb_ge. lia.
Qed.

Lemma emitted_earlier_cutoff (c1 c2 : Datetime.date) (heading : Soup.element) :
  Datetime.gt c1 c2 = false ->
  emitted c1 heading
  = filter (fun r => on_or_before (fst r) c1) (emitted c2 heading).
Proof.
  intros Hc. unfold emitted, visit_heading, on_or_before.
  destruct (negb (PyStr.contains "202" _)); [reflexivity |].
  destruct (Strptime.strptime _ heading_format) as [d | [msg | cls msg]];
    [| reflexivity | reflexivity].
  destruct (Datetime.gt d c1) eqn:H1.
  - destruct (Datetime.gt d c2); [reflexivity |].
    destruct (status_text_of _) as [st |]; [| reflexivity].
    destruct (negb (PyStr.truthy st)); [reflexivity |].
    destruct (negb (PyStr.contains booked_phrase st)); [| reflexivity].
    cbn [filter fst]. rewrite H1. reflexivity.
  - rewrite (gt_trans_le d c1 c2 H1 Hc).
    destruct (status_text_of _) as [st |]; [| reflexivity].
    destruct (negb (PyStr.truthy st)); [reflexivity |].
    destruct (negb (PyStr.contains booked_phrase st)); [| reflexivity].
    cbn [filter fst]. rewrite H1. reflexivity.
Qed.

Lemma filter_flat_map {A B : Type} (p : B -> bool) (f : A -> list B) (l : list A) :
  filter p (flat_map f l) = flat_map (fun a => filter p (f a)) l.
Proof.
  induction l as [| a rest IH]; simpl; [reflexivity |].
  rewrite filter_app, IH. reflexivity.
Qed.

(** X7.  The cutoff acts as a filter on the result: with an earlier cutoff the
    parser returns exactly the records of the later one whose date is on
    or before the earlier cutoff, in the same order. *)
Theorem earlier_cutoff_filters (soup : Soup.node) (c1 c2 : Datetime.date) :
  Datetime.gt c1 c2 = false ->
  exists a2,
    parse_available_dates soup c2 = Ok a2 /\
    parse_available_dates soup c1
    = Ok (filter (fun r => on_or_before (fst r) c1) a2).
Proof.
  intros Hc. eexists. split; [apply parse_available_dates_spec |].
  rewrite parse_available_dates_spec, filter_flat_map. f_equal.
  apply flat_map_ext_in. intros h _. apply emitted_earlier_cutoff. exact Hc.
Qed.

(** ** What the program prints, it reads back *)

Lemma new_of_valid (d : Datetime.date) :
  valid_date d ->
  Datetime.new (Datetime.year d) (Datetime.month d) (Datetime.day d) = Ok d.
Proof.
  intros (Hy & Hm & Hd). unfold Datetime.new, Datetime.MINYEAR, Datetime.MAXYEAR.
  replace ((1 <=? Datetime.year d) && (Datetime.year d <=? 9999))%Z with true
    by (symmetry; apply andb_true_iff; split; apply Z.leb_le; lia).
  replace ((1 <=? Datetime.month d) && (Datetime.month d <=? 12))%Z with true
    by (symmetry; apply andb_true_iff; split; apply Z.leb_le; lia).
  replace ((1 <=? Datetime.day d) &&
           (Datetime.day d <=?
            Datetime.days_in_month (Datetime.year d) (Datetime.month d)))%Z
    with true by (symmetry; apply andb_true_iff; split; apply Z.leb_le; lia).
  destruct d. reflexivity.
Qed.

Lemma strftime_heading_format (d : Datetime.date) :
  1000 <= Datetime.year d <= 9999 ->
  Datetime.strftime d heading_format = heading_text (Datetime.weekday d) d.
Proof.
  intros Hy. unfold heading_format, heading_text. cbn [Datetime.strftime].
  rewrite (decimal_pad4 _ Hy). reflexivity.
Qed.

(** X8.  The date line of the log and of the mail, [strftime("%A %B %d, %Y")],
    is a heading the parser reads back to the same date.  (From the year
    1000 on: below, the padding of [%Y] is left to the C library.) *)
Theorem heading_format_round_trip (d : Datetime.date) :
  valid_date d ->
  1000 <= Datetime.year d ->
  Strptime.strptime (Datetime.strftime d heading_format) heading_format = Ok d.
Proof.
  intros Hv Hy. rewrite strftime_heading_format by (destruct Hv; lia).
  apply (strptime_heading_text _ (Datetime.year d) (Datetime.month d) (Datetime.day d)).
  - unfold Datetime.weekday.
    pose proof (Z.mod_pos_bound (Datetime.toordinal d + 6) 7 ltac:(lia)). lia.
  - apply new_of_valid. exact Hv.
Qed.

Lemma pattern_iso_format : Strptime.pattern iso_format = Ok iso_regex.
Proof. vm_compute. reflexivity. Qed.

Lemma match_dash {R : Type} (s : string) (g : Re.groupdict)
    (k : string -> string -> Re.groupdict -> option R) :
  Re.rmatch (Re.Chr "-") (String "-" s) g k = k "-" s g.
Proof. reflexivity. Qed.

Lemma match_month_number {R : Type} (m : Z) :
  1 <= m <= 12 ->
  forall (rest : string) (g : Re.groupdict)
         (k : string -> string -> Re.groupdict -> option R) (r : R),
    k (PyStr.pad2 m) rest (("m", PyStr.pad2 m) :: g) = Some r ->
    Re.rmatch month_regex (PyStr.pad2 m ++ rest) g k = Some r.
Proof.
  intros Hrange. pattern m.
  apply (Z_range_cases _ 1 (Z.to_nat 12)); [clear | lia].
  intros i Hi.
  do 12 (destruct i as [| i];
         [intros rest g k r H; vm_compute in H; vm_compute; rewrite H; reflexivity |]).
  lia.
Qed.

Lemma strftime_iso_format (d : Datetime.date) :
  1000 <= Datetime.year d <= 9999 ->
  Datetime.strftime d iso_format
  = PyStr.pad4 (Datetime.year d) ++ "-" ++ PyStr.pad2 (Datetime.month d) ++ "-"
    ++ PyStr.pad2 (Datetime.day d) ++ "".
Proof.
  intros Hy. unfold iso_format. cbn [Datetime.strftime].
  rewrite (decimal_pad4 _ Hy). reflexivity.
Qed.

Lemma re_match_iso (d : Datetime.date) :
  1000 <= Datetime.year d <= 9999 ->
  1 <= Datetime.month d <= 12 ->
  1 <= Datetime.day d <= 31 ->
  Re.re_match iso_regex (Datetime.strftime d iso_format)
  = Some ("",
          [("Y", PyStr.pad4 (Datetime.year d));
           ("m", PyStr.pad2 (Datetime.month d));
           ("d", PyStr.pad2 (Datetime.day d))]).
Proof.
  intros Hy Hm Hd. rewrite strftime_iso_format by exact Hy.
  unfold Re.re_match, iso_regex.
  rewrite rmatch_Seq, match_year.
  change ("-" ++ PyStr.pad2 (Datetime.month d) ++ "-" ++ PyStr.pad2 (Datetime.day d) ++ "")
    with (String "-" (PyStr.pad2 (Datetime.month d) ++
                      String "-" (PyStr.pad2 (Datetime.day d) ++ ""))).
  rewrite rmatch_Seq, match_dash.
  rewrite rmatch_Seq.
  match goal with
  | |- Re.rmatch _ (_ ++ ?rest) ?g ?k = Some ?r =>
      apply (match_month_number (Datetime.month d) Hm rest g k r); cbv beta
  end.
  rewrite rmatch_Seq, match_dash.
  rewrite rmatch_Seq.
  match goal with
  | |- Re.rmatch _ (_ ++ ?rest) ?g ?k = Some ?r =>
      apply (match_day (Datetime.day d) Hd rest g k r); cbv beta
  end.
  reflexivity.
Qed.

Lemma iso_format_round_trip (d : Datetime.date) :
  valid_date d ->
  1000 <= Datetime.year d ->
  Strptime.strptime (Datetime.strftime d iso_format) iso_format = Ok d.
Proof.
  intros Hv H1000. pose proof Hv as (Hy & Hm & Hd).
  assert (Hd31 : 1 <= Datetime.day d <= 31).
  { assert (Datetime.days_in_month (Datetime.year d) (Datetime.month d) <= 31).
    { unfold Datetime.days_in_month.
      repeat match goal with
             | |- context [if ?b then _ else _] => destruct b
             end; lia. }
    lia. }
  unfold Strptime.strptime, Strptime._strptime.
  rewrite pattern_iso_format. cbn [bind].
  rewrite (re_match_iso d ltac:(lia) Hm Hd31). cbn [PyStr.truthy].
  unfold Strptime.convert, Strptime.convert_group.
  cbn [String.eqb Ascii.eqb Bool.eqb].
  rewrite (int_pad4 (Datetime.year d)) by lia. cbn [bind].
  rewrite (int_pad2 (Datetime.month d)) by lia. cbn [bind].
  rewrite (int_pad2 (Datetime.day d)) by lia.
  cbn [bind Strptime.f_year Strptime.f_mon Strptime.f_day Strptime.defaults].
  rewrite (new_of_valid d Hv).
  cbn [bind Strptime.f_year Strptime.f_mon Strptime.f_day].
  exact (new_of_valid d Hv).
Qed.

(** X9.  A date written with [strftime("%Y-%m-%d")], as the default of
    [--until] is, is read back to the same date by the [strptime] that
    opens [monitor_appointments]: the loop is entered, after the banner
    that names that date.  (From the year 1000 on, as above.) *)
Theorem default_cutoff_is_accepted (environ : environment) (url : string)
    (interval : Z) (d : Datetime.date) :
  valid_date d ->
  1000 <= Datetime.year d ->
  Strptime.strptime (Datetime.strftime d iso_format) iso_format = Ok d /\
  monitor_appointments environ url (Datetime.strftime d iso_format) interval []
  = ([Print stdout ("Monitoring appointments until " ++ Datetime.isoformat d ++ " ...")],
     Polling).
Proof.
  intros Hv Hy. split; [exact (iso_format_round_trip d Hv Hy) |].
  unfold monitor_appointments.
  change "%Y-%m-%d" with iso_format.
  rewrite (iso_format_round_trip d Hv Hy). reflexivity.
Qed.

(** ** More about the notifier *)

(** The four ways [send_email_notification] can go. *)
Lemma send_email_notification_cases (environ : environment) (r : relay)
    (available_dates : list availability) (url : string)
    (cutoff_date : Datetime.date) :
  (exists e,
     (PyStr.int (get_default environ "APPT_MAIL_SMTP_PORT" "587") = Raise e \/
      (exists port,
         PyStr.int (get_default environ "APPT_MAIL_SMTP_PORT" "587") = Ok port) /\
      some_missing environ = false /\
      PyStr.utf8_encode_error (mail_body available_dates url cutoff_date) = Some e) /\
     send_email_notification environ r available_dates url cutoff_date
     = ([], Raise e)) \/
  (exists port,
     PyStr.int (get_default environ "APPT_MAIL_SMTP_PORT" "587") = Ok port /\
     some_missing environ = true /\
     send_email_notification environ r available_dates url cutoff_date
     = ([Print stderr
           ("[WARN] Email not sent: missing environment variables: "
            ++ PyStr.join ", "
                 (filter (fun key => falsy (environ key)) required_keys))],
        Ok tt)) \/
  (exists port session,
     PyStr.int (get_default environ "APPT_MAIL_SMTP_PORT" "587") = Ok port /\
     (some_missing environ = false /\
      PyStr.utf8_encode_error (mail_body available_dates url cutoff_date) = None) /\
     session_of environ r port available_dates url cutoff_date = (session, Ok tt) /\
     send_email_notification environ r available_dates url cutoff_date
     = ((session ++
         [Print stdout ("[INFO] Notification email sent to "
                        ++ str (environ "APPT_MAIL_RECIPIENT") ++ ".")])%list,
        Ok tt)) \/
  (exists port session e,
     PyStr.int (get_default environ "APPT_MAIL_SMTP_PORT" "587") = Ok port /\
     (some_missing environ = false /\
      PyStr.utf8_encode_error (mail_body available_dates url cutoff_date) = None) /\
     session_of environ r port available_dates url cutoff_date = (session, Raise e) /\
     send_email_notification environ r available_dates url cutoff_date
     = ((session ++
         [Print stderr ("[ERROR] Failed to send email: " ++ exn_str e)])%list,
        Ok tt)).
Proof.
  unfold send_email_notification.
  destruct (PyStr.int (get_default environ "APPT_MAIL_SMTP_PORT" "587"))
    as [port | e] eqn:Hport.
  2: { left. exists e. split; [left |]; reflexivity. }
  rewrite io_bind_lift_Ok, missing_keys_required.
  unfold some_missing.
  destruct (filter (fun key => falsy (environ key)) required_keys)
    as [| k ks] eqn:Hmissing.
  - assert (Hnone : existsb (fun key => falsy (environ key)) required_keys = false).
    { destruct (existsb _ required_keys) eqn:Hex; [| reflexivity].
      apply existsb_exists in Hex as (key & Hin & Hf).
      assert (Hk : In key (filter (fun key => falsy (environ key)) required_keys))
        by (apply filter_In; split; assumption).
      rewrite Hmissing in Hk. destruct Hk. }
    fold (mail_body available_dates url cutoff_date).
    fold (session_of environ r port available_dates url cutoff_date).
    unfold MIMEText.
    destruct (PyStr.utf8_encode_error (mail_body available_dates url cutoff_date))
      as [e |] eqn:Hbody.
    { left. exists e. split; [| reflexivity].
      right. split; [exists port; reflexivity |]. split; [exact Hnone | reflexivity]. }
    right. right. rewrite io_bind_lift_Ok.
    destruct (session_of environ r port available_dates url cutoff_date)
      as [session [[] | e]] eqn:Hs.
    + left. exists port, session. repeat split; try assumption; try reflexivity.
    + right. exists port, session, e. repeat split; try assumption; try reflexivity.
  - right. left. exists port. split; [reflexivity |]. split; [| reflexivity].
    apply existsb_exists. exists k.
    assert (Hk : In k (filter (fun key => falsy (environ key)) required_keys))
      by (rewrite Hmissing; left; reflexivity).
    apply filter_In in Hk. exact Hk.
Qed.

Ltac relay_cases r :=
  destruct r as [[?e |] [?e |] [?e |] [?e |] [?e |]];
  unfold smtp_session, smtp_exit, with_exit, try_except, attempt, io_bind, pure, lift;
  cbn [on_connect on_starttls on_login on_sendmail on_quit app fst snd];
  repeat match goal with
         | |- context [is_disconnected ?e] => destruct (is_disconnected e)
         end;
  cbn [app fst snd].

(** One session with the relay: it opens with the connection; the login
    is sent only once the TLS upgrade went through, and the message only
    once the login was accepted. *)
Lemma smtp_session_order (r : relay) (smtp_server : string) (smtp_port : Z)
    (smtp_user smtp_password sender recipient subject body : string) :
  let events :=
    fst (smtp_session r smtp_server smtp_port smtp_user smtp_password
           sender recipient subject body) in
  (exists tail, events = SmtpConnect smtp_server smtp_port :: tail) /\
  count is_connect events = 1%nat /\
  existsb is_print events = false /\
  (existsb is_login events = true ->
   on_connect r = None /\ on_starttls r = None) /\
  (existsb is_sendmail events = true ->
   on_connect r = None /\ on_starttls r = None /\ on_login r = None).
Proof.
  relay_cases r; cbv zeta; cbn;
    (split; [eexists; reflexivity |]);
    repeat split; try reflexivity; try discriminate.
Qed.

Lemma session_of_order (environ : environment) (r : relay) (port : Z)
    (available_dates : list availability) (url : string)
    (cutoff_date : Datetime.date) (session : list event) (res : result unit) :
  session_of environ r port available_dates url cutoff_date = (session, res) ->
  (exists tail,
     session = SmtpConnect (str (environ "APPT_MAIL_SMTP_SERVER")) port :: tail) /\
  count is_connect session = 1%nat /\
  existsb is_print session = false /\
  (existsb is_login session = true ->
   on_connect r = None /\ on_starttls r = None) /\
  (existsb is_sendmail session = true ->
   on_connect r = None /\ on_starttls r = None /\ on_login r = None).
Proof.
  intros Hs. unfold session_of in Hs.
  match type of Hs with
  | smtp_session ?r ?a ?b ?c ?d ?e ?f ?g ?h = _ =>
      pose proof (smtp_session_order r a b c d e f g h) as H
  end.
  cbv zeta in H. rewrite Hs in H. exact H.
Qed.

Lemma existsb_app_last (p : event -> bool) (l : list event) (e : event) :
  p e = false -> existsb p (l ++ [e]) = existsb p l.
Proof.
  intros He. rewrite existsb_app. cbn [existsb]. rewrite He.
  rewrite !orb_false_r. reflexivity.
Qed.

Lemma count_app_last (p : event -> bool) (l : list event) (e : event) :
  count p (l ++ [e]) = (count p l + (if p e then 1 else 0))%nat.
Proof.
  unfold count. rewrite filter_app, length_app. cbn [filter].
  destruct (p e); reflexivity.
Qed.

(** X11.  [send_email_notification] never sends credentials before the TLS
    upgrade has succeeded, never hands over the message before the login
    has been accepted, and opens at most one connection. *)
Theorem notifier_keeps_the_order (environ : environment) (r : relay)
    (available_dates : list availability) (url : string)
    (cutoff_date : Datetime.date) :
  let events :=
    fst (send_email_notification environ r available_dates url cutoff_date) in
  (existsb is_login events = true ->
   on_connect r = None /\ on_starttls r = None) /\
  (existsb is_sendmail events = true ->
   on_connect r = None /\ on_starttls r = None /\ on_login r = None) /\
  (count is_connect events <= 1)%nat.
Proof.
  cbv zeta.
  destruct (send_email_notification_cases environ r available_dates url cutoff_date)
    as [(e & _ & ->) | [(port & _ & _ & ->) | [(port & session & _ & _ & Hs & ->)
       | (port & session & e & _ & _ & Hs & ->)]]];
    cbn [fst].
  - repeat split; try discriminate. cbn. lia.
  - repeat split; try discriminate. cbn. lia.
  - destruct (session_of_order _ _ _ _ _ _ _ _ Hs) as (_ & Hc & _ & Hl & Hm).
    rewrite !existsb_app_last, count_app_last by reflexivity.
    cbn [is_connect]. repeat split; try (apply Hl; assumption);
      try (apply Hm; assumption). lia.
  - destruct (session_of_order _ _ _ _ _ _ _ _ Hs) as (_ & Hc & _ & Hl & Hm).
    rewrite !existsb_app_last, count_app_last by reflexivity.
    cbn [is_connect]. repeat split; try (apply Hl; assumption);
      try (apply Hm; assumption). lia.
Qed.

(** X12.  Whenever [send_email_notification] returns, it has printed exactly
    one line, as its last action. *)
Theorem notifier_prints_one_line (environ : environment) (r : relay)
    (available_dates : list availability) (url : string)
    (cutoff_date : Datetime.date) (events : list event) :
  send_email_notification environ r available_dates url cutoff_date
    = (events, Ok tt) ->
  count is_print events = 1%nat /\
  exists before to line, events = (before ++ [Print to line])%list.
Proof.
  destruct (send_email_notification_cases environ r available_dates url cutoff_date)
    as [(e & _ & ->) | [(port & _ & _ & ->) | [(port & session & _ & _ & Hs & ->)
       | (port & session & e & _ & _ & Hs & ->)]]];
    intros Heq; [discriminate Heq | |  | ].
  - injection Heq as <-. split; [reflexivity |].
    exists []. eexists. eexists. reflexivity.
  - injection Heq as <-. destruct (session_of_order _ _ _ _ _ _ _ _ Hs) as (_ & _ & Hp & _).
    split; [| eexists; eexists; eexists; reflexivity].
    rewrite count_app_last. cbn [is_print].
    unfold count. clear -Hp. induction session as [| x rest IH]; [reflexivity |].
    cbn [existsb] in Hp. apply orb_false_iff in Hp as [Hx Hrest].
    cbn [filter]. rewrite Hx. exact (IH Hrest).
  - injection Heq as <-. destruct (session_of_order _ _ _ _ _ _ _ _ Hs) as (_ & _ & Hp & _).
    split; [| eexists; eexists; eexists; reflexivity].
    rewrite count_app_last. cbn [is_print].
    unfold count. clear -Hp. induction session as [| x rest IH]; [reflexivity |].
    cbn [existsb] in Hp. apply orb_false_iff in Hp as [Hx Hrest].
    cbn [filter]. rewrite Hx. exact (IH Hrest).
Qed.

(** X10.  With a usable port value, and an address of the page and status
    texts that can be encoded, a connection to the relay is attempted if
    and only if none of the four required values is absent or empty: then
    the first action is the connection to the configured host, on the
    configured port, 587 when no port is set; otherwise the one warning is
    all that happens. *)
Theorem notifier_connects_iff_configured (environ : environment) (r : relay)
    (available_dates : list availability) (url : string)
    (cutoff_date : Datetime.date) (port : Z) :
  PyStr.int (get_default environ "APPT_MAIL_SMTP_PORT" "587") = Ok port ->
  PyStr.utf8_encode_error url = None ->
  (forall d st, In (d, Some st) available_dates ->
     PyStr.utf8_encode_error st = None) ->
  let events :=
    fst (send_email_notification environ r available_dates url cutoff_date) in
  (some_missing environ = true ->
   existsb is_network events = false /\
   events = [Print stderr
               ("[WARN] Email not sent: missing environment variables: "
                ++ PyStr.join ", "
                     (filter (fun key => falsy (environ key)) required_keys))]) /\
  (some_missing environ = false ->
   exists tail,
     events = SmtpConnect (str (environ "APPT_MAIL_SMTP_SERVER")) port :: tail) /\
  (environ "APPT_MAIL_SMTP_PORT" = None -> port = 587).
Proof.
  intros Hport Hurl Hstatus. cbv zeta.
  pose proof (mail_body_encodable available_dates url cutoff_date Hurl Hstatus)
    as Hbody.
  split; [| split].
  - intros Hmiss.
    destruct (send_email_notification_cases environ r available_dates url cutoff_date)
      as [(e & [He | (_ & Hn & _)] & _) | [(p & _ & _ & ->)
         | [(p & session & _ & (Hn & _) & _)
         | (p & session & e & _ & (Hn & _) & _)]]]; try congruence.
    split; reflexivity.
  - intros Hmiss.
    destruct (send_email_notification_cases environ r available_dates url cutoff_date)
      as [(e & [He | (_ & _ & He)] & _) | [(p & _ & Hn & _)
         | [(p & session & Hp & _ & Hs & ->)
         | (p & session & e & Hp & _ & Hs & ->)]]]; try congruence;
      assert (p = port) by congruence; subst p;
      destruct (session_of_order _ _ _ _ _ _ _ _ Hs) as ((tail & ->) & _);
      eexists; reflexivity.
  - intros Hnone. unfold get_default in Hport. rewrite Hnone in Hport.
    vm_compute in Hport. injection Hport as <-. reflexivity.
Qed.

(** X13.  When the four values are set, the text of the mail can be encoded
    and the relay accepts every step, the session is: connect, TLS
    upgrade, login, the message from the sender to the one recipient,
    quit, then the line that reports it.  The login name is
    APPT_MAIL_SMTP_USER, or the sender when that one is absent or empty. *)
Theorem successful_notification (environ : environment)
    (available_dates : list availability) (url : string)
    (cutoff_date : Datetime.date) (port : Z)
    (sender recipient smtp_server smtp_password : string) :
  PyStr.int (get_default environ "APPT_MAIL_SMTP_PORT" "587") = Ok port ->
  environ "APPT_MAIL_SENDER" = Some sender -> sender <> "" ->
  environ "APPT_MAIL_RECIPIENT" = Some recipient -> recipient <> "" ->
  environ "APPT_MAIL_SMTP_SERVER" = Some smtp_server -> smtp_server <> "" ->
  environ "APPT_MAIL_SMTP_PASSWORD" = Some smtp_password -> smtp_password <> "" ->
  PyStr.utf8_encode_error url = None ->
  (forall d st, In (d, Some st) available_dates ->
     PyStr.utf8_encode_error st = None) ->
  send_email_notification environ relay_up available_dates url cutoff_date
  = ([SmtpConnect smtp_server port;
      SmtpStarttls;
      SmtpLogin
        (if falsy (environ "APPT_MAIL_SMTP_USER") then sender
         else str (environ "APPT_MAIL_SMTP_USER"))
        smtp_password;
      SmtpSendmail sender [recipient] "Appointment Slot Found!"
        (mail_body available_dates url cutoff_date);
      SmtpQuit;
      Print stdout ("[INFO] Notification email sent to " ++ recipient ++ ".")],
     Ok tt).
Proof.
  intros Hport Hs Hs' Hr Hr' Hh Hh' Hp Hp' Hurl Hstatus.
  pose proof (mail_body_encodable available_dates url cutoff_date Hurl Hstatus)
    as Hbody.
  unfold mail_body in Hbody.
  unfold send_email_notification.
  rewrite Hport, io_bind_lift_Ok, missing_keys_required.
  unfold required_keys. cbn [filter]. rewrite Hs, Hr, Hh, Hp.
  assert (Hf : forall v, v <> "" -> falsy (Some v) = false).
  { intros [| c v] Hv; [contradiction | reflexivity]. }
  rewrite !Hf by assumption.
  unfold MIMEText. rewrite Hbody, io_bind_lift_Ok.
  unfold or_else. destruct (falsy (environ "APPT_MAIL_SMTP_USER")); reflexivity.
Qed.

(** ** More about the poll loop *)

Lemma print_found_lines (available_dates : list availability) :
  exists lines,
    print_found available_dates = (lines, Ok tt) /\
    forallb is_print lines = true.
Proof.
  induction available_dates as [| [date_obj status] rest (lines & IH & Hp)].
  - exists []. split; reflexivity.
  - eexists. cbn [print_found]. unfold print, emit, io_bind. rewrite IH.
    split; [reflexivity |]. cbn [app forallb is_print]. exact Hp.
Qed.

Lemma check_once_returns (environ : environment) (url : string)
    (cutoff_date : Datetime.date) (w : cycle) :
  exists events, check_once environ url cutoff_date w = (events, Ok tt).
Proof.
  unfold check_once.
  match goal with
  | |- exists _, try_except ?m ?h = _ => destruct m as [ev [[] | e]]
  end; simpl; eexists; reflexivity.
Qed.



(** X17.  With an interval that [time.sleep] refuses the loop runs the
    [try] statement of one cycle and leaves through the exception of the
    sleep: [ValueError] for a negative interval down to -9223372036,
    [OverflowError] below that and above 9223372036.  Nothing sleeps, and
    the cycles that would follow never happen. *)
Theorem refused_interval_stops_after_one_cycle (environ : environment)
    (url : string) (cutoff_date : Datetime.date) (interval : Z)
    (w : cycle) (world : list cycle) :
  interval < 0 \/ max_sleep < interval ->
  poll environ url cutoff_date interval (w :: world)
  = (fst (check_once environ url cutoff_date w),
     Left (if (- max_sleep <=? interval)%Z && (interval <? 0)%Z
           then ValueError "sleep length must be non-negative"
           else Exception "OverflowError"
                  "timestamp too large to convert to C _PyTime_t")).
Proof.
  intros Hint. cbn [poll].
  destruct (check_once_returns environ url cutoff_date w) as [ev ->].
  rewrite (sleep_refuses interval Hint).
  unfold io_bind. cbn [fst]. rewrite app_nil_r. reflexivity.
Qed.

Lemma io_bind_emit_lift_Ok {A B : Type} (e : event) (a : A) (f : A -> io B) :
  io_bind (io_bind (emit e) (fun _ => lift (Ok a))) f
  = (let (ev, r) := f a in (e :: ev, r)).
Proof. unfold io_bind, emit, lift. destruct (f a). reflexivity. Qed.

(** The three ways one cycle can go. *)
Lemma check_once_cases (environ : environment) (url : string)
    (cutoff_date : Datetime.date) (w : cycle) :
  (exists e,
     response w = Raise e /\
     check_once environ url cutoff_date w
     = ([HttpGet url;
         Print stderr ("[" ++ now_except w ++ "] Error while checking appointments: "
                       ++ exn_str e)],
        Ok tt)) \/
  (exists soup,
     response w = Ok soup /\
     parse_available_dates soup cutoff_date = Ok [] /\
     check_once environ url cutoff_date w
     = ([HttpGet url;
         Print stdout ("[" ++ now_try w ++ "] No appointments available up to "
                       ++ Datetime.isoformat cutoff_date ++ ".")],
        Ok tt)) \/
  (exists soup a rest lines sent outcome,
     response w = Ok soup /\
     parse_available_dates soup cutoff_date = Ok (a :: rest) /\
     print_found (a :: rest) = (lines, Ok tt) /\
     forallb is_print lines = true /\
     send_email_notification environ (mail w) (a :: rest) url cutoff_date
       = (sent, outcome) /\
     check_once environ url cutoff_date w
     = (HttpGet url
        :: Print stdout ("[" ++ now_try w ++ "] Found available appointments:")
        :: lines
        ++ Print stdout "Act quickly to book your preferred slot via the web interface."
        :: sent
        ++ match outcome with
           | Ok _ => []
           | Raise e =>
               [Print stderr ("[" ++ now_except w
                              ++ "] Error while checking appointments: "
                              ++ exn_str e)]
           end,
        Ok tt)%list).
Proof.
  unfold check_once, fetch_page.
  destruct (response w) as [soup | e] eqn:Hresp.
  2: { left. exists e. split; reflexivity. }
  right. rewrite io_bind_emit_lift_Ok. cbv beta.
  pose proof (parse_available_dates_spec soup cutoff_date) as Hparse.
  destruct (flat_map (emitted cutoff_date) (Soup.find_all soup heading_names))
    as [| a rest]; rewrite Hparse.
  - left. exists soup. repeat split; try assumption; reflexivity.
  - right.
    destruct (print_found_lines (a :: rest)) as (lines & Hlines & Hp).
    destruct (send_email_notification environ (mail w) (a :: rest) url cutoff_date)
      as [sent outcome] eqn:Hsend.
    exists soup, a, rest, lines, sent, outcome.
    repeat split; try assumption; try reflexivity.
    unfold print, try_except, io_bind, emit, lift.
    rewrite Hlines, Hsend.
    destruct outcome as [[] | e]; cbn [app]; rewrite <- ?app_assoc; cbn [app];
      try rewrite app_nil_r; reflexivity.
Qed.

Lemma notifier_no_get_no_sleep (environ : environment) (r : relay)
    (available_dates : list availability) (url : string)
    (cutoff_date : Datetime.date) :
  let events :=
    fst (send_email_notification environ r available_dates url cutoff_date) in
  existsb is_get events = false /\ existsb is_sleep events = false.
Proof.
  cbv zeta.
  destruct (send_email_notification_cases environ r available_dates url cutoff_date)
    as [(e & _ & ->) | [(port & _ & _ & ->) | [(port & session & _ & _ & Hs & ->)
       | (port & session & e & _ & _ & Hs & ->)]]];
    cbn [fst]; try (split; reflexivity);
    rewrite !existsb_app_last by reflexivity;
    unfold session_of in Hs; revert Hs;
    relay_cases r; intros Hs; inversion Hs; subst; split; reflexivity.
Qed.

Lemma forallb_print_no (p : event -> bool) (lines : list event) :
  (forall to line, p (Print to line) = false) ->
  forallb is_print lines = true -> existsb p lines = false.
Proof.
  intros Hp. induction lines as [| x rest IH]; [reflexivity |].
  cbn [forallb existsb]. intros H. apply andb_true_iff in H as [Hx Hrest].
  destruct x; try discriminate Hx. rewrite Hp, (IH Hrest). reflexivity.
Qed.

(** X14.  Every cycle requests the page exactly once, as its first action, and
    never sleeps inside the [try]. *)
Theorem cycle_requests_the_page_once (environ : environment) (url : string)
    (cutoff_date : Datetime.date) (w : cycle) :
  exists tail,
    fst (check_once environ url cutoff_date w) = HttpGet url :: tail /\
    existsb is_get tail = false /\ existsb is_sleep tail = false.
Proof.
  destruct (check_once_cases environ url cutoff_date w)
    as [(e & _ & ->) | [(soup & _ & _ & ->)
       | (soup & a & rest & lines & sent & outcome & _ & _ & _ & Hp & Hsend & ->)]];
    cbn [fst]; eexists; (split; [reflexivity |]); try (split; reflexivity).
  pose proof (notifier_no_get_no_sleep environ (mail w) (a :: rest) url cutoff_date)
    as H.
  cbv zeta in H. rewrite Hsend in H. cbn [fst] in H. destruct H as [Hg Hs].
  cbn [existsb is_get is_sleep orb].
  rewrite !existsb_app. cbn [existsb is_get is_sleep orb].
  rewrite !existsb_app, Hg, Hs.
  rewrite (forallb_print_no is_get lines) by (trivial || exact Hp).
  rewrite (forallb_print_no is_sleep lines) by (trivial || exact Hp).
  destruct outcome; split; reflexivity.
Qed.

(** X15.  The relay is contacted only in a cycle whose page gave at least one
    record, and then only when none of the required values is missing. *)
Theorem relay_contacted_only_on_findings (environ : environment) (url : string)
    (cutoff_date : Datetime.date) (w : cycle) :
  existsb is_connect (fst (check_once environ url cutoff_date w)) = true ->
  some_missing environ = false /\
  exists soup a rest,
    response w = Ok soup /\
    parse_available_dates soup cutoff_date = Ok (a :: rest).
Proof.
  destruct (check_once_cases environ url cutoff_date w)
    as [(e & _ & ->) | [(soup & _ & _ & ->)
       | (soup & a & rest & lines & sent & outcome & Hr & Hparse & _ & Hp & Hsend & ->)]];
    cbn [fst]; try discriminate.
  intros Hc. split; [| exists soup, a, rest; split; assumption].
  cbn [existsb is_connect orb] in Hc.
  rewrite !existsb_app in Hc. cbn [existsb is_connect orb] in Hc.
  rewrite !existsb_app in Hc.
  rewrite (forallb_print_no is_connect lines) in Hc by (trivial || exact Hp).
  assert (Hsent : existsb is_connect sent = true).
  { destruct outcome; cbn in Hc; rewrite ?orb_false_r in Hc; exact Hc. }
  destruct (send_email_notification_cases environ (mail w) (a :: rest) url cutoff_date)
    as [(e & _ & He) | [(port & _ & _ & He) | [(port & session & _ & (Hn & _) & _)
       | (port & session & e & _ & (Hn & _) & _)]]];
    try exact Hn; rewrite He in Hsend; injection Hsend as <- _; discriminate Hsent.
Qed.

(** ** Which years pass the year filter *)

(** X4.  What [strptime] accepts against ["%A %B %d, %Y"] among the texts
    of ASCII characters, and what it makes of it: the text is a weekday
    name, a month name, a day of one or two characters, a comma and a
    year of four digits, separated by runs of whitespace as shown; the
    names are taken in any case; the date returned has the month that is
    named and the day and the year that are written; which weekday is
    named has no effect on it.  (A text with a Unicode blank or a Unicode
    digit, which [\s] and [\d] take as well, is not covered.) *)
Theorem accepted_heading_shape (text : string) (d : Datetime.date) :
  all_chars PyStr.is_ascii text = true ->
  Strptime.strptime text heading_format = Ok d ->
  exists mA ws1 mB ws2 mD ws3 mY w,
    text = mA ++ ws1 ++ mB ++ ws2 ++ mD ++ "," ++ ws3 ++ mY /\
    (0 <= w <= 6 /\
     PyStr.lower mA = PyStr.lower (Datetime.name_at Datetime.day_name w)) /\
    PyStr.lower mB
      = PyStr.lower (Datetime.name_at Datetime.month_name (Datetime.month d)) /\
    (ws1 <> "" /\ all_chars PyStr.isspace ws1 = true) /\
    (ws2 <> "" /\ all_chars PyStr.isspace ws2 = true) /\
    (ws3 <> "" /\ all_chars PyStr.isspace ws3 = true) /\
    (1 <= String.length mD <= 2)%nat /\
    PyStr.int mD = Ok (Datetime.day d) /\
    (String.length mY = 4%nat /\ all_chars PyStr.isdigit mY = true) /\
    PyStr.int mY = Ok (Datetime.year d) /\
    valid_date d.
Proof.
  intros _ Hparse. pose proof (strptime_valid _ _ _ Hparse) as Hvalid.
  apply strptime_heading_inv in Hparse as (found & f & Hmatch & Hconv & ->).
  unfold Re.re_match in Hmatch.
  apply rmatch_sound in Hmatch as (m & rest & gs & Htext & Hm & Hk).
  injection Hk as -> <-. rewrite string_app_nil_r in Htext.
  rewrite app_nil_r in Hconv.
  apply heading_regex_shape in Hm
    as (mA & ws1 & mB & ws2 & mD & ws3 & mY & -> & Hgs & _ & _ & H1 & H2 & H3
        & HD & y1 & y2 & y3 & y4 & -> & Hy1 & Hy2 & Hy3 & Hy4).
  rewrite Hgs in Hconv.
  apply convert_fields in Hconv as ((w & Hw) & Hmo & Hday & Hyear).
  apply index_nth in Hw as [Hwr Hwn], Hmo as [_ Hmn].
  exists mA, ws1, mB, ws2, mD, ws3,
    (String y1 (String y2 (String y3 (String y4 "")))), w.
  cbn [Datetime.year Datetime.month Datetime.day].
  repeat split; try assumption; try apply H1; try apply H2; try apply H3.
  - cbn in Hwr. lia.
  - cbn in Hwr. lia.
  - rewrite <- Hwn. unfold Strptime.f_weekday, Datetime.name_at.
    change "" with (PyStr.lower "") at 1. rewrite map_nth. reflexivity.
  - rewrite <- Hmn. unfold Strptime.f_month, Datetime.name_at.
    change "" with (PyStr.lower "") at 1. rewrite map_nth. reflexivity.
  - destruct HD as [(c & ->) | (c1 & c2 & ->)]; cbn; lia.
  - destruct HD as [(c & ->) | (c1 & c2 & ->)]; cbn; lia.
  - cbn [all_chars]. rewrite Hy1, Hy2, Hy3, Hy4. reflexivity.
  - apply Hvalid.
  - apply Hvalid.
  - apply Hvalid.
  - apply Hvalid.
  - apply Hvalid.
  - apply Hvalid.
Qed.

Lemma digit_cases (a : ascii) :
  PyStr.isdigit a = true ->
  a = "0"%char \/ a = "1"%char \/ a = "2"%char \/ a = "3"%char \/ a = "4"%char \/
  a = "5"%char \/ a = "6"%char \/ a = "7"%char \/ a = "8"%char \/ a = "9"%char.
Proof.
  destruct a as [[] [] [] [] [] [] [] []]; intros H; try discriminate H;
    auto 10.
Qed.

Lemma int_year_202 (a b c d : ascii) (y : Z) :
  PyStr.isdigit a = true -> PyStr.isdigit d = true ->
  PyStr.contains "202" (String a (String b (String c (String d "")))) = true ->
  PyStr.int (String a (String b (String c (String d "")))) = Ok y ->
  2020 <= y <= 2029 \/ y mod 1000 = 202.
Proof.
  intros Ha Hd H202 Hint.
  cbn [PyStr.contains String.prefix] in H202.
  repeat match type of H202 with
         | context [ascii_dec ?x ?y] =>
             destruct (ascii_dec x y) as [Heq | Hne];
             [first [discriminate Heq | subst | idtac] | clear Hne]
         end;
    cbn in H202; try discriminate H202; clear H202.
  all: try (is_var d; apply digit_cases in Hd;
            repeat destruct Hd as [-> | Hd]; try subst d).
  all: try (is_var a; apply digit_cases in Ha;
            repeat destruct Ha as [-> | Ha]; try subst a).
  all: vm_compute in Hint; injection Hint as <-;
    first [left; lia | right; reflexivity].
Qed.

(** X3.  The test ["202" in text] on a heading that parses is a test on its
    year: a reported date lies in 2020..2029, or in a year whose last
    three digits are 202 (202, 1202, 2202, ... 9202). *)
Theorem reported_years (soup : Soup.node) (cutoff : Datetime.date) :
  exists available,
    parse_available_dates soup cutoff = Ok available /\
    forall d s, In (d, s) available ->
      2020 <= Datetime.year d <= 2029 \/ Datetime.year d mod 1000 = 202.
Proof.
  eexists. split; [apply parse_available_dates_spec |].
  intros d s Hin.
  apply in_flat_map in Hin as (heading & _ & Hin).
  apply In_emitted, visit_heading_Some in Hin.
  destruct Hin as (H202 & Hparse & _).
  apply strptime_heading_inv in Hparse as (found & f & Hmatch & Hconv & ->).
  cbn [Datetime.year].
  unfold Re.re_match in Hmatch.
  apply rmatch_sound in Hmatch as (m & rest & gs & Htext & Hm & Hk).
  injection Hk as -> <-. rewrite string_app_nil_r in Htext.
  rewrite app_nil_r in Hconv.
  apply heading_regex_shape in Hm
    as (mA & ws1 & mB & ws2 & mD & ws3 & mY & -> & Hgs & HA & HB & [_ H1] & [_ H2]
        & [_ H3] & HD & y1 & y2 & y3 & y4 & -> & Hy1 & Hy2 & Hy3 & Hy4).
  rewrite Hgs in Hconv. apply convert_fields in Hconv as (_ & _ & _ & Hconv).
  apply all_spaces_not_digit in H1, H2, H3.
  rewrite Htext in H202.
  rewrite !contains_202_skip in H202 by assumption.
  assert (H202' : PyStr.contains "202"
                    (String y1 (String y2 (String y3 (String y4 "")))) = true).
  { destruct HD as [(c & ->) | (c1 & c2 & ->)]; cbn [String.append] in H202.
    - rewrite contains_202_one_then, contains_202_skip in H202
        by (assumption || reflexivity).
      exact H202.
    - rewrite contains_202_two_then, contains_202_skip in H202
        by (assumption || reflexivity).
      exact H202. }
  exact (int_year_202 y1 y2 y3 y4 _ Hy1 Hy4 H202' Hconv).
Qed.

(** ** The further properties on concrete inputs *)

Lemma status_comes_from_heading_witness :
  exists s,
    Soup.first_string
      (Soup.descendants
         (Soup.self (h3_element "Wednesday August 27, 2025"
                       [para "10:00–12:00, 14:00–16:00";
                        Soup.Str Soup.NavigableString "10:00–12:00, 14:00–16:00"])))
    = Some s /\
    Soup.find_next_string
      (h3_element "Wednesday August 27, 2025"
         [para "10:00–12:00, 14:00–16:00";
          Soup.Str Soup.NavigableString "10:00–12:00, 14:00–16:00"])
    = Some s.
Proof.
  apply (status_comes_from_heading scenario_A).
  - vm_compute. left. reflexivity.
  - vm_compute. reflexivity.
Defined.

Lemma earlier_cutoff_filters_witness :
  exists a2,
    parse_available_dates two_headings cutoff_0930 = Ok a2 /\
    parse_available_dates two_headings cutoff_0828
    = Ok (filter (fun r => on_or_before (fst r) cutoff_0828) a2).
Proof.
  apply (earlier_cutoff_filters two_headings cutoff_0828 cutoff_0930).
  vm_compute. reflexivity.
Defined.

Lemma heading_format_round_trip_witness :
  Strptime.strptime
    (Datetime.strftime (Datetime.mkdate 2025 8 27) heading_format) heading_format
  = Ok (Datetime.mkdate 2025 8 27).
Proof.
  apply (heading_format_round_trip (Datetime.mkdate 2025 8 27)).
  - unfold valid_date. cbn. lia.
  - cbn. lia.
Defined.

Lemma default_cutoff_is_accepted_witness :
  Strptime.strptime (Datetime.strftime cutoff_0930 iso_format) iso_format
    = Ok cutoff_0930 /\
  monitor_appointments configured "https://example.org/slots"
    (Datetime.strftime cutoff_0930 iso_format) 600 []
  = ([Print stdout ("Monitoring appointments until "
                    ++ Datetime.isoformat cutoff_0930 ++ " ...")],
     Polling).
Proof.
  apply (default_cutoff_is_accepted configured "https://example.org/slots" 600
           cutoff_0930).
  - unfold valid_date. cbn. lia.
  - cbn. lia.
Defined.

Lemma notifier_connects_iff_configured_witness :
  exists tail,
    fst (send_email_notification configured relay_refuses_login one_slot
           "https://example.org/slots" cutoff_0828)
    = SmtpConnect (str (configured "APPT_MAIL_SMTP_SERVER")) 587 :: tail.
Proof.
  destruct (notifier_connects_iff_configured configured relay_refuses_login one_slot
              "https://example.org/slots" cutoff_0828 587) as (_ & H & _).
  - vm_compute. reflexivity.
  - vm_compute. reflexivity.
  - intros d st [Hin | []]. injection Hin as _ <-. vm_compute. reflexivity.
  - apply H. vm_compute. reflexivity.
Defined.

Lemma notifier_prints_one_line_witness :
  count is_print
    (fst (send_email_notification configured relay_refuses_login one_slot
            "https://example.org/slots" cutoff_0828)) = 1%nat /\
  exists before to line,
    fst (send_email_notification configured relay_refuses_login one_slot
           "https://example.org/slots" cutoff_0828)
    = (before ++ [Print to line])%list.
Proof.
  apply (notifier_prints_one_line configured relay_refuses_login one_slot
           "https://example.org/slots" cutoff_0828).
  vm_compute. reflexivity.
Defined.

Lemma successful_notification_witness :
  send_email_notification configured relay_up one_slot
    "https://example.org/slots" cutoff_0828
  = ([SmtpConnect "smtp.example.org" 587;
      SmtpStarttls;
      SmtpLogin
        (if falsy (configured "APPT_MAIL_SMTP_USER") then "me@example.org"
         else str (configured "APPT_MAIL_SMTP_USER"))
        "secret";
      SmtpSendmail "me@example.org" ["you@example.org"] "Appointment Slot Found!"
        (mail_body one_slot "https://example.org/slots" cutoff_0828);
      SmtpQuit;
      Print stdout ("[INFO] Notification email sent to " ++ "you@example.org" ++ ".")],
     Ok tt).
Proof.
  apply (successful_notification configured one_slot "https://example.org/slots"
           cutoff_0828 587 "me@example.org" "you@example.org" "smtp.example.org"
           "secret");
    first [ vm_compute; reflexivity
          | discriminate
          | intros d st [Hin | []]; injection Hin as _ <-; vm_compute; reflexivity ].
Defined.

Lemma relay_contacted_only_on_findings_witness :
  some_missing configured = false /\
  exists soup a rest,
    response finding_cycle = Ok soup /\
    parse_available_dates soup cutoff_0828 = Ok (a :: rest).
Proof.
  apply (relay_contacted_only_on_findings configured "https://example.org/slots"
           cutoff_0828 finding_cycle).
  vm_compute. reflexivity.
Defined.


Lemma refused_interval_stops_after_one_cycle_witness :
  poll configured "https://example.org/slots" cutoff_0828 (-1)
    [finding_cycle; finding_cycle]
  = (fst (check_once configured "https://example.org/slots" cutoff_0828 finding_cycle),
     Left (ValueError "sleep length must be non-negative")).
Proof.
  apply (refused_interval_stops_after_one_cycle configured
           "https://example.org/slots" cutoff_0828 (-1) finding_cycle [finding_cycle]).
  left. lia.
Defined.

Lemma accepted_heading_shape_witness :
  exists mA ws1 mB ws2 mD ws3 mY w,
    "Wednesday August 27, 2025" = mA ++ ws1 ++ mB ++ ws2 ++ mD ++ "," ++ ws3 ++ mY /\
    (0 <= w <= 6 /\
     PyStr.lower mA = PyStr.lower (Datetime.name_at Datetime.day_name w)) /\
    PyStr.lower mB
      = PyStr.lower (Datetime.name_at Datetime.month_name
                       (Datetime.month (Datetime.mkdate 2025 8 27))) /\
    (ws1 <> "" /\ all_chars PyStr.isspace ws1 = true) /\
    (ws2 <> "" /\ all_chars PyStr.isspace ws2 = true) /\
    (ws3 <> "" /\ all_chars PyStr.isspace ws3 = true) /\
    (1 <= String.length mD <= 2)%nat /\
    PyStr.int mD = Ok (Datetime.day (Datetime.mkdate 2025 8 27)) /\
    (String.length mY = 4%nat /\ all_chars PyStr.isdigit mY = true) /\
    PyStr.int mY = Ok (Datetime.year (Datetime.mkdate 2025 8 27)) /\
    valid_date (Datetime.mkdate 2025 8 27).
Proof.
  apply (accepted_heading_shape "Wednesday August 27, 2025"
           (Datetime.mkdate 2025 8 27)).
  - vm_compute. reflexivity.
  - vm_compute. reflexivity.
Defined.
